(* ===== verification/_CoqProject ===== *)
-Q . S2P
Prelude.v
PyStr.v
DocStore.v
Uuid.v
VectorStore.v
Retriever.v
Session.v
Knowlage.v
Chatbot.v
ChatLocal.v
About.v
Maintenance.v
Integrity.v
App.v
System.v
