(* ===== verification/Prelude.v ===== *)
(** * A verification development of the RAG chatbot (Streamlit pages)

    The program.  A Streamlit multipage app over two shared stores: a
    chromadb collection ["database"] in [./vectorDB] and a LangChain
    [LocalFileStore] in [./docstore] wrapped by [create_kv_docstore].
    - [src/pages/3Knowlage.py] ingests an uploaded PDF: it writes the file
      to [pdfFiles/], partitions it into elements, keeps tables and
      narrative text, summarises each kept element with a Groq model, puts
      the originals in the docstore under fresh [uuid4] ids and adds
      documents carrying those ids (["doc_id"]) to the collection.
    - [src/Chatbot.py] and [src/pages/2Chat Local.py] are chat pages: each
      run keeps [chat_history] in the session state, and a question runs a
      RAG chain: the [MultiVectorRetriever] searches the collection, maps
      the hits' [doc_id]s back to the originals through the docstore, and a
      model answers from them and the history.
    - [src/pages/4About.py] asks four fixed questions through the retriever
      and an LCEL chain; [src/pages/5Test.py] replaces one vector by hand.

    The files (library root S2P, in dependency order).
    - [Prelude.v] (this file): Python exceptions [PyExn]; the script monad
      [PyM S A = S -> res A * S], whose exceptions keep the state reached,
      with [ret], [raise], [bind] (notation [let!], [;;!]), [mapM],
      [forM_], [lift] and [zoom] (running a step on one object of the
      world); [uuid4] as a counter into a sequence; [LLMConfig], the model
      clients the scripts construct; three predicates on
      programs, [preserves P m] (an invariant of the state, whatever the
      run ends in), [returns Q m] (every value returned) and
      [raises_only E m] (every exception raised), with their bind, traversal
      and zoom rules and the tactics [solve_preserves] and [solve_raises];
      [readonly m] (the state is left as found, a [preserves] of every
      equation) and its zoom rule;
      the hint databases [rag] and [rag_rw]; shared list lemmas.
    - [PyStr.v]: Python strings: [in], [str.split()], [str.join], [str()]
      of an optional string, [str.replace] and [str.strip], with the
      split/join round trip.
    - [DocStore.v]: LangChain's [Document]; the docstore interface as a
      type class [DocStore] (mset/mget) and its contract [DocStoreSpec];
      [LocalFileStore] (key check, mset that stops at the first bad key,
      mget) and the [create_kv_docstore] instance [KVDocstore], proved to
      meet the contract ([KVDocstore_spec]: mset writes, mget reads the
      view and leaves the store as it was), and the mset/mget round trip.
    - [Uuid.v]: CPython's [uuid4()] and [str(UUID)] on
      128-bit integers with their masks and shifts written out; the ids the
      ingestion page draws ([new_doc_id]).
    - [VectorStore.v]: [Module Collection], chromadb's collection as a list
      of entries (id, embedding, document, metadata) with [upsert],
      [update], [query] (exact k nearest neighbours by squared L2 distance)
      and [get]; the LangChain [Chroma] wrapper ([add_texts],
      [add_documents], [similarity_search*], [update_document]) and the
      [OllamaEmbeddings] prefixes.
    - [Retriever.v]: [MultiVectorRetriever._get_relevant_documents] over
      any [DocStore]; its join theorem is proved against [DocStoreSpec];
      [StoreConfig], the directories, collection and embedding model a
      script opens (each page file defines its own from its set-up lines).
    - [Session.v]: what the chat pages share: the session [World] (stores,
      [chat_history], trace of Streamlit calls [UIEvent]), history
      initialisation and appends, and LangChain's message conversion and
      chat prompt template.
    - [Knowlage.v], [Chatbot.v], [ChatLocal.v], [About.v], [Maintenance.v]:
      one file per script of [src/], each a [Module] with the script's
      definitions under the names of the source ([upload], [index_block],
      [answer_turn], [chatbot_run], [local_turn], [ask_question],
      [test_run], ...), a [...Facts] module with the theorems and a
      [...Witness] module that runs them on concrete inputs.
    - [Integrity.v]: the referential integrity of the two stores (every
      [doc_id] in the collection is a docstore key whose file decodes)
      through ingestion and [5Test.py], and the docstore round trip of a
      block.
    - [App.v]: one browser session: the chat, local chat and test pages
      run in any order, as a reachability relation, with invariants of
      every reachable session; every script opens the same stores.
    - [System.v]: the whole app: ingestion runs and query-page runs in any
      order on the shared stores from empty stores.

    The theorems.  Ingestion ([Knowlage.v]): the exact world after a first
    upload, the text block indexing each element's own content under the
    [doc_id] of its original whatever the summaries, the
    failure on PDFs without tables, the upload guard that never retries,
    the categorisation by substring tests, the [Document] comprehensions
    over [doc_ids[i]] (a [zip_with], [IndexError] only when ids run out).  Chat ([Chatbot.v],
    [ChatLocal.v]): the exact outcome of a turn (the question reaches the
    model twice; the local page stores the re-joined words of the answer),
    error turns that leave an unanswered question in the history, the
    typing frames, and an invariant of every reachable session (the
    history converts to messages).  Retrieval ([Retriever.v],
    [VectorStore.v]): the join against the docstore contract, the
    dimension errors that the [nomic-embed-text] pages ([2Chat Local.py],
    [4About.py]) hit on the [mxbai-embed-large] collection.  Stores
    ([Integrity.v]): every indexed [doc_id] resolves to a stored original,
    retrieval after ingestion returns the originals, and [mget] of a
    block's ids gives back exactly the originals it wrote.  Ids
    ([Uuid.v]): a [str(uuid.uuid4())] is a 36-character valid docstore
    key (the program never parses an id or reads its bits, so nothing
    else of the [uuid] module is stated).  Errors ([Knowlage.v]): with those ids an
    upload raises only what the partitioner, the summary model or the
    vector store raise, never the docstore's key error.  Sessions
    ([App.v]): every reachable session keeps a convertible history, every
    context the pages show has at most [k = 4] documents, no reachable
    state is stuck (a question on the chat page is answered in one run
    when retrieval and the model answer, also after a run that raised),
    and the query pages never write the stores.  The whole app
    ([System.v]): in every state reached by uploads and query-page runs
    in any order, retrieval joins every hit to its stored original  Maintenance ([Maintenance.v]): [5Test.py]'s update
    replaces exactly the entry [id_update], raises
    [InvalidDimensionException] on a collection of another dimension, and
    changes nothing when [id_update] is absent.

    Modelling choices.  The services are section variables: [ollama]
    (embeddings, any function to integer vectors), [groq]/[chat_llm]/
    [local_llm] (models that may fail, functions of the client a script
    constructs, [LLMConfig], and of the prompt), [partition_pdf], [uuid4] (a
    sequence; the theorems that need fresh ids assume it, as the random
    [uuid4] gives them with overwhelming probability), [dumps]/[loads]
    (the JSON serialiser, assumed to round-trip), [relevance] (the score
    function).  Vectors are integer lists and the search is exact, which
    chromadb's HNSW index approximates;
    no theorem rests on which entries are nearest: the retrieval theorems
    hold for whatever hits the search returns (at most [k] of them), and
    the dimension errors are raised before any search.  Strings are byte strings; the two
    emoji/cursor literals are written as their UTF-8 bytes.  No fuel is
    needed: every loop of the scripts runs over a list, and CPython's
    [uuid] code and the string builtins are structural recursions, so
    every definition is total by construction and no termination theorem
    is stated.  The 16 random bytes of a [uuid4] are a section variable
    [urandom] (a [vec] of 16 bytes per draw).  Liveness is stated over the
    session's reachability relation: from every reachable state one more
    run reaches the answer, under hypotheses on the services only.  The
    maintenance script is not part of [System.v]'s app: it keeps the
    stores' integrity only when its hard-coded [doc_id] is stored, which
    [Integrity.v] states.  Not modelled:
    Streamlit's rendering (only the order and arguments of its calls, the
    trace), [st.set_page_config]/[os.makedirs]/[st.status], the PDF viewer
    import, the network, the partitioner's internals, and the float values
    of relevance scores, the [verbose] flag and stdout callback of the
    local page's client (they only print), and the imports. *)

From Stdlib Require Export String Ascii.
From stdpp Require Export base gmap strings list.

(** * Python's exceptions, as far as the program can raise them *)

(** The exceptions the modelled code paths raise.  A Python exception is
    not caught anywhere in the repository: it propagates to Streamlit, which
    prints it and stops the script run; side effects performed before the
    raise (files written, store entries put) stay. *)
Inductive PyExn : Type :=
  | IndexError                               (* [l[i]] out of range *)
  | InvalidKeyException (key : string)       (* LocalFileStore key check *)
  | ValueError (msg : string)                (* chromadb / message conversion *)
  | InvalidDimensionException (got expected : nat)  (* chromadb embeddings *)
  | KeyError (key : string)                  (* [d[key]] of a missing key *)
  | APIError (service : string).             (* a hosted service failed *)

#[export] Instance PyExn_eq_dec : EqDecision PyExn.
Proof. solve_decision. Defined.

(** * The script monad: state passing with exceptions that keep the state

    [PyM S A] is a computation on a world [S] that returns a value of [A] or
    raises a [PyExn]; the world reached at the raise is returned either way,
    as in Python where nothing is rolled back. *)
Inductive res (A : Type) : Type :=
  | Ok (a : A)
  | Err (e : PyExn).
Arguments Ok {A} a.
Arguments Err {A} e.

Definition PyM (S A : Type) : Type := S -> res A * S.

Declare Scope py_scope.
Delimit Scope py_scope with py.

Section Monad.
Context {S : Type}.

Definition ret {A} (a : A) : PyM S A := fun s => (Ok a, s).
Definition raise {A} (e : PyExn) : PyM S A := fun s => (Err e, s).
Definition get : PyM S S := fun s => (Ok s, s).
Definition put (s : S) : PyM S unit := fun _ => (Ok tt, s).
Definition modify (f : S -> S) : PyM S unit := fun s => (Ok tt, f s).

Definition bind {A B} (m : PyM S A) (k : A -> PyM S B) : PyM S B :=
  fun s => match m s with
           | (Ok a, s') => k a s'
           | (Err e, s') => (Err e, s')
           end.

(** [for x in xs: ys.append(f(x))], the loop stopping at the first
  exception; also the model of a comprehension and of [Runnable.batch]
  (which keeps the order of its inputs and raises the first error). *)
Fixpoint mapM {A B} (f : A -> PyM S B) (xs : list A) : PyM S (list B) :=
  match xs with
  | [] => ret []
  | x :: xs' => bind (f x) (fun y => bind (mapM f xs') (fun ys => ret (y :: ys)))
  end.

(** [for x in xs: f(x)] for its effects only. *)
Fixpoint forM_ {A} (f : A -> PyM S unit) (xs : list A) : PyM S unit :=
  match xs with
  | [] => ret tt
  | x :: xs' => bind (f x) (fun _ => forM_ f xs')
  end.

(** Lifting a pure Python computation that may raise. *)
Definition lift {A} (r : res A) : PyM S A := fun s => (r, s).
End Monad.

(** Running a computation on one component [T] of a bigger world [S]
    (an object the script holds, e.g. the vector store of the world). *)
Definition zoom {S T A} (getf : S -> T) (setf : T -> S -> S) (m : PyM T A) : PyM S A :=
  fun s => let '(r, t) := m (getf s) in (r, setf t s).

(** The process's [uuid.uuid4()]: the [n]-th call returns [uuid4 n]; the
    world counts the calls made so far. *)
Definition fresh_uuid (uuid4 : nat -> string) : PyM nat string :=
  fun n => (Ok (uuid4 n), S n).

Notation "'let!' x ':=' c 'in' k" := (bind c (fun x => k))
  (at level 10, x binder, c at level 100, k at level 200) : py_scope.
Notation "c ';;!' k" := (bind c (fun _ => k))
  (at level 100, right associativity) : py_scope.

Open Scope py_scope.
Open Scope string_scope.

(** * The language models the scripts construct *)

(** A model client as a script builds it: its LangChain class
    ([ChatGroq], [Ollama]), the model name, [temperature] when the script
    sets it, the environment variable of [api_key=os.getenv(...)] and
    [base_url].  The scripts' model services are functions of it: what a
    call answers depends only on the client it goes to and the prompt. *)
Record LLMConfig := mkLLMConfig {
  llm_class : string;
  llm_model : string;
  llm_temperature : option nat;
  llm_api_key_env : option string;
  llm_base_url : option string;
}.

(** * Python lists *)

(** [l[i]] for [0 <= i]: the element, or [IndexError]. *)
Definition py_index {A} (l : list A) (i : nat) : res A :=
  match l !! i with
  | Some x => Ok x
  | None => Err IndexError
  end.

(** [enumerate(xs)] *)
Definition enumerate {A} (xs : list A) : list (nat * A) :=
  zip (seq 0 (length xs)) xs.

Create HintDb rag discriminated.
Create Rewrite HintDb rag_rw.

(** * Invariants of scripts *)

(** A step preserves [P]: whatever it ends in, value or exception, a world
    satisfying [P] is taken to one satisfying [P]. *)
Definition preserves {S A} (P : S -> Prop) (m : PyM S A) : Prop :=
  forall s r s', P s -> m s = (r, s') -> P s'.

Section Preserves.
Context {S : Type} (P : S -> Prop).

Lemma preserves_ret {A} (a : A) : preserves P (ret a).
Proof. by intros s r s' Hs [= _ <-]. Qed.

Lemma preserves_raise {A} e : preserves (A := A) P (raise e).
Proof. by intros s r s' Hs [= _ <-]. Qed.

Lemma preserves_get : preserves P get.
Proof. by intros s r s' Hs [= _ <-]. Qed.

Lemma preserves_lift {A} (r0 : res A) : preserves P (lift r0).
Proof. by intros s r s' Hs [= _ <-]. Qed.

Lemma preserves_modify f : (forall s, P s -> P (f s)) -> preserves P (modify f).
Proof. intros Hf s r s' Hs [= _ <-]. by apply Hf. Qed.

Lemma preserves_bind {A B} (m : PyM S A) (k : A -> PyM S B) :
  preserves P m -> (forall a, preserves P (k a)) -> preserves P (bind m k).
Proof.
  intros Hm Hk s r s' Hs. unfold bind.
  destruct (m s) as [[a|e] s1] eqn:E.
  - apply Hk. by eapply Hm.
  - intros [= _ <-]. by eapply Hm.
Qed.

Lemma preserves_forM_ {A} (f : A -> PyM S unit) xs :
  (forall x, preserves P (f x)) -> preserves P (forM_ f xs).
Proof.
  intros Hf. induction xs as [|x xs IH]; simpl; [apply preserves_ret|].
  apply preserves_bind; [done|]. intros. apply IH.
Qed.

Lemma preserves_mapM {A B} (f : A -> PyM S B) xs :
  (forall x, preserves P (f x)) -> preserves P (mapM f xs).
Proof.
  intros Hf. induction xs as [|x xs IH]; simpl; [apply preserves_ret|].
  apply preserves_bind; [done|]. intros. apply preserves_bind; [done|].
  intros. apply preserves_ret.
Qed.
End Preserves.

#[export] Hint Resolve preserves_ret preserves_raise preserves_get preserves_lift : rag.

(** Split a script into its steps and discharge the ones the hints know. *)
Ltac solve_preserves :=
  repeat first [ solve [eauto with rag]
               | apply preserves_bind; [|intros ?]
               | apply preserves_forM_; intros ?
               | apply preserves_mapM; intros ? ].

(** * Steps that only read their state *)

(** [m] leaves the state as it found it, whatever it ends in: it keeps
    every equation [s = s0]. *)
Definition readonly {S A} (m : PyM S A) : Prop := forall s0, preserves (fun s => s = s0) m.

Lemma readonly_spec {S A} (m : PyM S A) s r s' : readonly m -> m s = (r, s') -> s' = s.
Proof. intros Hm E. exact (Hm s s r s' eq_refl E). Qed.

(** A read-only step on one part of a bigger state keeps every property of
    it, when writing back the part that was read changes nothing. *)
Lemma preserves_zoom_readonly {S T A} (P : S -> Prop) (getf : S -> T) setf (m : PyM T A) :
  (forall s, setf (getf s) s = s) -> readonly m -> preserves P (zoom getf setf m).
Proof.
  intros Hset Hm s r s' Hs. unfold zoom. destruct (m (getf s)) as [r' t] eqn:E.
  rewrite (readonly_spec m _ _ _ Hm E), Hset. by intros [= _ <-].
Qed.

(** * What a step returns and what it raises *)

(** Every value [m] returns satisfies [Q]. *)
Definition returns {S A} (Q : A -> Prop) (m : PyM S A) : Prop :=
  forall s a s', m s = (Ok a, s') -> Q a.

(** Every exception [m] raises satisfies [E]. *)
Definition raises_only {S A} (E : PyExn -> Prop) (m : PyM S A) : Prop :=
  forall s e s', m s = (Err e, s') -> E e.

Section ReturnsRaises.
Context {S : Type}.

(** An invariant carried through a bind whose continuation needs the
    value's property. *)
Lemma preserves_bind_returns {A B} (P : S -> Prop) (Q : A -> Prop) (m : PyM S A)
    (k : A -> PyM S B) :
  preserves P m -> returns Q m -> (forall a, Q a -> preserves P (k a)) ->
  preserves P (bind m k).
Proof.
  intros Hm Hq Hk s r s' Hs. unfold bind.
  destruct (m s) as [[a|e] s1] eqn:E.
  - apply (Hk a (Hq _ _ _ E)). by eapply Hm.
  - intros [= _ <-]. by eapply Hm.
Qed.

Lemma returns_ret {A} (Q : A -> Prop) a : Q a -> returns Q (ret (S := S) a).
Proof. by intros Ha s a' s' [= <- _]. Qed.

Lemma returns_bind {A B} (Q : B -> Prop) (m : PyM S A) (k : A -> PyM S B) :
  (forall a, returns Q (k a)) -> returns Q (bind m k).
Proof.
  intros Hk s b s'. unfold bind. destruct (m s) as [[a|e] s1]; [apply Hk|done].
Qed.

(** A bind whose continuation returns [Q] on the values [m] returns. *)
Lemma returns_bind_returns {A B} (Q1 : A -> Prop) (Q : B -> Prop) (m : PyM S A)
    (k : A -> PyM S B) :
  returns Q1 m -> (forall a, Q1 a -> returns Q (k a)) -> returns Q (bind m k).
Proof.
  intros Hm Hk s b s'. unfold bind. destruct (m s) as [[a|e] s1] eqn:E; [|done].
  by apply Hk, (Hm _ _ _ E).
Qed.

(** A traversal returns one value per element. *)
Lemma returns_mapM_length {A B} (f : A -> PyM S B) xs :
  returns (fun ys => length ys = length xs) (mapM f xs).
Proof.
  induction xs as [|x xs IH]; simpl; [by apply returns_ret|].
  apply returns_bind. intros y. apply (returns_bind_returns _ _ _ _ IH). intros ys Hys.
  apply returns_ret. simpl. by rewrite Hys.
Qed.

Lemma returns_weaken {A} (Q Q' : A -> Prop) (m : PyM S A) :
  returns Q m -> (forall a, Q a -> Q' a) -> returns Q' m.
Proof. intros Hm HQ s a s' E. by eapply HQ, Hm. Qed.

Lemma returns_mapM {A B} (Q : B -> Prop) (f : A -> PyM S B) xs :
  (forall x, returns Q (f x)) -> returns (Forall Q) (mapM f xs).
Proof.
  intros Hf. induction xs as [|x xs IH]; simpl; [by apply returns_ret|].
  intros s bs s'. unfold bind. destruct (f x s) as [[b|e] s1] eqn:E1; [|done].
  destruct (mapM f xs s1) as [[bs'|e] s2] eqn:E2; [|done].
  intros [= <- _]. constructor; [by eapply Hf|by eapply IH].
Qed.

Variable E : PyExn -> Prop.

(** The exceptions of a bind whose continuation is only run on values
    with [Q]. *)
Lemma raises_bind_returns {A B} (Q : A -> Prop) (m : PyM S A) (k : A -> PyM S B) :
  raises_only E m -> returns Q m -> (forall a, Q a -> raises_only E (k a)) ->
  raises_only E (bind m k).
Proof.
  intros Hm Hq Hk s e s'. unfold bind. destruct (m s) as [[a|e0] s1] eqn:Em.
  - apply (Hk a (Hq _ _ _ Em)).
  - intros [= <- _]. by eapply Hm.
Qed.

Lemma raises_weaken {A} (E' : PyExn -> Prop) (m : PyM S A) :
  raises_only E' m -> (forall e, E' e -> E e) -> raises_only E m.
Proof. intros Hm HE s e s' Em. by eapply HE, Hm. Qed.

Lemma raises_ret {A} (a : A) : raises_only (S := S) E (ret a).
Proof. by intros s e s'. Qed.

Lemma raises_get : raises_only (S := S) E get.
Proof. by intros s e s'. Qed.

Lemma raises_put s0 : raises_only (S := S) E (put s0).
Proof. by intros s e s'. Qed.

Lemma raises_modify f : raises_only (S := S) E (modify f).
Proof. by intros s e s'. Qed.

Lemma raises_raise {A} e0 : E e0 -> raises_only (S := S) (A := A) E (raise e0).
Proof. by intros He s e s' [= <- _]. Qed.

Lemma raises_lift {A} (r : res A) : (forall e, r = Err e -> E e) -> raises_only (S := S) E (lift r).
Proof. intros Hr s e s' [= -> _]. by apply Hr. Qed.

Lemma raises_bind {A B} (m : PyM S A) (k : A -> PyM S B) :
  raises_only E m -> (forall a, raises_only E (k a)) -> raises_only E (bind m k).
Proof.
  intros Hm Hk s e s'. unfold bind. destruct (m s) as [[a|e0] s1] eqn:Em.
  - apply Hk.
  - intros [= <- _]. by eapply Hm.
Qed.

Lemma raises_mapM {A B} (f : A -> PyM S B) xs :
  (forall x, raises_only E (f x)) -> raises_only E (mapM f xs).
Proof.
  intros Hf. induction xs as [|x xs IH]; simpl; [apply raises_ret|].
  apply raises_bind; [done|]. intros. apply raises_bind; [done|]. intros. apply raises_ret.
Qed.

Lemma raises_forM_ {A} (f : A -> PyM S unit) xs :
  (forall x, raises_only E (f x)) -> raises_only E (forM_ f xs).
Proof.
  intros Hf. induction xs as [|x xs IH]; simpl; [apply raises_ret|].
  apply raises_bind; [done|]. intros. apply IH.
Qed.
End ReturnsRaises.

Lemma raises_zoom {S T A} (E : PyExn -> Prop) (getf : S -> T) setf (m : PyM T A) :
  raises_only E m -> raises_only E (zoom getf setf m).
Proof.
  intros Hm s e s'. unfold zoom. destruct (m (getf s)) as [r t] eqn:Em.
  intros [= -> _]. by eapply Hm.
Qed.

Lemma raises_fresh_uuid (E : PyExn -> Prop) uuid4 : raises_only E (fresh_uuid uuid4).
Proof. by intros s e s'. Qed.

Lemma returns_zoom {S T A} (Q : A -> Prop) (getf : S -> T) setf (m : PyM T A) :
  returns Q m -> returns Q (zoom getf setf m).
Proof.
  intros Hm s a s'. unfold zoom. destruct (m (getf s)) as [r t] eqn:Em.
  intros [= -> _]. by eapply Hm.
Qed.

(** Every id drawn is a value of [uuid4]. *)
Lemma returns_fresh_uuid (Q : string -> Prop) uuid4 :
  (forall n, Q (uuid4 n)) -> returns Q (fresh_uuid uuid4).
Proof. intros HQ n a n' [= <- _]. apply HQ. Qed.

#[export] Hint Resolve raises_ret raises_get raises_put raises_modify raises_zoom
  raises_fresh_uuid : rag.

(** Split a script into its steps and discharge the ones that cannot
    raise; what is left is the raises of the script. *)
Ltac solve_raises :=
  repeat first [ solve [eauto with rag]
               | lazymatch goal with
                 | |- raises_only _ (bind _ _) => apply raises_bind; [|intros ?]
                 | |- raises_only _ (forM_ _ _) => apply raises_forM_; intros ?
                 | |- raises_only _ (mapM _ _) => apply raises_mapM; intros ?
                 | |- raises_only _ (zoom _ _ _) => apply raises_zoom
                 | |- raises_only _ (if decide _ then _ else _) => case_decide
                 end ].

(** * Shared automation *)

Ltac unfold_py := unfold bind, ret, raise, get, put, modify, lift in *.

(** * Monad laws and the lemmas on traversals the components share *)

Section MonadLemmas.
Context {S : Type}.

Lemma bind_ret_l {A B} (a : A) (k : A -> PyM S B) s :
  bind (ret a) k s = k a s.
Proof. reflexivity. Qed.

Lemma bind_ret_r {A} (m : PyM S A) s : bind m ret s = m s.
Proof. unfold bind, ret. by destruct (m s) as [[] ?]. Qed.

Lemma bind_assoc {A B C} (m : PyM S A) (k : A -> PyM S B) (h : B -> PyM S C) s :
  bind (bind m k) h s = bind m (fun a => bind (k a) h) s.
Proof. unfold bind. by destruct (m s) as [[] ?]. Qed.

Lemma bind_ok {A B} (m : PyM S A) (k : A -> PyM S B) s a s' :
  m s = (Ok a, s') -> bind m k s = k a s'.
Proof. unfold bind. by intros ->. Qed.

Lemma bind_err {A B} (m : PyM S A) (k : A -> PyM S B) s e s' :
  m s = (Err e, s') -> bind m k s = (Err e, s').
Proof. unfold bind. by intros ->. Qed.

(** A traversal whose body leaves the state alone and succeeds is [map]. *)
Lemma mapM_pure {A B} (f : A -> PyM S B) (g : A -> B) (xs : list A) s :
  (forall x, x ∈ xs -> f x s = (Ok (g x), s)) ->
  mapM f xs s = (Ok (map g xs), s).
Proof.
  induction xs as [|x xs IH]; intros Hf; [done|].
  simpl. rewrite (bind_ok _ _ _ (g x) s); [|apply Hf; set_solver].
  rewrite (bind_ok _ _ _ (map g xs) s); [done|].
  apply IH. intros. apply Hf. set_solver.
Qed.

(** The same over a mapped list. *)
Lemma mapM_map_pure {A A' B} (f : A' -> PyM S B) (h : A -> A') (g : A -> B) (xs : list A) s :
  (forall x, x ∈ xs -> f (h x) s = (Ok (g x), s)) ->
  mapM f (map h xs) s = (Ok (map g xs), s).
Proof.
  induction xs as [|x xs IH]; intros Hf; [done|].
  simpl. rewrite (bind_ok _ _ _ (g x) s); [|apply Hf; set_solver].
  rewrite (bind_ok _ _ _ (map g xs) s); [done|].
  apply IH. intros. apply Hf. set_solver.
Qed.

(** A traversal of a state-preserving body that raises nowhere keeps the
  number of elements. *)
Lemma mapM_length {A B} (f : A -> PyM S B) (xs : list A) s ys s' :
  mapM f xs s = (Ok ys, s') -> length ys = length xs.
Proof.
  revert s ys. induction xs as [|x xs IH]; intros s ys Hm; simpl in Hm.
  - by inversion Hm.
  - unfold bind, ret in Hm.
    destruct (f x s) as [[y|e] s1]; [|done].
    destruct (mapM f xs s1) as [[ys'|e] s2] eqn:E; [|done].
    inversion Hm; subst. simpl. f_equal. by eapply IH.
Qed.

(** The first failing element stops the traversal with its exception. *)
Lemma mapM_err_pure {A B} (f : A -> PyM S B) (g : A -> B) xs x e ys s :
  (forall y, y ∈ xs -> f y s = (Ok (g y), s)) ->
  f x s = (Err e, s) ->
  mapM f (xs ++ x :: ys) s = (Err e, s).
Proof.
  induction xs as [|y xs IH]; intros Hf Hx; simpl.
  - by apply bind_err with (s' := s).
  - rewrite (bind_ok _ _ _ (g y) s); [|apply Hf; set_solver].
    rewrite (bind_err _ _ _ e s); [done|].
    apply IH; [|done]. intros. apply Hf. set_solver.
Qed.

(** A loop of steps that never change the world and whose values satisfy
  [R] never changes the world, and its values satisfy [R]. *)
Lemma mapM_pure_spec {A B} (f : A -> PyM S B) (R : B -> Prop) xs s r s' :
  (forall x s0 r0 s0', f x s0 = (r0, s0') -> s0' = s0 /\ forall b, r0 = Ok b -> R b) ->
  mapM f xs s = (r, s') -> s' = s /\ forall bs, r = Ok bs -> Forall R bs.
Proof.
  intros Hf. revert r s'. induction xs as [|x xs IH]; intros r s'; simpl.
  - intros [= <- <-]. split; [done|]. by intros ? [= <-].
  - unfold bind at 1. destruct (f x s) as [[b|e] s1] eqn:Ex;
      destruct (Hf _ _ _ _ Ex) as [-> Hb]; [|by intros [= <- <-]].
    unfold bind. destruct (mapM f xs s) as [[bs|e] s2] eqn:Exs;
      destruct (IH _ _ eq_refl) as [-> Hbs]; intros [= <- <-]; split; try done.
    intros ? [= <-]. constructor; [by apply Hb|by apply Hbs].
Qed.
End MonadLemmas.

Lemma length_enumerate {A} (xs : list A) : length (enumerate xs) = length xs.
Proof. unfold enumerate. rewrite length_zip, length_seq. lia. Qed.

Lemma enumerate_lookup {A} (xs : list A) i p :
  enumerate xs !! i = Some p <-> p.1 = i /\ xs !! i = Some p.2.
Proof.
  unfold enumerate. rewrite lookup_zip_with_Some. split.
  - intros (a & b & -> & Ha & Hb). apply lookup_seq in Ha as [-> _]. done.
  - destruct p as [a b]; simpl. intros [-> Hb]. exists i, b.
    split; [done|]. split; [|done]. apply lookup_seq. split; [done|].
    by eapply lookup_lt_Some.
Qed.

Lemma py_index_lt {A} (l : list A) i :
  i < length l -> exists x, py_index l i = Ok x /\ l !! i = Some x.
Proof.
  intros Hi. apply lookup_lt_is_Some_2 in Hi as [x Hx].
  exists x. unfold py_index. by rewrite Hx.
Qed.

Lemma py_index_ge {A} (l : list A) i : length l <= i -> py_index l i = Err IndexError.
Proof. intros Hi. unfold py_index. by rewrite lookup_ge_None_2. Qed.

(** * Ranges of draws: [map f (seq n m)] and its sub-ranges *)

Lemma map_seq_sub_elem {A} (f : nat -> A) n m k l x :
  n <= k -> k + l <= n + m -> x ∈ map f (seq k l) -> x ∈ map f (seq n m).
Proof.
  intros H1 H2 Hx. apply list_elem_of_In, in_map_iff in Hx as (j & <- & Hj).
  apply list_elem_of_In, in_map. apply in_seq in Hj. apply in_seq. lia.
Qed.

Lemma Forall_map_seq_sub {A} (P : A -> Prop) (f : nat -> A) n m k l :
  n <= k -> k + l <= n + m -> Forall P (map f (seq n m)) -> Forall P (map f (seq k l)).
Proof.
  intros H1 H2 HP. apply Forall_forall. intros x Hx. rewrite Forall_forall in HP.
  apply HP. by eapply map_seq_sub_elem; [| |exact Hx].
Qed.

Lemma NoDup_map_seq_sub {A} (f : nat -> A) n m k l :
  n <= k -> k + l <= n + m -> NoDup (map f (seq n m)) -> NoDup (map f (seq k l)).
Proof.
  intros H1 H2 Hnd.
  replace m with ((k - n) + (l + (n + m - k - l))) in Hnd by lia.
  rewrite !seq_app, !map_app in Hnd. replace (n + (k - n)) with k in Hnd by lia.
  apply NoDup_app in Hnd as (_ & _ & Hnd). by apply NoDup_app in Hnd as (? & _ & _).
Qed.

(** Two disjoint sub-ranges of a duplicate-free range share no element. *)
Lemma map_seq_disjoint {A} (f : nat -> A) n m k1 l1 k2 l2 x :
  NoDup (map f (seq n m)) -> n <= k1 -> k1 + l1 <= k2 -> k2 + l2 <= n + m ->
  x ∈ map f (seq k1 l1) -> x ∈ map f (seq k2 l2) -> False.
Proof.
  intros Hnd H1 H2 H3 Hx1 Hx2.
  replace m with ((k2 - n) + (n + m - k2)) in Hnd by lia.
  rewrite seq_app, map_app in Hnd. apply NoDup_app in Hnd as (_ & Hdis & _).
  apply (Hdis x).
  - by apply (map_seq_sub_elem f n (k2 - n) k1 l1); [lia|lia|].
  - apply (map_seq_sub_elem f (n + (k2 - n)) (n + m - k2) k2 l2); [lia|lia|done].
Qed.

Lemma flat_map_seq_shift {B} (f : nat -> list B) start n :
  flat_map f (seq (S start) n) = flat_map (fun i => f (S i)) (seq start n).
Proof.
  revert start. induction n as [|n IH]; intros start; [done|].
  simpl. f_equal. apply IH.
Qed.


(** [omap] of a function defined on every element keeps them all. *)
Lemma omap_total {A B} (f : A -> option B) (l : list A) :
  (forall x, x ∈ l -> is_Some (f x)) -> Forall2 (fun x y => f x = Some y) l (omap f l).
Proof.
  induction l as [|x l IH]; intros Hf; [constructor|]. simpl.
  destruct (Hf x ltac:(set_solver)) as [y Hy]. rewrite Hy. constructor; [done|].
  apply IH. intros. apply Hf. set_solver.
Qed.

(** [filter] keeps a list all of whose elements pass. *)
Lemma filter_Forall_id {A} (P : A -> Prop) `{!forall x, Decision (P x)} (l : list A) :
  Forall P l -> filter P l = l.
Proof.
  induction l as [|x l IH]; intros Hl; [done|]. apply Forall_cons in Hl as [Hx Hl].
  rewrite filter_cons, decide_True by done. by rewrite IH.
Qed.

#[export] Hint Resolve mapM_pure py_index_ge : rag.
#[export] Hint Rewrite @bind_ret_l @length_enumerate : rag_rw.
