(* ===== verification/PyStr.v ===== *)
(** * Python's [str] operations that the pages use

    Strings are Rocq byte strings ([String.string]); the pages' text is UTF-8,
    and the operations below are the ones CPython performs on the ASCII part
    of it: the substring test [needle in hay] (used by the element
    categorisation of [pages/3Knowlage.py]), [str.split()] with no argument
    (the typing effect of [pages/2Chat Local.py]), [str(None)] (the table HTML
    of an element without one) and the character loop of [Chatbot.py]. *)

From S2P Require Import Prelude.

(** * Substring test: [needle in hay] *)

Fixpoint py_in (needle hay : string) : bool :=
  String.prefix needle hay ||
  match hay with
  | EmptyString => false
  | String _ hay' => py_in needle hay'
  end.

(** * [str.isspace] on one character, and [str.split()] *)

(** CPython's whitespace below 128: [\t \n \v \f \r], the separators
    [\x1c]-[\x1f] and the space. *)
Definition py_isspace (c : ascii) : bool :=
  let n := nat_of_ascii c in
  (((9 <=? n) && (n <=? 13)) || ((28 <=? n) && (n <=? 32)))%nat.

(** The splitting loop: [cur] is the word being read, in order. *)
Fixpoint split_go (s cur : string) : list string :=
  match s with
  | EmptyString => if String.eqb cur "" then [] else [cur]
  | String c s' =>
      if py_isspace c
      then (if String.eqb cur "" then split_go s' "" else cur :: split_go s' "")
      else split_go s' (cur ++ String c "")
  end.

(** [s.split()]: the maximal runs of non-whitespace, in order; leading and
    trailing whitespace give no empty words. *)
Definition py_split (s : string) : list string := split_go s "".

(** A string all of whose characters satisfy [p]. *)
Fixpoint str_forall (p : ascii -> bool) (s : string) : bool :=
  match s with
  | EmptyString => true
  | String c s' => p c && str_forall p s'
  end.

Definition no_space (w : string) : bool := str_forall (fun c => negb (py_isspace c)) w.

(** A word of [str.split()]: not empty, no whitespace. *)
Definition is_word (w : string) : bool := negb (String.eqb w "") && no_space w.

(** * [str(x)] of an optional string: [str(None)] is ["None"] *)
Definition py_str_opt (o : option string) : string :=
  match o with
  | Some s => s
  | None => "None"
  end.

(** * The characters of a string, as [for char in s] visits them *)
Fixpoint chars (s : string) : list ascii :=
  match s with
  | EmptyString => []
  | String c s' => c :: chars s'
  end.

Definition str1 (c : ascii) : string := String c EmptyString.

(** A non-ASCII literal of the source, by its UTF-8 bytes. *)
Definition utf8 (bytes : list nat) : string :=
  foldr (fun b s => String (ascii_of_nat b) s) EmptyString bytes.

(** [sep.join(xs)] *)
Fixpoint join_with (sep : string) (xs : list string) : string :=
  match xs with
  | [] => ""
  | [x] => x
  | x :: xs' => x ++ sep ++ join_with sep xs'
  end.

(** * Lemmas *)

Lemma prefix_spec (p s : string) :
  String.prefix p s = true <-> exists b, s = p ++ b.
Proof.
  revert s. induction p as [|c p IH]; intros [|c' s]; simpl.
  - split; [by exists ""|done].
  - split; [by exists (String c' s)|done].
  - split; [done|]. by intros [b ?].
  - destruct (ascii_dec c c') as [->|Hne].
    + rewrite IH. split; intros [b Hb]; exists b; [by rewrite Hb | by injection Hb].
    + split; [done|]. intros [b Hb]. injection Hb. intros _ ->. done.
Qed.

Lemma py_in_spec needle hay :
  py_in needle hay = true <-> exists a b, hay = a ++ needle ++ b.
Proof.
  induction hay as [|c hay IH]; cbn [py_in].
  - rewrite orb_false_r. split.
    + destruct needle; simpl; [|done]. intros _. by exists "", "".
    + intros (a & b & H). destruct a, needle; simpl in *; done.
  - rewrite orb_true_iff, IH. split.
    + intros [Hp | (a & b & ->)].
      * apply prefix_spec in Hp as [b Hb].
        exists "", b. simpl. by rewrite Hb.
      * by exists (String c a), b.
    + intros ([|c' a] & b & H); simpl in H.
      * left. apply prefix_spec. by exists b.
      * right. injection H as -> ->. by exists a, b.
Qed.

(** stdpp makes [String.append] [simpl never]; its two equations. *)
Lemma append_nil_l (s : string) : "" ++ s = s.
Proof. reflexivity. Qed.

Lemma append_cons (c : ascii) (s t : string) : String c s ++ t = String c (s ++ t).
Proof. reflexivity. Qed.

#[export] Hint Rewrite append_nil_l append_cons : rag_rw.

Lemma append_empty_r (s : string) : s ++ "" = s.
Proof. induction s as [|c s IH]; [done | by rewrite append_cons, IH]. Qed.

Lemma append_assoc_str (a b c : string) : a ++ (b ++ c) = (a ++ b) ++ c.
Proof. induction a as [|x a IH]; [done | by rewrite !append_cons, IH]. Qed.

Lemma append_eq_empty (a b : string) : a ++ b = "" -> a = "" /\ b = "".
Proof. destruct a, b; simpl; done. Qed.

Lemma eqb_empty_false (s : string) : s <> "" -> String.eqb s "" = false.
Proof. intros H. by apply String.eqb_neq. Qed.

#[export] Hint Rewrite append_empty_r : rag_rw.

(** Reading the characters of a word without whitespace only extends the
    current word. *)
Lemma split_go_word w s cur :
  no_space w = true -> split_go (w ++ s) cur = split_go s (cur ++ w).
Proof.
  revert cur. induction w as [|c w IH]; intros cur Hw; simpl.
  - by rewrite append_empty_r.
  - unfold no_space in Hw. simpl in Hw.
    apply andb_true_iff in Hw as [Hc Hw]. apply negb_true_iff in Hc.
    rewrite Hc, IH by done. by rewrite <- append_assoc_str.
Qed.

Lemma split_go_space c s cur :
  py_isspace c = true ->
  split_go (String c s) cur =
    if String.eqb cur "" then split_go s "" else cur :: split_go s "".
Proof. intros Hc. simpl. by rewrite Hc. Qed.

Lemma substring_0_S c s i :
  substring 0 (S i) (String c s) = String c (substring 0 i s).
Proof. done. Qed.

(** The words a string of words-and-blanks is made of. *)
Definition join_words (ws : list string) : string :=
  foldr (fun w acc => w ++ " " ++ acc) "" ws.

Lemma py_isspace_space : py_isspace " " = true.
Proof. reflexivity. Qed.

(** Round trip: splitting words each followed by a blank gives the words. *)
Lemma py_split_join_words ws :
  Forall (fun w => is_word w = true) ws -> py_split (join_words ws) = ws.
Proof.
  unfold py_split. induction ws as [|w ws IH]; intros Hws; [done|].
  inversion Hws as [|? ? Hw Hrest]; subst.
  unfold is_word in Hw. apply andb_true_iff in Hw as [Hne Hw].
  apply negb_true_iff, String.eqb_neq in Hne.
  simpl. rewrite split_go_word by done. autorewrite with rag_rw.
  rewrite split_go_space by done.
  rewrite eqb_empty_false by done. by rewrite IH.
Qed.

(** Every word [str.split()] returns is a word. *)
Lemma split_go_words s cur :
  no_space cur = true -> Forall (fun w => is_word w = true) (split_go s cur).
Proof.
  revert cur. induction s as [|c s IH]; intros cur Hcur; simpl.
  - destruct (String.eqb cur "") eqn:E; constructor; [|done].
    unfold is_word. by rewrite E, Hcur.
  - destruct (py_isspace c) eqn:Hc.
    + destruct (String.eqb cur "") eqn:E; [by apply IH|].
      constructor; [unfold is_word; by rewrite E, Hcur | by apply IH].
    + apply IH. unfold no_space in *. clear IH.
      induction cur as [|c' cur IHc]; simpl in *.
      * by rewrite Hc.
      * apply andb_true_iff in Hcur as [H1 H2]. by rewrite H1, IHc.
Qed.

Lemma py_split_words s : Forall (fun w => is_word w = true) (py_split s).
Proof. by apply split_go_words. Qed.

(** Hence [str.split()] is idempotent through [join_words]. *)
Lemma py_split_idem s : py_split (join_words (py_split s)) = py_split s.
Proof. apply py_split_join_words, py_split_words. Qed.

#[export] Hint Resolve py_split_words py_split_join_words : rag.

(** * Characters of strings *)

Lemma chars_app (s t : string) : chars (s ++ t) = (chars s ++ chars t)%list.
Proof. induction s as [|c s IH]; [done|]. rewrite append_cons. simpl. by rewrite IH. Qed.

Lemma chars_of_list (l : list ascii) : chars (string_of_list_ascii l) = l.
Proof. induction l as [|c l IH]; simpl; [done|by rewrite IH]. Qed.

Lemma of_chars (s : string) : string_of_list_ascii (chars s) = s.
Proof. induction s as [|c s IH]; simpl; [done|by rewrite IH]. Qed.

Lemma length_chars (s : string) : length (chars s) = String.length s.
Proof. induction s as [|c s IH]; simpl; [done|by rewrite IH]. Qed.

Lemma str_forall_chars p (s : string) : str_forall p s = forallb p (chars s).
Proof. induction s as [|c s IH]; simpl; [done|by rewrite IH]. Qed.

#[export] Hint Rewrite chars_app chars_of_list of_chars : rag_rw.
