(* ===== verification/DocStore.v ===== *)
(** * Documents and the key-value docstore

    LangChain's [Document] (page content and a metadata dict), the metadata
    key [id_key = "doc_id"] the pages share, the contract a docstore offers
    to the retriever (the typeclass [DocStore] with its laws [DocStoreSpec]),
    and its implementation in the repository: [LocalFileStore("./docstore")]
    wrapped by [create_kv_docstore], which stores every document serialised
    under a file named by its key.  The library code is modelled from its
    documented behaviour (the spec's "key-value docstore"): keys are checked
    against [^[a-zA-Z0-9_.\-/]+$] and an invalid key raises
    [InvalidKeyException]; [mset] writes the pairs in order, so a failing key
    leaves the earlier pairs written. *)

From S2P Require Import Prelude PyStr.

(** * [langchain.schema.document.Document] *)

Record Document := mkDocument {
  page_content : string;
  metadata : gmap string string;
}.

#[export] Instance Document_eq_dec : EqDecision Document.
Proof. solve_decision. Defined.

(** [id_key = "doc_id"] (Chatbot.py, 3Knowlage.py, 4About.py). *)
Definition id_key : string := "doc_id".

(** [Document(page_content=c, metadata={id_key: i})], the shape of every
    document the ingestion page builds. *)
Definition doc_with_id (c i : string) : Document :=
  mkDocument c {[ id_key := i ]}.

(** * The docstore contract *)

(** What the retriever calls: [mset] of key/document pairs and [mget] of a
    list of keys, both on the store's own state [St]. *)
Class DocStore (St : Type) := {
  mset : list (string * Document) -> PyM St unit;
  mget : list string -> PyM St (list (option Document));
}.

(** Sequential insertion of pairs into a map, later pairs winning. *)
Definition insert_all {V} (kvs : list (string * V)) (m : gmap string V) : gmap string V :=
  foldl (fun acc kv => <[kv.1 := kv.2]> acc) m kvs.

(** The laws of a docstore, against an abstract view of its state as a map
    and a predicate on acceptable keys. *)
Class DocStoreSpec (St : Type) `{DocStore St}
    (view : St -> gmap string Document) (key_ok : string -> bool)
    (inv : St -> Prop) := {
  mset_spec kvs s :
    inv s -> Forall (fun kv => key_ok kv.1 = true) kvs ->
    exists s', mset kvs s = (Ok tt, s') /\ inv s' /\ view s' = insert_all kvs (view s);
  mget_spec ks s :
    inv s -> Forall (fun k => key_ok k = true) ks ->
    mget ks s = (Ok (map (fun k => view s !! k) ks), s);
  (** [BaseStore.mget] returns one optional value per key, whatever the
      keys and the state. *)
  mget_length ks : returns (fun vs => length vs = length ks) (mget ks);
  (** [mget] reads: it leaves the store as it was, whether it returns or
      raises. *)
  mget_readonly ks : readonly (mget ks);
}.

(** * [LocalFileStore]: one file per key under the root directory *)

(** [_get_full_path]'s character check: [re.match(r"^[a-zA-Z0-9_.\-/]+$", key)]. *)
Definition key_char (c : ascii) : bool :=
  let n := nat_of_ascii c in
  (((48 <=? n) && (n <=? 57)) || ((65 <=? n) && (n <=? 90)) ||
   ((97 <=? n) && (n <=? 122)) || (n =? 95) || (n =? 46) || (n =? 45) || (n =? 47))%nat.

Definition valid_key (k : string) : bool :=
  negb (String.eqb k "") && str_forall key_char k.

Section LocalFileStore.
(** The bytes written to a file; the file store does not look at them. *)
Context {V : Type}.

Record LocalFileStore := mkLocalFileStore { lfs_files : gmap string V }.

Definition get_full_path (key : string) : res string :=
  if valid_key key then Ok key else Err (InvalidKeyException key).

(** [for key, value in key_value_pairs: full_path.write_bytes(value)] *)
Definition lfs_mset (kvs : list (string * V)) : PyM LocalFileStore unit :=
  forM_ (fun kv =>
    let! p := lift (get_full_path kv.1) in
    modify (fun s => mkLocalFileStore (<[p := kv.2]> (lfs_files s)))) kvs.

(** [values.append(full_path.read_bytes() if full_path.exists() else None)] *)
Definition lfs_mget (keys : list string) : PyM LocalFileStore (list (option V)) :=
  mapM (fun k =>
    let! p := lift (get_full_path k) in
    let! s := get in
    ret (lfs_files s !! p)) keys.
End LocalFileStore.
Arguments LocalFileStore : clear implicits.

(** * [create_kv_docstore(store)]: an [EncoderBackedStore] over the file
    store, with the identity key encoder and a document (de)serialiser. *)
Section KVDocstore.
Context {V : Type} (dumps : Document -> V) (loads : V -> res Document).

(** [mset]: serialise every value, then the file store's [mset]. *)
Definition kv_mset (kvs : list (string * Document)) : PyM (LocalFileStore V) unit :=
  lfs_mset (map (fun kv => (kv.1, dumps kv.2)) kvs).

(** [mget]: the file store's [mget], then deserialise what is not [None]. *)
Definition kv_mget (keys : list string) : PyM (LocalFileStore V) (list (option Document)) :=
  let! vs := lfs_mget keys in
  mapM (fun o => match o with
                 | Some v => let! d := lift (loads v) in ret (Some d)
                 | None => ret None
                 end) vs.

#[local] Instance KVDocstore : DocStore (LocalFileStore V) :=
  {| mset := kv_mset; mget := kv_mget |}.

(** The abstract view of the file store: the documents its files decode to. *)
Definition kv_view (s : LocalFileStore V) : gmap string Document :=
  omap (fun v => match loads v with Ok d => Some d | Err _ => None end) (lfs_files s).
End KVDocstore.

(** * Lemmas *)

Lemma insert_all_cons {V} kv kvs (m : gmap string V) :
  insert_all (kv :: kvs) m = insert_all kvs (<[kv.1 := kv.2]> m).
Proof. reflexivity. Qed.

Lemma insert_all_app {V} kvs1 kvs2 (m : gmap string V) :
  insert_all (kvs1 ++ kvs2) m = insert_all kvs2 (insert_all kvs1 m).
Proof. apply foldl_app. Qed.

(** A key not written keeps its value. *)
Lemma insert_all_lookup_ne {V} kvs (m : gmap string V) k :
  k ∉ kvs.*1 -> insert_all kvs m !! k = m !! k.
Proof.
  revert m. induction kvs as [|[k' v] kvs IH]; intros m Hk; [done|].
  rewrite insert_all_cons, IH by set_solver. simpl.
  rewrite lookup_insert_ne; [done|]. set_solver.
Qed.

(** The last write of a key wins. *)
Lemma insert_all_lookup_last {V} kvs1 k v kvs2 (m : gmap string V) :
  k ∉ kvs2.*1 -> insert_all (kvs1 ++ (k, v) :: kvs2) m !! k = Some v.
Proof.
  intros Hk. rewrite insert_all_app, insert_all_cons, insert_all_lookup_ne by done.
  apply lookup_insert_eq.
Qed.

(** Writing distinct keys [ks] with values [vs]: key [ks !! j] holds
    [vs !! j]. *)
Lemma insert_all_zip_lookup {V} ks (vs : list V) (m : gmap string V) j k :
  NoDup ks -> length vs = length ks -> ks !! j = Some k -> insert_all (zip ks vs) m !! k = vs !! j.
Proof.
  revert vs m j. induction ks as [|k0 ks IH]; intros [|v0 vs] m j Hnd Hlen Hj; try done.
  apply NoDup_cons in Hnd as [Hk0 Hnd]. simpl in Hlen. cbn [zip]. rewrite insert_all_cons.
  destruct j as [|j]; simpl in Hj.
  - injection Hj as <-. rewrite insert_all_lookup_ne; [apply lookup_insert_eq|].
    rewrite fst_zip by lia. done.
  - change ((v0 :: vs) !! S j) with (vs !! j). apply IH; [done|lia|done].
Qed.

Lemma map_zip_snd {A B C} (f : B -> C) (l : list A) (k : list B) :
  map (fun kv => (kv.1, f kv.2)) (zip l k) = zip l (map f k).
Proof. revert k. induction l as [|x l IH]; intros [|y k]; simpl; f_equal; auto. Qed.

#[export] Hint Rewrite @insert_all_cons @insert_all_app : rag_rw.

Section LocalFileStoreLemmas.
Context {V : Type}.

Lemma get_full_path_valid k : valid_key k = true -> get_full_path k = Ok k.
Proof. unfold get_full_path. by intros ->. Qed.

Lemma get_full_path_invalid k :
  valid_key k = false -> get_full_path k = Err (InvalidKeyException k).
Proof. unfold get_full_path. by intros ->. Qed.

(** [mset] of valid keys writes every pair, in order. *)
Lemma lfs_mset_ok (kvs : list (string * V)) s :
  Forall (fun kv => valid_key kv.1 = true) kvs ->
  lfs_mset kvs s = (Ok tt, mkLocalFileStore (insert_all kvs (lfs_files s))).
Proof.
  revert s. induction kvs as [|kv kvs IH]; intros [fs] Hkvs; [done|].
  inversion Hkvs as [|? ? Hk Hrest]; subst.
  unfold lfs_mset; simpl. unfold bind, lift, modify.
  rewrite get_full_path_valid by done. by apply IH.
Qed.

(** [mset] is not atomic: the first invalid key raises
  [InvalidKeyException], and the pairs before it have been written and
  stay written. *)
Lemma lfs_mset_err (kvs1 : list (string * V)) k v kvs2 s :
  Forall (fun kv => valid_key kv.1 = true) kvs1 -> valid_key k = false ->
  lfs_mset (kvs1 ++ (k, v) :: kvs2) s =
    (Err (InvalidKeyException k), mkLocalFileStore (insert_all kvs1 (lfs_files s))).
Proof.
  revert s. induction kvs1 as [|kv kvs1 IH]; intros [fs] Hkvs Hk.
  - unfold lfs_mset; simpl. unfold bind, lift. by rewrite get_full_path_invalid.
  - inversion Hkvs as [|? ? Hkv Hrest]; subst.
    unfold lfs_mset; simpl. unfold bind, lift, modify.
    rewrite get_full_path_valid by done. by apply IH.
Qed.

(** [mget] of valid keys reads each file, [None] where there is none. *)
Lemma lfs_mget_ok (ks : list string) (s : LocalFileStore V) :
  Forall (fun k => valid_key k = true) ks ->
  lfs_mget ks s = (Ok (map (fun k => lfs_files s !! k) ks), s).
Proof.
  intros Hks. apply mapM_pure. intros k Hk.
  unfold bind, lift, get, ret. rewrite get_full_path_valid; [done|].
  rewrite Forall_forall in Hks. by apply Hks.
Qed.

Lemma lfs_mset_cons_valid k (v : V) kvs fs :
  valid_key k = true ->
  lfs_mset ((k, v) :: kvs) (mkLocalFileStore fs) = lfs_mset kvs (mkLocalFileStore (<[k := v]> fs)).
Proof. intros Hk. unfold lfs_mset. cbn [forM_]. unfold bind, lift. by rewrite get_full_path_valid. Qed.

Lemma lfs_mset_cons_invalid k (v : V) kvs (s : LocalFileStore V) :
  valid_key k = false -> lfs_mset ((k, v) :: kvs) s = (Err (InvalidKeyException k), s).
Proof. intros Hk. unfold lfs_mset. cbn [forM_]. unfold bind, lift. by rewrite get_full_path_invalid. Qed.

(** An [mset] that returns has checked every key and written every pair. *)
Lemma lfs_mset_Ok_inv (kvs : list (string * V)) s s' :
  lfs_mset kvs s = (Ok tt, s') ->
  Forall (fun kv => valid_key kv.1 = true) kvs /\
  s' = mkLocalFileStore (insert_all kvs (lfs_files s)).
Proof.
  revert s. induction kvs as [|[k v] kvs IH]; intros [fs] Hrun.
  - by injection Hrun as <-.
  - destruct (valid_key k) eqn:Hk; [|by rewrite lfs_mset_cons_invalid in Hrun].
    unfold lfs_mset in Hrun; simpl in Hrun. unfold bind, lift, modify in Hrun.
    rewrite get_full_path_valid in Hrun by done.
    destruct (IH _ Hrun) as [Hall ->]. split; [by constructor|done].
Qed.

(** What any [mset] run does to the files, whatever it ends in: every file
  is an old one or a written pair, old files stay, and a run that
  succeeds has written every key. *)
Lemma lfs_mset_spec (kvs : list (string * V)) s r s' :
  lfs_mset kvs s = (r, s') ->
  (forall k v, lfs_files s' !! k = Some v ->
     lfs_files s !! k = Some v \/ ((k, v) ∈ kvs /\ valid_key k = true)) /\
  (forall k, is_Some (lfs_files s !! k) -> is_Some (lfs_files s' !! k)) /\
  (r = Ok tt -> forall kv, kv ∈ kvs -> is_Some (lfs_files s' !! kv.1)).
Proof.
  revert s. induction kvs as [|[k v] kvs IH]; intros [fs] Hrun.
  - injection Hrun as <- <-. split_and!; [by left|done|]. intros _ kv Hkv. set_solver.
  - destruct (valid_key k) eqn:Hk; [|rewrite lfs_mset_cons_invalid in Hrun by done;
      injection Hrun as <- <-; split_and!; [by left|done|done]].
    rewrite lfs_mset_cons_valid in Hrun by done.
    destruct (IH _ Hrun) as (H1 & H2 & H3); simpl in *. split_and!.
    + intros k' v' Hk'. destruct (H1 k' v' Hk') as [Hin|[Hin Hv]]; [|right; split; [set_solver|done]].
      destruct (decide (k = k')) as [->|Hne].
      * rewrite lookup_insert_eq in Hin. injection Hin as ->. right. split; [set_solver|done].
      * rewrite lookup_insert_ne in Hin by done. by left.
    + intros k' Hk'. apply H2. destruct (decide (k = k')) as [->|Hne].
      * rewrite lookup_insert_eq. by eexists.
      * by rewrite lookup_insert_ne.
    + intros Hr kv Hkv. apply elem_of_cons in Hkv as [->|Hkv]; [|by apply H3].
      apply H2. simpl. rewrite lookup_insert_eq. by eexists.
Qed.
End LocalFileStoreLemmas.

Section KVDocstoreLemmas.
Context {V : Type} (dumps : Document -> V) (loads : V -> res Document).
(** The serialiser round-trips: [loads(dumps(d)) == d]. *)
Hypothesis loads_dumps : forall d, loads (dumps d) = Ok d.

(** Every file of the store decodes to a document. *)
Definition kv_wf (s : LocalFileStore V) : Prop :=
  map_Forall (fun _ v => exists d, loads v = Ok d) (lfs_files s).

Lemma kv_view_insert k d (fs : gmap string V) :
  kv_view loads (mkLocalFileStore (<[k := dumps d]> fs)) =
    <[k := d]> (kv_view loads (mkLocalFileStore fs)).
Proof.
  apply map_eq. intros i. unfold kv_view; simpl.
  rewrite lookup_omap. destruct (decide (k = i)) as [->|Hne].
  - by rewrite !lookup_insert_eq; simpl; rewrite loads_dumps.
  - rewrite !lookup_insert_ne by done. by rewrite lookup_omap.
Qed.

Lemma kv_view_insert_all kvs (fs : gmap string V) :
  kv_view loads (mkLocalFileStore (insert_all (map (fun kv => (kv.1, dumps kv.2)) kvs) fs)) =
    insert_all kvs (kv_view loads (mkLocalFileStore fs)).
Proof.
  revert fs. induction kvs as [|kv kvs IH]; intros fs; [done|].
  cbn [map]. rewrite !insert_all_cons, IH. f_equal. apply kv_view_insert.
Qed.

Lemma kv_wf_insert_all kvs (fs : gmap string V) :
  kv_wf (mkLocalFileStore fs) ->
  kv_wf (mkLocalFileStore (insert_all (map (fun kv => (kv.1, dumps kv.2)) kvs) fs)).
Proof.
  revert fs. induction kvs as [|kv kvs IH]; intros fs Hwf; [done|].
  cbn [map]. rewrite insert_all_cons. apply IH. unfold kv_wf in *; simpl in *.
  apply map_Forall_insert_2; [|done]. exists kv.2. apply loads_dumps.
Qed.

(** Decoding what was encoded gives the documents back. *)
Lemma kv_decode_dumps (ds : list Document) (s : LocalFileStore V) :
  mapM (fun o => match o with
                 | Some v => let! d := lift (loads v) in ret (Some d)
                 | None => ret None
                 end) (map (fun d => Some (dumps d)) ds) s = (Ok (map Some ds), s).
Proof.
  induction ds as [|d ds IH]; [done|]. cbn [map mapM].
  rewrite (bind_ok _ _ _ (Some d) s); [|unfold bind, lift; by rewrite loads_dumps].
  by rewrite (bind_ok _ _ _ _ _ IH).
Qed.

(** Round trip through the files: after [mset] of documents under
    distinct keys succeeds, [mget] of those keys reads every document
    back, in order. *)
Lemma kv_mset_mget_roundtrip ks ds s s' :
  NoDup ks -> length ds = length ks -> kv_mset dumps (zip ks ds) s = (Ok tt, s') ->
  kv_mget loads ks s' = (Ok (map Some ds), s').
Proof.
  intros Hnd Hlen Hrun. unfold kv_mset in Hrun. apply lfs_mset_Ok_inv in Hrun as [Hkeys ->].
  rewrite map_zip_snd in Hkeys |- *.
  assert (Hv : Forall (fun k => valid_key k = true) ks).
  { rewrite <- (fst_zip ks (map dumps ds)) by (rewrite length_map; lia).
    apply Forall_fmap. exact Hkeys. }
  unfold kv_mget. rewrite (bind_ok _ _ _ _ _ (lfs_mget_ok ks _ Hv)). simpl.
  assert (E : map (fun k => insert_all (zip ks (map dumps ds)) (lfs_files s) !! k) ks =
              map (fun d => Some (dumps d)) ds).
  { apply list_eq. intros j. rewrite !list_lookup_fmap. destruct (ks !! j) as [k|] eqn:Hk; simpl.
    - rewrite (insert_all_zip_lookup _ _ _ j k) by (rewrite ?length_map; done).
      rewrite list_lookup_fmap. destruct (ds !! j) eqn:Hd; [done|].
      apply lookup_ge_None in Hd. apply lookup_lt_Some in Hk. lia.
    - apply lookup_ge_None in Hk. by rewrite (proj2 (lookup_ge_None ds j)) by lia. }
  rewrite E. apply kv_decode_dumps.
Qed.

(** The key-value docstore over the file store meets the docstore
  contract, with the decoded files as its view and [valid_key] as its
  key check: a functional refinement of a finite map of documents. *)
#[export] Instance KVDocstore_spec :
  @DocStoreSpec (LocalFileStore V) (KVDocstore dumps loads) (kv_view loads) valid_key kv_wf.
Proof.
  split.
  - intros kvs [fs] Hwf Hkvs. simpl. unfold kv_mset.
    rewrite lfs_mset_ok.
    2:{ apply Forall_map. eapply Forall_impl; [apply Hkvs|]. done. }
    eexists; split; [done|]. split; [by apply kv_wf_insert_all|].
    apply kv_view_insert_all.
  - intros ks [fs] Hwf Hks. simpl. unfold kv_mget.
    rewrite (bind_ok _ _ _ _ _ (lfs_mget_ok ks _ Hks)). simpl.
    apply mapM_map_pure. intros k _. unfold kv_view; simpl.
    rewrite lookup_omap. destruct (fs !! k) as [v|] eqn:Hv; simpl; [|done].
    destruct (Hwf k v Hv) as [d Hd]. rewrite Hd. done.
  - intros ks. simpl. unfold kv_mget. apply (returns_bind_returns _ _ _ _ (returns_mapM_length _ ks)).
    intros vs Hvs. eapply returns_weaken; [apply returns_mapM_length|]. intros ds ->. done.
  - intros ks s0. simpl. unfold kv_mget, lfs_mget. solve_preserves. case_match; solve_preserves.
Qed.
End KVDocstoreLemmas.

Module DocStoreWitness.
Lemma lfs_mset_err_witness :
  lfs_mset [("d1", 1); ("d 2", 2); ("d3", 3)] (mkLocalFileStore ∅) =
    (Err (InvalidKeyException "d 2"), mkLocalFileStore (insert_all [("d1", 1)] ∅)).
Proof.
  apply (lfs_mset_err [("d1", 1)] "d 2" 2 [("d3", 3)] (mkLocalFileStore ∅));
    [repeat constructor|reflexivity].
Defined.
End DocStoreWitness.
