(* ===== verification/Uuid.v ===== *)
(** * The document ids: [str(uuid.uuid4())]

    The ingestion page keys every original it stores by
    [str(uuid.uuid4())] (lines 130 and 140 of [pages/3Knowlage.py]).  This
    file models the two functions of CPython's [uuid] module involved,
    on 128-bit integers kept as [Z] with their bit operations written out:
    [UUID(bytes=..., version=...)] (the [int.from_bytes] of the 16 bytes,
    then the variant and version bits set by masks and shifts) and
    [UUID.__str__] (['%032x' % int] cut into five groups).  The theorem:
    the integer of a [uuid4] is a 128-bit value, so its string is 36
    characters that [LocalFileStore] accepts as a key. *)

From Stdlib Require Import ZArith NArith Strings.Byte.
From stdpp Require Import vector.
From S2P Require Import Prelude PyStr DocStore.

Module Uuid.
Local Open Scope Z_scope.

(** [int.from_bytes(bytes)]: big-endian, unsigned. *)
Definition int_from_bytes (bs : list Byte.byte) : Z :=
  fold_left (fun acc b => acc * 256 + Z.of_N (Byte.to_N b)) bs 0.

(** The [if version is not None:] block of [UUID.__init__]: clear the
    variant bits and set them to [10], clear the version nibble and put
    [version] there. *)
Definition set_version (int version : Z) : Z :=
  let int := Z.land int (Z.lnot (Z.shiftl 0xc000 48)) in
  let int := Z.lor int (Z.shiftl 0x8000 48) in
  let int := Z.land int (Z.lnot (Z.shiftl 0xf000 64)) in
  Z.lor int (Z.shiftl version 76).

(** [UUID(bytes=bs, version=version)] *)
Definition uuid_from_bytes (bs : list Byte.byte) (version : option Z) : res Z :=
  if negb (length bs =? 16)%nat then Err (ValueError "bytes is not a 16-char string") else
  let int := int_from_bytes bs in
  match version with
  | None => Ok int
  | Some v =>
      if (1 <=? v) && (v <=? 8) then Ok (set_version int v)
      else Err (ValueError "illegal version number")
  end.

(** [uuid.uuid4()]: [UUID(bytes=os.urandom(16), version=4)], on the 16
    bytes [os.urandom(16)] returns. *)
Definition uuid4 (random : vec Byte.byte 16) : Z :=
  set_version (int_from_bytes (vec_to_list random)) 4.

(** One lower-case hexadecimal digit of ['%x']. *)
Definition hex_digit (d : Z) : ascii :=
  ascii_of_nat (Z.to_nat (if d <? 10 then 48 + d else 87 + d)).

(** The last [n] hexadecimal digits of [i], most significant first. *)
Fixpoint hex_digits (n : nat) (i : Z) : list ascii :=
  match n with
  | O => []
  | S n' => (hex_digits n' (i / 16) ++ [hex_digit (i mod 16)])%list
  end.

(** The number of digits of ['%x' % i], for [i >= 0]. *)
Definition hex_len (i : Z) : nat :=
  if i <=? 0 then 1%nat else S (Z.to_nat (Z.log2 i / 4)).

(** ['%032x' % i] for [i >= 0]: at least 32 digits, zero-padded. *)
Definition fmt_032x (i : Z) : string :=
  string_of_list_ascii (hex_digits (Nat.max 32 (hex_len i)) i).

(** [s[a:b]] and [s[a:]] for [0 <= a <= b]. *)
Definition py_slice (s : string) (a b : nat) : string :=
  string_of_list_ascii (take (b - a) (drop a (chars s))).
Definition py_slice_from (s : string) (a : nat) : string :=
  string_of_list_ascii (drop a (chars s)).

(** [UUID.__str__] *)
Definition uuid_str (int : Z) : string :=
  let hex := fmt_032x int in
  py_slice hex 0 8 ++ "-" ++ py_slice hex 8 12 ++ "-" ++ py_slice hex 12 16 ++ "-" ++
  py_slice hex 16 20 ++ "-" ++ py_slice_from hex 20.

(** [str(uuid.uuid4())] of the ingestion page (lines 130 and 140). *)
Definition new_doc_id (random : vec Byte.byte 16) : string := uuid_str (uuid4 random).
End Uuid.

Module UuidFacts.
Import Uuid.
Local Open Scope Z_scope.

(** * The integer: 128 bits *)

(** Push [Z.testbit] through the bit operations, down to the bits of the
    operands. *)
Ltac zbits :=
  repeat first [ rewrite Z.lor_spec | rewrite Z.land_spec | rewrite Z.lnot_spec by lia
               | rewrite Z.shiftl_spec by lia | rewrite Z.shiftr_spec by lia
               | rewrite Z.testbit_ones by lia ].

(** Case analysis on the comparisons of indices that bit lemmas leave. *)
Ltac zcases :=
  repeat match goal with
  | |- context [?a <=? ?b] => destruct (Z.leb_spec a b)
  | |- context [?a <? ?b] => destruct (Z.ltb_spec a b)
  | |- context [?a =? ?b] => destruct (Z.eqb_spec a b)
  | |- context [decide ?P] => destruct (decide P)
  | |- context [bool_decide ?P] => case_bool_decide
  end; simpl; try lia; try (destruct (Z.testbit _ _)); reflexivity.

Lemma int_from_bytes_acc bs acc :
  fold_left (fun acc b => acc * 256 + Z.of_N (Byte.to_N b)) bs acc =
  acc * 256 ^ Z.of_nat (length bs) + int_from_bytes bs.
Proof.
  unfold int_from_bytes. revert acc. induction bs as [|b bs IH]; intros acc; simpl; [lia|].
  rewrite (IH (acc * 256 + _)), (IH (0 * 256 + _)). rewrite Nat2Z.inj_succ, Z.pow_succ_r by lia.
  lia.
Qed.

Lemma int_from_bytes_range bs : 0 <= int_from_bytes bs < 256 ^ Z.of_nat (length bs).
Proof.
  induction bs as [|b bs IH]; [done|].
  unfold int_from_bytes. simpl. rewrite int_from_bytes_acc. fold (int_from_bytes bs).
  pose proof (Byte.to_N_bounded b). rewrite Nat2Z.inj_succ, Z.pow_succ_r by lia. nia.
Qed.

(** A non-negative integer with no bit at or above [n] is below [2^n]. *)
Lemma bits_below x n :
  0 <= n -> 0 <= x -> (forall j, n <= j -> Z.testbit x j = false) -> x < 2 ^ n.
Proof.
  intros Hn Hx Hj. enough (E : x mod 2 ^ n = x).
  { rewrite <- E. apply Z.mod_pos_bound. lia. }
  apply Z.bits_inj'. intros j Hj0. destruct (Z.lt_ge_cases j n).
  - by rewrite Z.mod_pow2_bits_low.
  - rewrite Z.mod_pow2_bits_high by lia. by rewrite Hj.
Qed.

(** A value below [2^n] has no bit at or above [n]. *)
Lemma bits_above x n j : 0 <= x < 2 ^ n -> n <= j -> Z.testbit x j = false.
Proof.
  intros Hx Hj. assert (0 <= n) by (destruct (Z.lt_ge_cases n 0); [rewrite Z.pow_neg_r in Hx by lia|]; lia).
  rewrite <- (Z.mod_small x (2 ^ n)) by lia. apply Z.mod_pow2_bits_high. lia.
Qed.

(** The bits of [set_version int 4]: bit 62 cleared, bit 63 set, the
    nibble 76-79 holding [4], every other bit the one of [int]. *)
Lemma set_version4_bits int j : 0 <= j ->
  Z.testbit (set_version int 4) j =
  if decide (j = 62) then false else if decide (j = 63) then true
  else if decide (76 <= j < 80) then bool_decide (j = 78) else Z.testbit int j.
Proof.
  intros Hj. unfold set_version.
  change (Z.shiftl 0xc000 48) with (Z.shiftl (Z.ones 2) 62).
  change (Z.shiftl 0x8000 48) with (Z.shiftl (Z.ones 1) 63).
  change (Z.shiftl 0xf000 64) with (Z.shiftl (Z.ones 4) 76).
  change (Z.shiftl 4 76) with (Z.shiftl (Z.ones 1) 78).
  zbits. zcases.
Qed.

Lemma uuid4_bits r j : 0 <= j ->
  Z.testbit (uuid4 r) j =
  if decide (j = 62) then false else if decide (j = 63) then true
  else if decide (76 <= j < 80) then bool_decide (j = 78)
  else Z.testbit (int_from_bytes (vec_to_list r)) j.
Proof. apply set_version4_bits. Qed.

Lemma int_from_bytes_vec_range (r : vec Byte.byte 16) :
  0 <= int_from_bytes (vec_to_list r) < 2 ^ 128.
Proof.
  pose proof (int_from_bytes_range (vec_to_list r)) as H. rewrite length_vec_to_list in H.
  exact H.
Qed.

Lemma uuid4_range r : 0 <= uuid4 r < 2 ^ 128.
Proof.
  pose proof (int_from_bytes_vec_range r) as Hb.
  assert (Hn : 0 <= uuid4 r).
  { unfold uuid4, set_version.
    repeat first [apply Z.lor_nonneg; split | apply Z.land_nonneg; left | apply Z.shiftl_nonneg | lia]. }
  split; [done|]. apply bits_below; [lia|done|]. intros j Hj.
  rewrite uuid4_bits by lia. rewrite !decide_False by lia. by apply (bits_above _ 128).
Qed.

(** * The string: 32 digits in five groups *)

Definition hex_alphabet : list ascii := chars "0123456789abcdef".

(** Every [d] below 16 is one of the sixteen cases. *)
Lemma Z_cases16 (P : Z -> Prop) :
  P 0 -> P 1 -> P 2 -> P 3 -> P 4 -> P 5 -> P 6 -> P 7 -> P 8 -> P 9 ->
  P 10 -> P 11 -> P 12 -> P 13 -> P 14 -> P 15 -> forall d, 0 <= d < 16 -> P d.
Proof.
  intros ? ? ? ? ? ? ? ? ? ? ? ? ? ? ? ? d Hd.
  assert (Hd16 : d = 0 \/ d = 1 \/ d = 2 \/ d = 3 \/ d = 4 \/ d = 5 \/ d = 6 \/ d = 7 \/ d = 8 \/
          d = 9 \/ d = 10 \/ d = 11 \/ d = 12 \/ d = 13 \/ d = 14 \/ d = 15) by lia.
  by destruct_or!; subst.
Qed.

Lemma hex_digit_spec d : 0 <= d < 16 -> hex_digit d ∈ hex_alphabet.
Proof. revert d. apply Z_cases16; vm_compute; set_solver. Qed.

Lemma length_hex_digits n i : length (hex_digits n i) = n.
Proof. revert i. induction n as [|n IH]; intros i; simpl; [done|]. rewrite length_app, IH. simpl. lia. Qed.

Lemma hex_digits_alphabet n i : Forall (fun c => c ∈ hex_alphabet) (hex_digits n i).
Proof.
  revert i. induction n as [|n IH]; intros i; simpl; [done|]. apply Forall_app. split; [done|].
  apply Forall_singleton. apply hex_digit_spec. apply Z.mod_pos_bound. lia.
Qed.

Lemma hex_len_le i : 0 <= i < 2 ^ 128 -> (hex_len i <= 32)%nat.
Proof.
  intros Hi. unfold hex_len. destruct (Z.leb_spec i 0); [lia|].
  assert (Z.log2 i < 128) by (apply Z.log2_lt_pow2; lia).
  assert (Z.log2 i / 4 < 32) by (apply Z.div_lt_upper_bound; lia).
  pose proof (Z.log2_nonneg i). assert (0 <= Z.log2 i / 4) by (apply Z.div_pos; lia). lia.
Qed.

Lemma fmt_032x_small i : 0 <= i < 2 ^ 128 -> fmt_032x i = string_of_list_ascii (hex_digits 32 i).
Proof. intros Hi. unfold fmt_032x. by rewrite Nat.max_l by (by apply hex_len_le). Qed.

(** The characters of [UUID.__str__] around the 32 digits [l]. *)
Definition uuid_layout (l : list ascii) : list ascii :=
  take 8 l ++ ["-"%char] ++ take 4 (drop 8 l) ++ ["-"%char] ++ take 4 (drop 12 l) ++ ["-"%char] ++
  take 4 (drop 16 l) ++ ["-"%char] ++ drop 20 l.

Lemma chars_uuid_str i :
  0 <= i < 2 ^ 128 -> chars (uuid_str i) = uuid_layout (hex_digits 32 i).
Proof.
  intros Hi. unfold uuid_str, py_slice, py_slice_from. rewrite fmt_032x_small by done.
  by rewrite !chars_app, !chars_of_list.
Qed.

Lemma length_uuid_layout l : length l = 32%nat -> length (uuid_layout l) = 36%nat.
Proof. intros Hl. unfold uuid_layout. rewrite !length_app, !length_take, !length_drop, Hl. reflexivity. Qed.

Lemma uuid_layout_Forall (P : ascii -> Prop) l :
  P "-"%char -> Forall P l -> Forall P (uuid_layout l).
Proof.
  intros Hd Hl. unfold uuid_layout.
  repeat (apply Forall_app; split); try apply Forall_singleton; auto using Forall_take, Forall_drop.
Qed.

(** What the characters of a uuid string are not: every property of the
    sixteen digits and the dash holds of all of them. *)
Lemma uuid_str_chars (P : ascii -> Prop) i :
  0 <= i < 2 ^ 128 -> P "-"%char -> (forall c, c ∈ hex_alphabet -> P c) ->
  Forall P (chars (uuid_str i)).
Proof.
  intros Hi Hd Hh. rewrite chars_uuid_str by done. apply uuid_layout_Forall; [done|].
  eapply Forall_impl; [apply hex_digits_alphabet|done].
Qed.

Ltac hex_alphabet_cases :=
  let c := fresh "c" in let Hc := fresh "Hc" in
  intros c Hc; unfold hex_alphabet in Hc; simpl in Hc;
  repeat (apply elem_of_cons in Hc as [->|Hc]; [vm_compute; try done; congruence|]);
  by apply elem_of_nil in Hc.

Lemma uuid_str_length i : 0 <= i < 2 ^ 128 -> String.length (uuid_str i) = 36%nat.
Proof.
  intros Hi. rewrite <- length_chars, chars_uuid_str by done.
  apply length_uuid_layout, length_hex_digits.
Qed.

Lemma uuid_str_valid_key i : 0 <= i < 2 ^ 128 -> valid_key (uuid_str i) = true.
Proof.
  intros Hi. unfold valid_key. apply andb_true_intro. split.
  - apply negb_true_iff, String.eqb_neq. intros He.
    pose proof (uuid_str_length i Hi) as Hl. rewrite He in Hl. done.
  - rewrite str_forall_chars. apply forallb_forall. intros c Hc%list_elem_of_In. revert c Hc.
    apply Forall_forall, uuid_str_chars; [done|done|hex_alphabet_cases].
Qed.

(** [uuid4] is the checked constructor of [UUID.__init__] on the 16 bytes. *)
Lemma uuid4_from_bytes r : uuid_from_bytes (vec_to_list r) (Some 4) = Ok (uuid4 r).
Proof. unfold uuid_from_bytes. by rewrite length_vec_to_list. Qed.

(** * The document ids *)

(** C21 (type): the id [str(uuid.uuid4())] under which the ingestion
    page stores an original is a 36-character string that
    [LocalFileStore] accepts as a key (letters, digits and dashes, not
    empty), whatever the random bytes: the [InvalidKeyException] branch
    of [mset] is never taken for these ids. *)
Theorem new_doc_id_valid_key r :
  valid_key (new_doc_id r) = true /\ String.length (new_doc_id r) = 36%nat.
Proof.
  pose proof (uuid4_range r). unfold new_doc_id.
  split; [apply uuid_str_valid_key|apply uuid_str_length]; done.
Qed.

End UuidFacts.
