(* ===== verification/VectorStore.v ===== *)
(** * The vector store: a chromadb collection behind LangChain's [Chroma]

    Every page opens the same persistent collection
    [Chroma(collection_name="database", persist_directory="./vectorDB",
    embedding_function=OllamaEmbeddings(model=...))], each with the embedding
    model it names.  Two layers are modelled from the libraries' documented
    behaviour (the spec's "vector index"):
    - [Module Collection]: chromadb's collection, a list of entries in
      insertion order, with [upsert], [update], [query] (exact k nearest
      neighbours by squared L2 distance, ties in insertion order) and [get],
      and the checks chromadb makes: a non-empty, duplicate-free id list,
      lengths that agree, and one embedding dimension per collection;
    - [Section LangChainChroma]: the wrapper the pages call, [add_texts] /
      [add_documents] (one [uuid4] per text, embeddings by Ollama with its
      "passage: " prefix, the metadata split of [add_texts]),
      [similarity_search] (the query embedded with the "query: " prefix),
      [similarity_search_with_relevance_scores] and [update_document].
    Embeddings are integer vectors given by the Ollama service
    [ollama model prompt]. *)

From Stdlib Require Import ZArith Sorted.
From stdpp Require Import sorting.
From S2P Require Import Prelude PyStr DocStore.

Module Collection.

Record Entry := mkEntry {
  ce_id : string;
  ce_embedding : list Z;
  ce_document : string;
  ce_metadata : gmap string string;
}.

(** The collection's dimension: that of the embeddings already stored. *)
Definition dim (c : list Entry) : option nat :=
  match c with
  | [] => None
  | e :: _ => Some (length (ce_embedding e))
  end.

(** chromadb's dimension check of a batch of embeddings: all of the
  collection's dimension, or of the first one's if it is empty. *)
Definition check_dims (c : list Entry) (embs : list (list Z)) : res unit :=
  let d := match dim c with
           | Some d => d
           | None => match embs with [] => 0 | e :: _ => length e end
           end in
  match list_find (fun e => length e <> d) embs with
  | Some (_, e) => Err (InvalidDimensionException (length e) d)
  | None => Ok tt
  end.

(** chromadb's validation of the arguments of [upsert] and [update]. *)
Definition validate (ids : list string) (embs : list (list Z)) (docs : list string)
    (metas : list (gmap string string)) : res unit :=
  if decide (ids = []) then Err (ValueError "Expected IDs to be a non-empty list")
  else if decide (NoDup ids) then
    if decide (length embs = length ids /\ length docs = length ids /\
               length metas = length ids)
    then Ok tt else Err (ValueError "Unequal lengths for fields")
  else Err (ValueError "Expected IDs to be unique").

Definition mk_entries ids embs docs metas : list Entry :=
  zip_with (fun ie dm => mkEntry ie.1 ie.2 dm.1 dm.2) (zip ids embs) (zip docs metas).

Definition has_id (i : string) (c : list Entry) : bool :=
  existsb (fun e => String.eqb (ce_id e) i) c.

(** One entry of an upsert: replace the entry of the same id in place, or
  append a new one. *)
Definition upsert1 (c : list Entry) (e : Entry) : list Entry :=
  if has_id (ce_id e) c
  then map (fun e' => if String.eqb (ce_id e') (ce_id e) then e else e') c
  else c ++ [e].

(** One entry of an update: replace the entry of the same id, ignore an
  id that is not there (chromadb logs it and goes on). *)
Definition update1 (c : list Entry) (e : Entry) : list Entry :=
  map (fun e' => if String.eqb (ce_id e') (ce_id e) then e else e') c.

Definition upsert ids embs docs metas : PyM (list Entry) unit :=
  let! _ := lift (validate ids embs docs metas) in
  let! c := get in
  let! _ := lift (check_dims c embs) in
  put (foldl upsert1 c (mk_entries ids embs docs metas)).

Definition update ids embs docs metas : PyM (list Entry) unit :=
  let! _ := lift (validate ids embs docs metas) in
  let! c := get in
  let! _ := lift (check_dims c embs) in
  put (foldl update1 c (mk_entries ids embs docs metas)).

(** Squared Euclidean distance, chromadb's default ["l2"] space. *)
Fixpoint sqdist (a b : list Z) : Z :=
  match a, b with
  | x :: a', y :: b' => (x - y) * (x - y) + sqdist a' b'
  | _, _ => 0
  end.

(** Stable insertion by a key: after the elements of equal key. *)
Fixpoint insert_by {A} (key : A -> Z) (x : A) (l : list A) : list A :=
  match l with
  | [] => [x]
  | y :: l' => if Z.ltb (key x) (key y) then x :: l else y :: insert_by key x l'
  end.

Definition sort_by {A} (key : A -> Z) (l : list A) : list A :=
  foldl (fun acc x => insert_by key x acc) [] l.

(** [collection.query(query_embeddings=[q], n_results=k)]: the [k]
  entries nearest to [q] with their distances, nearest first; fewer when
  the collection is smaller; a query of the wrong dimension raises. *)
Definition query (q : list Z) (k : nat) : PyM (list Entry) (list (Entry * Z)) :=
  let! c := get in
  match dim c with
  | Some d =>
      if decide (length q = d)
      then ret (take k (sort_by snd (map (fun e => (e, sqdist q (ce_embedding e))) c)))
      else raise (InvalidDimensionException (length q) d)
  | None => ret []
  end.

(** [collection.get()]: the [GetResult] dict, whose keys do not depend on
  the collection's contents. *)
Record GetResult := mkGetResult {
  gr_ids : list string;
  gr_metadatas : list (gmap string string);
  gr_documents : list string;
}.

Definition get_result_keys : list string :=
  ["ids"; "embeddings"; "metadatas"; "documents"; "uris"; "data"; "included"].

Definition col_get : PyM (list Entry) GetResult :=
  let! c := get in
  ret (mkGetResult (map ce_id c) (map ce_metadata c) (map ce_document c)).

(** [len(d)] of a [GetResult] dict: its number of keys. *)
Definition len_get_result (_ : GetResult) : nat := length get_result_keys.

End Collection.

(** * Lemmas on the collection *)

Module CollectionFacts.
Import Collection.

Section SortBy.
Context {A : Type} (key : A -> Z).

Definition key_le (x y : A) : Prop := (key x <= key y)%Z.

Lemma insert_by_perm x l : insert_by key x l ≡ₚ x :: l.
Proof.
  induction l as [|y l IH]; simpl; [done|].
  destruct (Z.ltb (key x) (key y)); [done|].
  rewrite IH. apply perm_swap.
Qed.

Lemma insert_by_sorted x l : Sorted key_le l -> Sorted key_le (insert_by key x l).
Proof.
  induction 1 as [|y l Hs IH Hhd]; simpl; [by repeat constructor|].
  destruct (Z.ltb_spec (key x) (key y)).
  - constructor; [by constructor|]. constructor. unfold key_le. lia.
  - constructor; [done|]. destruct l as [|z l]; simpl.
  + constructor. unfold key_le. lia.
  + inversion Hhd; subst. destruct (Z.ltb (key x) (key z));
      constructor; unfold key_le in *; lia.
Qed.

Lemma sort_by_spec l : sort_by key l ≡ₚ l /\ Sorted key_le (sort_by key l).
Proof.
  unfold sort_by. rewrite <- (app_nil_l l) at 2.
  assert (Hacc : Sorted key_le (@nil A)) by constructor.
  generalize (@nil A) as acc, Hacc. induction l as [|x l IH]; intros acc Hs; simpl.
  - by rewrite app_nil_r.
  - destruct (IH (insert_by key x acc) (insert_by_sorted x acc Hs)) as [Hp Hs'].
  split; [|done]. rewrite Hp, insert_by_perm. by rewrite <- Permutation_middle.
Qed.
End SortBy.

(** The k nearest neighbours: what [query] returns is the first [k] of an
  ordering of all the scored entries by distance. *)
Definition scored (q : list Z) (c : list Entry) : list (Entry * Z) :=
  map (fun e => (e, sqdist q (ce_embedding e))) c.

Lemma query_ok q k c d :
  dim c = Some d -> length q = d ->
  query q k c = (Ok (take k (sort_by snd (scored q c))), c).
Proof. intros Hd Hq. unfold query, bind, get, ret. rewrite Hd. by rewrite decide_True. Qed.

(** A query of the
  collection's dimension returns [min k n] entries with their
  distances, in increasing distance, and none of the entries left out
  is nearer than a returned one. *)
Lemma query_knn q k c d res :
  dim c = Some d -> length q = d -> query q k c = (Ok res, c) ->
  length res = min k (length c) /\
  Sorted (key_le snd) res /\
  exists rest, res ++ rest ≡ₚ scored q c /\
    forall x y, x ∈ res -> y ∈ rest -> (x.2 <= y.2)%Z.
Proof.
  intros Hd Hq Hquery. rewrite query_ok with (d := d) in Hquery by done.
  injection Hquery as <-.
  destruct (sort_by_spec snd (scored q c)) as [Hp Hs].
  split; [rewrite length_take, Hp; unfold scored; by rewrite length_map|].
  assert (Htr : Transitive (key_le (A := Entry * Z) snd)) by (intros ???; unfold key_le; lia).
  apply (Sorted_StronglySorted (key_le snd)) in Hs.
  rewrite <- (take_drop k (sort_by snd (scored q c))) in Hs.
  split; [apply StronglySorted_Sorted; by eapply StronglySorted_app_1_l|].
  exists (drop k (sort_by snd (scored q c))). split; [by rewrite take_drop|].
  intros x y Hx Hy. by eapply (StronglySorted_app_1_elem_of (key_le snd)).
Qed.

(** A query of another dimension than the collection's
  raises [InvalidDimensionException] (the pages [2Chat Local.py] and
  [4About.py] embed their queries with [nomic-embed-text], the index is
  built with [mxbai-embed-large]). *)
Lemma query_dim_mismatch q k c d :
  dim c = Some d -> length q <> d ->
  query q k c = (Err (InvalidDimensionException (length q) d), c).
Proof. intros Hd Hq. unfold query, bind, get, raise. rewrite Hd. by rewrite decide_False. Qed.

Lemma has_id_app i c1 c2 : has_id i (c1 ++ c2) = has_id i c1 || has_id i c2.
Proof. apply existsb_app. Qed.

(** Upserting entries of distinct new ids appends them. *)
Lemma foldl_upsert1_fresh es c :
  NoDup (map ce_id es) -> Forall (fun e => has_id (ce_id e) c = false) es ->
  foldl upsert1 c es = (c ++ es)%list.
Proof.
  revert c. induction es as [|e es IH]; intros c Hnd Hfresh; simpl; [by rewrite app_nil_r|].
  inversion Hnd as [|? ? Hnin Hnd']; inversion Hfresh as [|? ? Hi Hrest]; subst.
  unfold upsert1 at 2. rewrite Hi. rewrite IH; [by rewrite <- app_assoc|done|].
  rewrite Forall_forall in Hrest |- *. intros e' He'.
  rewrite has_id_app, Hrest by done. simpl.
  destruct (String.eqb_spec (ce_id e) (ce_id e')) as [Heq|]; [|done].
  exfalso. apply Hnin. rewrite Heq. apply list_elem_of_In, in_map, list_elem_of_In, He'.
Qed.

Lemma mk_entries_ids ids embs docs metas :
  length embs = length ids -> length docs = length ids -> length metas = length ids ->
  map ce_id (mk_entries ids embs docs metas) = ids.
Proof.
  revert embs docs metas. induction ids as [|i ids IH];
    intros [|em embs] [|dc docs] [|mt metas]; simpl; try done; try lia.
  intros. f_equal. apply IH; lia.
Qed.

(** An upsert of new ids of the collection's dimension appends the entries
  in order. *)
Lemma upsert_fresh ids embs docs metas c :
  validate ids embs docs metas = Ok tt -> check_dims c embs = Ok tt ->
  Forall (fun i => has_id i c = false) ids ->
  upsert ids embs docs metas c = (Ok tt, (c ++ mk_entries ids embs docs metas)%list).
Proof.
  intros Hv Hc Hfresh. unfold upsert, bind, lift, get, put. rewrite Hv, Hc. f_equal.
  unfold validate in Hv. case_decide; [done|]. case_decide as Hnd; [|done].
  case_decide as Hlen; [|done]. destruct Hlen as (H1 & H2 & H3).
  apply foldl_upsert1_fresh; rewrite ?mk_entries_ids by done; [done|].
  apply Forall_forall. intros e He. rewrite Forall_forall in Hfresh. apply Hfresh.
  rewrite <- (mk_entries_ids ids embs docs metas) by done.
  by apply list_elem_of_fmap_2.
Qed.

Lemma has_id_true i c : has_id i c = true <-> exists e, e ∈ c /\ ce_id e = i.
Proof.
  unfold has_id. rewrite existsb_exists. setoid_rewrite String.eqb_eq.
  by setoid_rewrite <- list_elem_of_In.
Qed.

Lemma mk_entries_elem e ids embs docs metas :
  e ∈ mk_entries ids embs docs metas -> ce_id e ∈ ids /\ ce_embedding e ∈ embs.
Proof.
  unfold mk_entries. intros He.
  apply elem_of_lookup_zip_with in He as (j & [i v] & [dc m] & -> & Hiv & _).
  apply lookup_zip_with_Some in Hiv as (i' & v' & [= <- <-] & Hi & Hv). simpl.
  split; eapply list_elem_of_lookup_2; eauto.
Qed.

(** Embeddings all of one dimension [d], as the collection's, pass the
  dimension check. *)
Lemma check_dims_uniform c embs d :
  Forall (fun e => length (ce_embedding e) = d) c ->
  Forall (fun v => length v = d) embs ->
  check_dims c embs = Ok tt.
Proof.
  intros Hc He. unfold check_dims.
  assert (Hd : match dim c with Some d' => d'
               | None => match embs with [] => 0 | e :: _ => length e end end = d \/ embs = []).
  { destruct c as [|e c]; simpl.
    - destruct embs as [|v embs]; [by right|left]. by inversion He.
    - left. by inversion Hc. }
  destruct Hd as [-> | ->]; [|done].
  destruct (list_find _ embs) as [[i v]|] eqn:Hf; [|done].
  apply list_find_Some in Hf as (Hv & Hne & _). exfalso. apply Hne.
  rewrite Forall_lookup in He. by eapply He.
Qed.

(** An update of an id that is not in the collection changes nothing. *)
Lemma update1_absent c e : has_id (ce_id e) c = false -> update1 c e = c.
Proof.
  unfold update1, has_id. induction c as [|e' c IH]; simpl; [done|].
  intros H. apply orb_false_iff in H as [H1 H2]. rewrite H1, IH by done. done.
Qed.

(** [len(vectorstore.get())] does not depend on the collection. *)
Lemma len_get_constant c1 c2 r1 r2 :
  col_get c1 = (Ok r1, c1) -> col_get c2 = (Ok r2, c2) ->
  len_get_result r1 = len_get_result r2.
Proof. done. Qed.
Lemma mk_entries_meta e ids embs docs metas :
  e ∈ mk_entries ids embs docs metas -> ce_metadata e ∈ metas.
Proof.
  unfold mk_entries. intros He.
  apply elem_of_lookup_zip_with in He as (j & [i v] & [dc m] & -> & _ & Hdm).
  apply lookup_zip_with_Some in Hdm as (d' & m' & [= <- <-] & _ & Hm). simpl.
  by eapply list_elem_of_lookup_2.
Qed.

(** An upsert keeps old entries or brings in the new ones. *)
Lemma foldl_upsert1_elem es c e :
  e ∈ foldl upsert1 c es -> e ∈ c \/ e ∈ es.
Proof.
  revert c. induction es as [|e' es IH]; intros c; simpl; [by left|].
  intros He. destruct (IH _ He) as [Hc|Hc]; [|set_solver].
  unfold upsert1 in Hc. destruct (has_id (ce_id e') c).
  - apply list_elem_of_fmap in Hc as (e'' & -> & He''). case_match; set_solver.
  - set_solver.
Qed.

(** Whatever [upsert] ends in, the collection's entries are old ones or
  carry one of the given metadata. *)
Lemma upsert_entries ids embs docs metas c r c' e :
  upsert ids embs docs metas c = (r, c') -> e ∈ c' -> e ∈ c \/ ce_metadata e ∈ metas.
Proof.
  unfold upsert, bind, lift, get, put.
  destruct (validate ids embs docs metas); [|intros [= _ <-]; by left].
  destruct (check_dims c embs); [|intros [= _ <-]; by left].
  intros [= _ <-] He. destruct (foldl_upsert1_elem _ _ _ He) as [?|Hm]; [by left|].
  right. by eapply mk_entries_meta.
Qed.

(** A query returns entries of the collection. *)
Lemma query_elems q k c res c' x :
  query q k c = (Ok res, c') -> x ∈ res -> x.1 ∈ c.
Proof.
  unfold query, bind, get, ret, raise. destruct (dim c); [case_decide|]; intros [= <- _];
    [|set_solver].
  intros Hx. apply elem_of_take in Hx as (j & Hj & _). apply list_elem_of_lookup_2 in Hj.
  destruct (sort_by_spec snd (scored q c)) as [Hp _]. rewrite Hp in Hj.
  unfold scored in Hj. apply list_elem_of_fmap in Hj as (e & -> & He). done.
Qed.

Lemma update1_elem c e : has_id (ce_id e) c = true -> e ∈ update1 c e.
Proof.
  intros (e' & He' & Hid)%has_id_true. unfold update1. apply list_elem_of_fmap.
  exists e'. split; [|done]. by rewrite Hid, String.eqb_refl.
Qed.

Lemma update1_elem_inv c e x : x ∈ update1 c e -> x ∈ c \/ x = e.
Proof.
  unfold update1. intros (e' & -> & He')%list_elem_of_fmap. case_match; auto.
Qed.

(** The exceptions of the collection and of its LangChain wrapper:
    chromadb's validation ([ValueError]), its dimension check, and an index
    out of range. *)
Definition vs_error (e : PyExn) : Prop :=
  e = IndexError \/ (exists msg, e = ValueError msg) \/
  (exists got expected, e = InvalidDimensionException got expected).

Lemma raises_validate {S} ids embs docs metas :
  raises_only (S := S) vs_error (lift (validate ids embs docs metas)).
Proof.
  apply raises_lift. intros e. unfold validate.
  repeat case_decide; intros [= <-]; unfold vs_error; eauto.
Qed.

Lemma raises_check_dims {S} c embs : raises_only (S := S) vs_error (lift (check_dims c embs)).
Proof.
  apply raises_lift. intros e. unfold check_dims.
  destruct (list_find _ _) as [[? ?]|]; intros [= <-]; unfold vs_error; eauto.
Qed.

#[export] Hint Resolve raises_validate raises_check_dims : rag.

Lemma raises_upsert ids embs docs metas : raises_only vs_error (upsert ids embs docs metas).
Proof. unfold upsert. solve_raises. Qed.

#[export] Hint Resolve raises_upsert : rag.

End CollectionFacts.

(** * LangChain's [Chroma] wrapper *)

Section LangChainChroma.
Import Collection.

(** The Ollama embedding service: [ollama model prompt] is the vector the
  server returns for [prompt] with the named model. *)
Variable ollama : string -> string -> list Z.
(** The process's [uuid.uuid4()] values, in call order. *)
Variable uuid4 : nat -> string.

(** [OllamaEmbeddings]'s instructions (langchain_community defaults). *)
Definition embed_instruction : string := "passage: ".
Definition query_instruction : string := "query: ".

Definition embed_documents (model : string) (texts : list string) : list (list Z) :=
  map (fun t => ollama model (embed_instruction ++ t)) texts.

Definition embed_query (model : string) (q : string) : list Z :=
  ollama model (query_instruction ++ q).

(** The wrapper's world: the [uuid4] calls made so far and the collection. *)
Definition on_col {A} (m : PyM (list Entry) A) : PyM (nat * list Entry) A :=
  zoom snd (fun c s => (s.1, c)) m.

Definition draw_uuid : PyM (nat * list Entry) string :=
  zoom fst (fun n s => (n, s.2)) (fresh_uuid uuid4).

(** [[xs[i] for i in idxs]] *)
Definition select {S A} (xs : list A) (idxs : list nat) : PyM S (list A) :=
  mapM (fun i => lift (py_index xs i)) idxs.

(** [Chroma.add_texts(texts, metadatas)]: one [uuid4] per text, the
  documents' embeddings, then one upsert of the texts whose metadata is
  not empty and one of the others.  ([if embeddings] in the source only
  matters for an empty [texts], where the selection raises or is empty.) *)
Definition add_texts (model : string) (texts : list string)
    (metas : list (gmap string string)) : PyM (nat * list Entry) (list string) :=
  let! ids := mapM (fun _ => draw_uuid) texts in
  let embeddings := embed_documents model texts in
  if decide (metas = []) then
    on_col (upsert ids embeddings texts (map (fun _ => ∅) texts)) ;;! ret ids
  else
    let metas' := (metas ++ replicate (length texts - length metas) ∅)%list in
    let non_empty_ids := (filter (fun p => p.2 <> ∅) (enumerate metas')).*1 in
    let empty_ids := (filter (fun p => p.2 = ∅) (enumerate metas')).*1 in
    (if decide (non_empty_ids = []) then ret tt else
      let! ms := select metas' non_empty_ids in
      let! ts := select texts non_empty_ids in
      let! es := select embeddings non_empty_ids in
      let! sel_ids := select ids non_empty_ids in
      on_col (upsert sel_ids es ts ms)) ;;!
    (if decide (empty_ids = []) then ret tt else
      let! ts := select texts empty_ids in
      let! es := select embeddings empty_ids in
      let! sel_ids := select ids empty_ids in
      on_col (upsert sel_ids es ts (map (fun _ => ∅) sel_ids))) ;;!
    ret ids.

(** [VectorStore.add_documents(documents)] *)
Definition add_documents (model : string) (docs : list Document)
    : PyM (nat * list Entry) (list string) :=
  add_texts model (map page_content docs) (map metadata docs).

Definition entry_doc (e : Entry) : Document := mkDocument (ce_document e) (ce_metadata e).

(** [Chroma.similarity_search_with_score(query, k)] *)
Definition similarity_search_with_score (model q : string) (k : nat)
    : PyM (list Entry) (list (Document * Z)) :=
  let! r := query (embed_query model q) k in
  ret (map (fun ed => (entry_doc ed.1, ed.2)) r).

(** [Chroma.similarity_search(query, k)] *)
Definition similarity_search (model q : string) (k : nat) : PyM (list Entry) (list Document) :=
  let! r := similarity_search_with_score model q k in
  ret r.*1.

(** The relevance of a distance, [1 - d / sqrt 2] for the l2 space (a
  float in the library, left abstract here). *)
Variable relevance : Z -> Z.

(** [similarity_search_with_relevance_scores(query, k, score_threshold=t)] *)
Definition similarity_search_with_relevance_scores (model q : string) (k : nat)
    (score_threshold : option Z) : PyM (list Entry) (list (Document * Z)) :=
  let! r := similarity_search_with_score model q k in
  let scored := map (fun dd => (dd.1, relevance dd.2)) r in
  match score_threshold with
  | Some t => ret (filter (fun dd => (t <= dd.2)%Z) scored)
  | None => ret scored
  end.

(** [Chroma.update_document(document_id, document)] *)
Definition update_document (model doc_id : string) (doc : Document) : PyM (list Entry) unit :=
  update [doc_id] (embed_documents model [page_content doc]) [page_content doc] [metadata doc].
End LangChainChroma.

(** * Lemmas on the wrapper *)

Section LangChainChromaFacts.
Import Collection CollectionFacts.
Variable ollama : string -> string -> list Z.
Variable uuid4 : nat -> string.

(** [[xs[i] for i in range(len(xs))]] is [xs]. *)
Lemma select_seq {S A} (pre xs : list A) (s : S) :
  select (pre ++ xs)%list (seq (length pre) (length xs)) s = (Ok xs, s).
Proof.
  revert pre. induction xs as [|x xs IH]; intros pre; [done|].
  cbn [length seq select mapM]. unfold select in IH.
  rewrite (bind_ok _ _ _ x s).
  2:{ unfold lift, py_index. by rewrite lookup_app_r, Nat.sub_diag by lia. }
  specialize (IH (pre ++ [x])%list). rewrite <- app_assoc, length_app in IH.
  simpl in IH. rewrite Nat.add_1_r in IH. by rewrite (bind_ok _ _ _ xs s).
Qed.

Lemma select_len {S A} (xs : list A) m (s : S) :
  length xs = m -> select xs (seq 0 m) s = (Ok xs, s).
Proof. intros <-. apply (select_seq []). Qed.

Lemma enumerate_filter_nonempty (ms : list (gmap string string)) k :
  Forall (fun m => m <> ∅) ms ->
  (filter (fun p => p.2 <> ∅) (zip (seq k (length ms)) ms)).*1 = seq k (length ms) /\
  (filter (fun p => p.2 = ∅) (zip (seq k (length ms)) ms)).*1 = [].
Proof.
  revert k. induction ms as [|m ms IH]; intros k Hms; [done|].
  inversion Hms as [|? ? Hm Hrest]; subst. cbn [length seq zip zip_with].
  rewrite filter_cons_True by done. rewrite filter_cons_False by done.
  destruct (IH (S k) Hrest) as [H1 H2]. rewrite fmap_cons, H1, H2. done.
Qed.

(** Drawing one [uuid4] per element. *)
Lemma draw_uuids {A} (xs : list A) n c :
  mapM (fun _ => draw_uuid uuid4) xs (n, c) =
    (Ok (map uuid4 (seq n (length xs))), (n + length xs, c)).
Proof.
  revert n. induction xs as [|x xs IH]; intros n; simpl; [by rewrite Nat.add_0_r|].
  unfold bind at 1. cbv [draw_uuid zoom fresh_uuid]. simpl.
  rewrite (bind_ok _ _ _ _ _ (IH (S n))). by rewrite Nat.add_succ_r.
Qed.

(** [add_documents] of documents that all carry metadata, whose new
  [uuid4] ids are distinct and new to the collection and whose
  embeddings have its dimension: the entries are appended in order and
  the ids returned. *)
Lemma add_documents_fresh model docs n c :
  docs <> [] -> Forall (fun d => metadata d <> ∅) docs ->
  NoDup (map uuid4 (seq n (length docs))) ->
  Forall (fun i => has_id i c = false) (map uuid4 (seq n (length docs))) ->
  check_dims c (embed_documents ollama model (map page_content docs)) = Ok tt ->
  add_documents ollama uuid4 model docs (n, c) =
    (Ok (map uuid4 (seq n (length docs))),
     (n + length docs,
      (c ++ mk_entries (map uuid4 (seq n (length docs)))
               (embed_documents ollama model (map page_content docs))
               (map page_content docs) (map metadata docs))%list)).
Proof.
  intros Hne Hmeta Hnd Hfresh Hdims.
  assert (Hnil : forall A (l : list A), length l = length docs -> l <> []).
  { intros A l Hl ->. destruct docs; simpl in Hl; congruence. }
  unfold add_documents, add_texts.
  rewrite (bind_ok _ _ _ _ _ (draw_uuids _ n c)), length_map.
  rewrite decide_False by (apply Hnil; apply length_map).
  rewrite !length_map, Nat.sub_diag. cbn [replicate]. rewrite app_nil_r.
  assert (Hm : Forall (fun m => m <> ∅) (map metadata docs)) by (by apply Forall_map).
  unfold enumerate. destruct (enumerate_filter_nonempty _ 0 Hm) as [H1 H2].
  rewrite H1, H2, length_map.
  rewrite decide_False by (apply Hnil; apply length_seq).
  rewrite decide_True by done.
  erewrite bind_ok; [done|].
  rewrite (bind_ok _ _ _ _ _ (select_len _ _ _ (length_map _ _))).
  rewrite (bind_ok _ _ _ _ _ (select_len _ _ _ (length_map _ _))).
  rewrite (bind_ok _ _ _ _ _ (select_len (embed_documents ollama model (map page_content docs))
    _ _ (eq_trans (length_map _ _) (length_map _ _)))).
  rewrite (bind_ok _ _ _ _ _ (select_len (map uuid4 (seq n (length docs)))
    _ _ (eq_trans (length_map _ _) (length_seq _ _)))).
  unfold on_col, zoom. simpl. rewrite upsert_fresh; [done| |done|done].
  unfold validate. rewrite decide_False by (apply Hnil; by rewrite length_map, length_seq).
  rewrite decide_True by done. rewrite decide_True; [done|].
  unfold embed_documents. by rewrite !length_map, length_seq.
Qed.

(** [update_document] of an embedding of the collection's dimension
  replaces the entry of that id (if any) by the new one. *)
Lemma update_document_ok model i doc c :
  (forall d, dim c = Some d ->
     length (ollama model (embed_instruction ++ page_content doc)) = d) ->
  update_document ollama model i doc c =
    (Ok tt, update1 c (mkEntry i (ollama model (embed_instruction ++ page_content doc))
                         (page_content doc) (metadata doc))).
Proof.
  intros Hd. unfold update_document, update, validate.
  rewrite decide_False by done. rewrite decide_True by (constructor; [set_solver|constructor]).
  rewrite decide_True by done. unfold bind, lift, get, put, check_dims. simpl.
  destruct (dim c) as [d|] eqn:E; [rewrite (Hd d eq_refl)|]; simpl;
    by case_decide.
Qed.

(** A successful [update_document] is the update of that one entry. *)
Lemma update_document_result model i doc c c' :
  update_document ollama model i doc c = (Ok tt, c') ->
  c' = update1 c (mkEntry i (ollama model (embed_instruction ++ page_content doc))
                    (page_content doc) (metadata doc)).
Proof.
  unfold update_document, update, bind, lift, get, put.
  destruct (validate _ _ _ _); [|done]. destruct (check_dims _ _); [|done]. by intros [= <-].
Qed.

(** An update of an embedding of another dimension raises. *)
Lemma update_document_dim_mismatch model i doc c d :
  dim c = Some d -> length (ollama model (embed_instruction ++ page_content doc)) <> d ->
  update_document ollama model i doc c =
    (Err (InvalidDimensionException (length (ollama model (embed_instruction ++ page_content doc))) d), c).
Proof.
  intros Hd Hne. unfold update_document, update, validate.
  rewrite decide_False by done. rewrite decide_True by (constructor; [set_solver|constructor]).
  rewrite decide_True by done. unfold bind, lift, get, put, check_dims. simpl.
  rewrite Hd. simpl. by rewrite decide_True by done.
Qed.

(** [add_documents] of no document raises chromadb's
  [ValueError] for an empty id list, leaving the world as it was. *)
Lemma add_documents_nil model n c :
  add_documents ollama uuid4 model [] (n, c) =
    (Err (ValueError "Expected IDs to be a non-empty list"), (n, c)).
Proof. reflexivity. Qed.
(** [[xs[i] for i in idxs]] changes nothing and returns elements of [xs]. *)
Lemma select_spec {S A} (xs : list A) idxs (s : S) r s' :
  select xs idxs s = (r, s') -> s' = s /\ forall ys, r = Ok ys -> Forall (fun y => y ∈ xs) ys.
Proof.
  apply mapM_pure_spec. intros i s0 r0 s0'. unfold lift, py_index.
  destruct (xs !! i) eqn:Hx; intros [= <- <-]; split; try done.
  intros ? [= <-]. by eapply list_elem_of_lookup_2.
Qed.

Section EntriesFrom.
Context (Q : gmap string string -> Prop) (c0 : list Entry).
(** Every entry of the collection is one of [c0] or has metadata [Q]. *)
Definition entries_from (s : nat * list Entry) : Prop :=
  forall e, e ∈ s.2 -> e ∈ c0 \/ Q (ce_metadata e).

Lemma preserves_select_bind {A B} (xs : list A) idxs (k : list A -> PyM (nat * list Entry) B) :
  (forall ys, Forall (fun y => y ∈ xs) ys -> preserves entries_from (k ys)) ->
  preserves entries_from (bind (select xs idxs) k).
Proof.
  intros Hk s r s' Hs. unfold bind. destruct (select xs idxs s) as [[ys|e] s1] eqn:E;
      destruct (select_spec _ _ _ _ _ E) as [-> Hys].
  - by apply (Hk ys (Hys ys eq_refl)).
  - by intros [= _ <-].
Qed.

Lemma preserves_upsert ids embs docs metas :
  Forall Q metas -> preserves entries_from (on_col (upsert ids embs docs metas)).
Proof.
  intros HQ [n c] r s' Hs. unfold on_col, zoom. simpl.
  destruct (upsert ids embs docs metas c) as [r' c'] eqn:E. intros [= _ <-] e He. simpl in *.
  destruct (upsert_entries _ _ _ _ _ _ _ e E He) as [Hc|Hm]; [by apply Hs|].
  right. rewrite Forall_forall in HQ. by apply HQ.
Qed.

Lemma preserves_draw_uuid : preserves entries_from (draw_uuid uuid4).
Proof. by intros [n c] r s' Hs [= _ <-]. Qed.
End EntriesFrom.

(** Whatever [add_texts] ends in, every entry of the collection is an old
  one, or carries one of the given metadata, or none. *)
Lemma add_texts_entries model texts metas n c r n' c' e :
  add_texts ollama uuid4 model texts metas (n, c) = (r, (n', c')) -> e ∈ c' ->
  e ∈ c \/ ce_metadata e ∈ metas \/ ce_metadata e = ∅.
Proof.
  intros Hrun He.
  set (Q := fun m : gmap string string => m ∈ metas \/ m = ∅).
  enough (Hp : preserves (entries_from Q c) (add_texts ollama uuid4 model texts metas)).
  { destruct (Hp (n, c) r (n', c') ltac:(by intros ? ?; left) Hrun e He) as [?|?]; auto. }
  unfold add_texts. apply preserves_bind; [apply preserves_mapM; intros; apply preserves_draw_uuid|].
  intros ids. case_decide as Hm.
  - apply preserves_bind; [|intros; apply preserves_ret].
    apply preserves_upsert. apply Forall_forall. intros m Hm'.
    apply list_elem_of_fmap in Hm' as (? & -> & _). by right.
  - assert (HQ : forall m, m ∈ (metas ++ replicate (length texts - length metas) ∅)%list -> Q m).
    { intros m Hm'. apply elem_of_app in Hm' as [?|Hr]; [by left|].
      apply elem_of_replicate in Hr as [-> _]. by right. }
    apply preserves_bind; [case_decide; [apply preserves_ret|]|].
    + apply preserves_select_bind. intros ms Hms. repeat (apply preserves_select_bind; intros).
      apply preserves_upsert. eapply Forall_impl; [exact Hms|]. exact HQ.
    + intros. apply preserves_bind; [case_decide; [apply preserves_ret|]|intros; apply preserves_ret].
      repeat (apply preserves_select_bind; intros). apply preserves_upsert.
      apply Forall_forall. intros m Hm'. apply list_elem_of_fmap in Hm' as (? & -> & _). by right.
Qed.

(** [[xs[i] for i in idxs]] raises only [IndexError]. *)
Lemma raises_select {S A} (xs : list A) idxs : raises_only (S := S) vs_error (select xs idxs).
Proof.
  unfold select. apply raises_mapM. intros i. apply raises_lift. intros e.
  unfold py_index. destruct (xs !! i); intros [= <-]. by left.
Qed.

#[local] Hint Resolve raises_upsert raises_select : rag.

(** Whatever it ends in, [add_texts] raises only the collection's
    validation and dimension errors and [IndexError]. *)
Lemma add_texts_raises model texts metas :
  raises_only vs_error (add_texts ollama uuid4 model texts metas).
Proof.
  unfold add_texts, draw_uuid, on_col. solve_raises.
Qed.

(** The searches only read the collection, whether they return or raise
    (a dimension mismatch). *)
Lemma readonly_query q k : readonly (query q k).
Proof.
  intros s0. unfold query. solve_preserves. case_match; [case_decide|]; solve_preserves.
Qed.

Lemma readonly_similarity_search_with_score model q k :
  readonly (similarity_search_with_score ollama model q k).
Proof.
  intros s0. unfold similarity_search_with_score.
  apply preserves_bind; [apply readonly_query|intros; apply preserves_ret].
Qed.

Lemma readonly_similarity_search model q k : readonly (similarity_search ollama model q k).
Proof.
  intros s0. unfold similarity_search.
  apply preserves_bind; [apply readonly_similarity_search_with_score|intros; apply preserves_ret].
Qed.

Lemma readonly_similarity_search_with_relevance_scores relevance model q k t :
  readonly (similarity_search_with_relevance_scores ollama relevance model q k t).
Proof.
  intros s0. unfold similarity_search_with_relevance_scores.
  apply preserves_bind; [apply readonly_similarity_search_with_score|intros].
  case_match; apply preserves_ret.
Qed.

End LangChainChromaFacts.

#[export] Hint Resolve raises_select : rag.

Module VectorStoreWitness.
Import Collection CollectionFacts.

Definition w_col : list Entry :=
  [mkEntry "a" [0%Z; 0%Z] "far" ∅; mkEntry "b" [1%Z; 1%Z] "near" ∅;
   mkEntry "c" [3%Z; 3%Z] "farther" ∅].

Lemma query_knn_witness :
  query [1%Z; 2%Z] 2 w_col =
    (Ok [(mkEntry "b" [1%Z; 1%Z] "near" ∅, 1%Z); (mkEntry "a" [0%Z; 0%Z] "far" ∅, 5%Z)], w_col) /\
  (length [(mkEntry "b" [1%Z; 1%Z] "near" ∅, 1%Z); (mkEntry "a" [0%Z; 0%Z] "far" ∅, 5%Z)] =
     min 2 (length w_col) /\
   Sorted (key_le snd) [(mkEntry "b" [1%Z; 1%Z] "near" ∅, 1%Z); (mkEntry "a" [0%Z; 0%Z] "far" ∅, 5%Z)] /\
   exists rest, [(mkEntry "b" [1%Z; 1%Z] "near" ∅, 1%Z); (mkEntry "a" [0%Z; 0%Z] "far" ∅, 5%Z)] ++ rest
                  ≡ₚ scored [1%Z; 2%Z] w_col /\
     forall x y, x ∈ [(mkEntry "b" [1%Z; 1%Z] "near" ∅, 1%Z); (mkEntry "a" [0%Z; 0%Z] "far" ∅, 5%Z)] ->
       y ∈ rest -> (x.2 <= y.2)%Z).
Proof.
  assert (Hq : query [1%Z; 2%Z] 2 w_col =
    (Ok [(mkEntry "b" [1%Z; 1%Z] "near" ∅, 1%Z); (mkEntry "a" [0%Z; 0%Z] "far" ∅, 5%Z)], w_col))
    by (vm_compute; reflexivity).
  split; [exact Hq|]. apply (query_knn [1%Z; 2%Z] 2 w_col 2); [reflexivity|reflexivity|exact Hq].
Defined.

Lemma query_dim_mismatch_witness :
  query [1%Z; 2%Z; 3%Z] 4 w_col = (Err (InvalidDimensionException 3 2), w_col).
Proof. apply (query_dim_mismatch [1%Z; 2%Z; 3%Z] 4 w_col 2); [reflexivity|simpl; lia]. Defined.
End VectorStoreWitness.
