(* ===== verification/Retriever.v ===== *)
(** * The multi-vector retriever: summary hits joined back to originals

    LangChain's [MultiVectorRetriever(vectorstore=..., docstore=...,
    id_key="doc_id", search_type=...)], which [Chatbot.py],
    [pages/2Chat Local.py] and [pages/4About.py] build over the shared
    collection and docstore.  Its [_get_relevant_documents] (modelled from
    the library, the spec's "retrieve nearest-neighbor summaries ... map them
    back to original content via the key-value store"):
    search the vector store, collect the [doc_id] of each hit (first
    occurrence only, hits without one skipped), [docstore.mget] them and
    drop the [None]s.  The docstore is any instance of the [DocStore]
    interface; the theorems about the join are proved against its laws
    [DocStoreSpec], so they hold for the file-backed store of [DocStore.v]. *)

From Stdlib Require Import ZArith.
From S2P Require Import Prelude PyStr DocStore VectorStore.

Module Retriever.
Import Collection.

(** [langchain.retrievers.multi_vector.SearchType], as the pages use it. *)
Inductive SearchType := similarity | similarity_score_threshold.

#[export] Instance SearchType_eq_dec : EqDecision SearchType.
Proof. solve_decision. Defined.

(** The retriever's configuration: search type, the embedding model of its
  vector store, [search_kwargs]' [k] (default 4) and [score_threshold]. *)
Record MultiVectorRetriever := mkRetriever {
  search_type : SearchType;
  embed_model : string;
  search_k : nat;
  score_threshold : option Z;
}.

Definition DEFAULT_K : nat := 4.

(** The stores a script opens in its set-up lines:
  [LocalFileStore(store_directory)] wrapped by [create_kv_docstore], and
  [Chroma(collection_name=..., embedding_function=OllamaEmbeddings(model=...),
  persist_directory=vectorstore_directory)]. *)
Record StoreConfig := mkStoreConfig {
  vectorstore_directory : string;
  store_directory : string;
  collection_name : string;
  embedding_model : string;
}.

(** What decides which persistent stores a script works on: the two
  directories and the collection's name (the embedding function only
  turns texts into vectors). *)
Definition opened_stores (c : StoreConfig) : string * string * string :=
  (vectorstore_directory c, store_directory c, collection_name c).

(** [ids.append(d.metadata[id_key])] for each hit that has one and whose
  id is not yet in [ids]. *)
Definition collect_ids (sub_docs : list Document) : list string :=
  foldl (fun ids d =>
    match metadata d !! id_key with
    | Some i => if decide (i ∈ ids) then ids else (ids ++ [i])%list
    | None => ids
    end) [] sub_docs.

Section Retrieve.
Context {St : Type} `{DocStore St}.
Variable ollama : string -> string -> list Z.
Variable relevance : Z -> Z.

(** The retriever's world: the collection and the docstore's state. *)
Definition on_vs {A} (m : PyM (list Entry) A) : PyM (list Entry * St) A :=
  zoom fst (fun c w => (c, w.2)) m.
Definition on_ds {A} (m : PyM St A) : PyM (list Entry * St) A :=
  zoom snd (fun s w => (w.1, s)) m.

(** The vector-store search of [_get_relevant_documents]. *)
Definition sub_docs_search (r : MultiVectorRetriever) (q : string)
  : PyM (list Entry) (list Document) :=
  match search_type r with
  | similarity => similarity_search ollama (embed_model r) q (search_k r)
  | similarity_score_threshold =>
    let! dd := similarity_search_with_relevance_scores ollama relevance
                 (embed_model r) q (search_k r) (score_threshold r) in
    ret dd.*1
  end.

(** [MultiVectorRetriever._get_relevant_documents(query)] *)
Definition get_relevant_documents (r : MultiVectorRetriever) (q : string)
  : PyM (list Entry * St) (list Document) :=
  let! sub_docs := on_vs (sub_docs_search r q) in
  let ids := collect_ids sub_docs in
  let! docs := on_ds (mget ids) in
  ret (omap id docs).
End Retrieve.
End Retriever.

Module RetrieverFacts.
Import Collection CollectionFacts Retriever.

Lemma collect_ids_go_spec (ds : list Document) acc i :
  i ∈ foldl (fun ids d =>
    match metadata d !! id_key with
    | Some i => if decide (i ∈ ids) then ids else (ids ++ [i])%list
    | None => ids
    end) acc ds <->
  i ∈ acc \/ exists d, d ∈ ds /\ metadata d !! id_key = Some i.
Proof.
  revert acc. induction ds as [|d ds IH]; intros acc; simpl.
  - set_solver.
  - rewrite IH.
    assert (Hstep : i ∈ (match metadata d !! id_key with
                        | Some i => if decide (i ∈ acc) then acc else (acc ++ [i])%list
                        | None => acc
                        end) <-> i ∈ acc \/ metadata d !! id_key = Some i).
    { destruct (metadata d !! id_key) as [j|]; [case_decide|];
        rewrite ?elem_of_app, ?list_elem_of_singleton; naive_solver. }
    rewrite Hstep. setoid_rewrite elem_of_cons. naive_solver.
Qed.

(** The ids collected are exactly the [doc_id]s of the hits. *)
Lemma collect_ids_spec ds i :
  i ∈ collect_ids ds <-> exists d, d ∈ ds /\ metadata d !! id_key = Some i.
Proof. unfold collect_ids. rewrite collect_ids_go_spec. set_solver. Qed.

Lemma collect_ids_go_nodup (ds : list Document) acc :
  NoDup acc ->
  NoDup (foldl (fun ids d =>
    match metadata d !! id_key with
    | Some i => if decide (i ∈ ids) then ids else (ids ++ [i])%list
    | None => ids
    end) acc ds).
Proof.
  revert acc. induction ds as [|d ds IH]; intros acc Hacc; simpl; [done|].
  apply IH. destruct (metadata d !! id_key); [|done]. case_decide; [done|].
  apply NoDup_app. split; [done|]. split; [set_solver|]. apply NoDup_singleton.
Qed.

(** ... each once. *)
Lemma collect_ids_nodup ds : NoDup (collect_ids ds).
Proof. apply collect_ids_go_nodup. constructor. Qed.

(** Searching does not change the collection. *)
Lemma query_state q k c : (query q k c).2 = c.
Proof. unfold query, bind, get. destruct (dim c); [case_decide|]; done. Qed.

Lemma sub_docs_search_state ollama relevance r q c :
  (sub_docs_search ollama relevance r q c).2 = c.
Proof.
  unfold sub_docs_search, similarity_search_with_relevance_scores,
    similarity_search, similarity_search_with_score.
  pose proof (query_state (embed_query ollama (embed_model r) q) (search_k r) c) as Hq.
  destruct (query _ _ c) as [[res|e] c'] eqn:E; simpl in Hq; subst;
    destruct (search_type r); unfold bind; rewrite ?E; simpl; try done.
  by destruct (score_threshold r).
Qed.

(** A query of another dimension than the collection's fails the
  retrieval, whatever the search type, and changes nothing. *)
Lemma sub_docs_search_dim_mismatch ollama relevance r q c d :
  dim c = Some d -> length (embed_query ollama (embed_model r) q) <> d ->
  sub_docs_search ollama relevance r q c =
    (Err (InvalidDimensionException (length (embed_query ollama (embed_model r) q)) d), c).
Proof.
  intros Hd Hq. unfold sub_docs_search, similarity_search_with_relevance_scores,
    similarity_search, similarity_search_with_score.
  destruct (search_type r); unfold bind; rewrite (query_dim_mismatch _ _ _ d) by done; done.
Qed.

Lemma retrieve_dim_mismatch {St} `{DocStore St} ollama relevance r q c (s : St) d :
  dim c = Some d -> length (embed_query ollama (embed_model r) q) <> d ->
  get_relevant_documents ollama relevance r q (c, s) =
    (Err (InvalidDimensionException (length (embed_query ollama (embed_model r) q)) d), (c, s)).
Proof.
  intros Hd Hq. unfold get_relevant_documents, bind at 1, on_vs, zoom. simpl.
  by rewrite (sub_docs_search_dim_mismatch _ _ _ _ _ d).
Qed.

Lemma similarity_search_with_score_hits ollama m q k c dd c' :
  similarity_search_with_score ollama m q k c = (Ok dd, c') ->
  Forall (fun p => exists e, e ∈ c /\ p.1 = entry_doc e) dd.
Proof.
  unfold similarity_search_with_score, bind, ret.
  destruct (query _ _ c) as [[res|e] c1] eqn:E; intros [= <- _].
  apply Forall_forall. intros p Hp. apply list_elem_of_fmap in Hp as (x & -> & Hx).
  exists x.1. split; [by eapply query_elems|done].
Qed.

(** The hits of a search are documents of the collection's entries. *)
Lemma sub_docs_search_hits ollama relevance r q c subs c' :
  sub_docs_search ollama relevance r q c = (Ok subs, c') ->
  Forall (fun d => exists e, e ∈ c /\ d = entry_doc e) subs.
Proof.
  unfold sub_docs_search, similarity_search_with_relevance_scores, similarity_search.
  pose proof (similarity_search_with_score_hits ollama (embed_model r) q (search_k r) c) as Hh.
  destruct (search_type r); unfold bind;
    destruct (similarity_search_with_score ollama (embed_model r) q (search_k r) c)
      as [[dd|e] c1]; try (by intros [=]); specialize (Hh _ _ eq_refl).
  - intros [= <- _]. apply Forall_fmap. eapply Forall_impl; [exact Hh|]. done.
  - destruct (score_threshold r); unfold ret; intros [= <- _]; apply Forall_fmap.
    + apply Forall_forall. intros x Hx. apply list_elem_of_filter in Hx as [_ Hx].
      apply list_elem_of_fmap in Hx as (y & -> & Hy). rewrite Forall_forall in Hh. exact (Hh y Hy).
    + apply Forall_fmap. eapply Forall_impl; [exact Hh|]. done.
Qed.

(** With no [score_threshold], [similarity_score_threshold] retrieves
  the same documents as plain [similarity]. *)
Lemma threshold_search_is_similarity ollama relevance m q k c :
  sub_docs_search ollama relevance (mkRetriever similarity_score_threshold m k None) q c =
  sub_docs_search ollama relevance (mkRetriever similarity m k None) q c.
Proof.
  unfold sub_docs_search, similarity_search_with_relevance_scores, similarity_search. simpl.
  unfold bind. destruct (similarity_search_with_score ollama m q k c) as [[r|e] c'];
    [|done]. unfold ret. by rewrite <- list_fmap_compose.
Qed.

Lemma omap_id_map {A} (f : A -> option Document) (l : list A) :
  omap id (map f l) = omap f l.
Proof. induction l as [|x l IH]; [done|]. simpl. destruct (f x); simpl; [f_equal|]; exact IH. Qed.

Section Join.
Context {St : Type} `{DocStore St}.
Context (view : St -> gmap string Document) (key_ok : string -> bool) (inv : St -> Prop).
Context `{!DocStoreSpec St view key_ok inv}.

(** The join: against any docstore meeting the [DocStoreSpec]
    contract, the retriever returns, for each distinct [doc_id] among
    the vector hits in order of first hit, the document the docstore
    holds under it, skipping ids it holds nothing under. *)
Lemma retrieve_join ollama relevance r q c s subs :
  inv s ->
  sub_docs_search ollama relevance r q c = (Ok subs, c) ->
  Forall (fun i => key_ok i = true) (collect_ids subs) ->
  get_relevant_documents ollama relevance r q (c, s) =
  (Ok (omap (fun i => view s !! i) (collect_ids subs)), (c, s)).
Proof.
  intros Hinv Hsearch Hkeys. unfold get_relevant_documents.
  rewrite (bind_ok _ _ _ subs (c, s)).
  2:{ unfold on_vs, zoom. simpl. by rewrite Hsearch. }
  rewrite (bind_ok _ _ _ (map (fun i => view s !! i) (collect_ids subs)) (c, s)).
  2:{ unfold on_ds, zoom. simpl. by rewrite mget_spec. }
  unfold ret. by rewrite omap_id_map.
Qed.
End Join.

(** * How many documents a retrieval returns *)

Lemma query_bound q k : returns (fun res => length res <= k) (query q k).
Proof.
  intros c res c'. unfold query, bind, get.
  destruct (dim c); [case_decide|]; intros [= <- _]; [rewrite length_take|..]; simpl; lia.
Qed.

Lemma similarity_search_with_score_bound ollama m q k :
  returns (fun dd => length dd <= k) (similarity_search_with_score ollama m q k).
Proof.
  apply (returns_bind_returns _ _ _ _ (query_bound _ _)). intros res Hres.
  apply returns_ret. by rewrite length_map.
Qed.

Lemma sub_docs_search_bound ollama relevance r q :
  returns (fun subs => length subs <= search_k r) (sub_docs_search ollama relevance r q).
Proof.
  pose proof (similarity_search_with_score_bound ollama (embed_model r) q (search_k r)) as Hb.
  unfold sub_docs_search, similarity_search, similarity_search_with_relevance_scores.
  destruct (search_type r).
  - apply (returns_bind_returns _ _ _ _ Hb). intros dd Hdd. apply returns_ret.
    by rewrite length_fmap.
  - apply (returns_bind_returns (fun dd => length dd <= search_k r)); [|intros dd Hdd].
    + apply (returns_bind_returns _ _ _ _ Hb). intros dd Hdd.
      destruct (score_threshold r); apply returns_ret; [|by rewrite length_map].
      etransitivity; [apply length_filter|]. by rewrite length_map.
    + apply returns_ret. by rewrite length_fmap.
Qed.

Lemma collect_ids_go_length (ds : list Document) acc :
  length (foldl (fun ids d =>
    match metadata d !! id_key with
    | Some i => if decide (i ∈ ids) then ids else (ids ++ [i])%list
    | None => ids
    end) acc ds) <= length acc + length ds.
Proof.
  revert acc. induction ds as [|d ds IH]; intros acc; simpl; [lia|].
  etransitivity; [apply IH|]. repeat case_match; rewrite ?length_app; simpl; lia.
Qed.

Lemma length_omap_le {A B} (f : A -> option B) (l : list A) : length (omap f l) <= length l.
Proof.
  induction l as [|x l IH]; simpl; [lia|].
  destruct (f x); simpl; change (list_omap A B f l) with (omap f l); lia.
Qed.

Section Bound.
Context {St : Type} `{DocStore St}.
Context (view : St -> gmap string Document) (key_ok : string -> bool) (inv : St -> Prop).
Context `{!DocStoreSpec St view key_ok inv}.

(** A retrieval returns at most [search_k] documents: one per distinct
    [doc_id] of at most [k] hits. *)
Lemma get_relevant_documents_bound ollama relevance r q :
  returns (fun docs => length docs <= search_k r) (get_relevant_documents ollama relevance r q).
Proof.
  unfold get_relevant_documents.
  apply (returns_bind_returns _ _ _ _ (returns_zoom _ _ _ _ (sub_docs_search_bound ollama relevance r q))).
  intros subs Hsubs.
  apply (returns_bind_returns _ _ _ _ (returns_zoom _ _ _ _ (mget_length (collect_ids subs)))).
  intros ds Hds. apply returns_ret. etransitivity; [apply length_omap_le|].
  rewrite Hds. etransitivity; [apply collect_ids_go_length|]. simpl. lia.
Qed.

(** A retrieval only reads the collection and the docstore, whether it
    returns or raises. *)
Lemma readonly_get_relevant_documents ollama relevance r q :
  readonly (get_relevant_documents ollama relevance r q).
Proof.
  intros s0. unfold get_relevant_documents.
  apply preserves_bind; [|intros subs; apply preserves_bind; [|intros; apply preserves_ret]].
  - unfold on_vs. apply preserves_zoom_readonly; [by intros []|].
    unfold sub_docs_search. destruct (search_type r); [apply readonly_similarity_search|].
    intros s1. apply preserves_bind; [|intros; apply preserves_ret].
    apply readonly_similarity_search_with_relevance_scores.
  - unfold on_ds. apply preserves_zoom_readonly; [by intros []|apply mget_readonly].
Qed.
End Bound.
End RetrieverFacts.

Module RetrieverWitness.
Import Collection Retriever RetrieverFacts.

Definition w_ollama (m p : string) : list Z := [0%Z; 0%Z].
Definition w_relevance (d : Z) : Z := d.
Definition w_col : list Entry :=
  [mkEntry "x1" [0%Z; 0%Z] "ringkasan 1" {[ id_key := "d1" ]};
   mkEntry "x2" [0%Z; 0%Z] "ringkasan 1b" {[ id_key := "d1" ]};
   mkEntry "x3" [0%Z; 0%Z] "ringkasan 2" {[ id_key := "d2" ]}].
Definition w_doc : Document := doc_with_id "isi tabel asli" "d1".
Definition w_store : LocalFileStore Document := mkLocalFileStore {[ "d1" := w_doc ]}.
Definition w_retriever : MultiVectorRetriever := mkRetriever similarity "m" DEFAULT_K None.

Lemma retrieve_join_witness :
  @get_relevant_documents _ (KVDocstore id Ok) w_ollama w_relevance w_retriever "Ketua jurusan ?"
    (w_col, w_store) =
    (Ok (omap (fun i => kv_view Ok w_store !! i) (collect_ids (map entry_doc w_col))),
     (w_col, w_store)).
Proof.
  apply (@retrieve_join _ (KVDocstore id Ok) (kv_view Ok) valid_key (kv_wf Ok)
           (KVDocstore_spec id Ok (fun d => eq_refl))).
  - intros k v _. by exists v.
  - vm_compute. reflexivity.
  - vm_compute. repeat constructor.
Defined.
End RetrieverWitness.
