(* ===== verification/Session.v ===== *)
(** * The chat pages' common layer: session state, UI trace, chat messages

    What [src/Chatbot.py] and [src/pages/2Chat Local.py] share: the chat
    history kept in [st.session_state.chat_history] as a list of
    [{"role": ..., "content": ...}] dicts, the Streamlit calls a script run
    makes (the trace of [UIEvent]s), the shared stores the page's chain
    reads, and LangChain's conversion of the dict messages for a
    [ChatPromptTemplate] of a system message, a [MessagesPlaceholder] and a
    human message (modelled from the library).  [Module SessionFacts]
    proves the frame and invariant lemmas both pages' proofs use. *)

From Stdlib Require Import ZArith.
From S2P Require Import Prelude PyStr DocStore VectorStore.

Module Session.
Import Collection.

(** A chat message: the dict [{"role": role, "content": content}]. *)
Definition mk_msg (role content : string) : gmap string string :=
  <["role" := role]> {[ "content" := content ]}.

(** [d[k]] *)
Definition dict_get (d : gmap string string) (k : string) : res string :=
  match d !! k with Some v => Ok v | None => Err (KeyError k) end.

(** The Streamlit calls of the pages, as they reach the browser. *)
Inductive UIEvent :=
  | Subheader (text : string)
  | ChatMessage (role : string)          (* with st.chat_message(role) *)
  | Markdown (text : string)             (* st.markdown / placeholder.markdown *)
  | Spinner (text : string)              (* with st.spinner(text) *)
  | Print (text : string)                (* print(...) to stdout *)
  | SidebarWrite (label : string) (docs : list Document)
  | SidebarHistory (label : string) (h : list (gmap string string))
  | WriteText (text : string)            (* st.write(text) *)
  | WriteMessage (label : string) (m : gmap string string)  (* st.write(f"...{m}") *)
  | WriteDocs (label : string) (docs : list Document)
  | WriteCount (label : string) (n : nat)
  | EmptyPlaceholder                     (* st.empty() *)
  | Sleep (ms : nat).                    (* time.sleep(ms / 1000) *)

#[export] Instance UIEvent_eq_dec : EqDecision UIEvent.
Proof. solve_decision. Defined.

Definition nl : string := String (ascii_of_nat 10) EmptyString.
Definition dq : string := String (ascii_of_nat 34) EmptyString.

(** [st.subheader("\u{1F916} Chatbot Teknik Elektro Universitas Mataram")], the
  robot emoji as its UTF-8 bytes. *)
Definition subheader_text : string :=
  utf8 [240; 159; 164; 150] ++ " Chatbot Teknik Elektro Universitas Mataram".

(** The message types of LangChain after [convert_to_messages]. *)
Inductive Role := HumanRole | AIRole | SystemRole.

#[export] Instance Role_eq_dec : EqDecision Role.
Proof. solve_decision. Defined.

(** A dict message becomes a LangChain message by its role. *)
Definition convert_message (m : gmap string string) : res (Role * string) :=
  match m !! "role", m !! "content" with
  | Some r, Some c =>
      if decide (r = "user" \/ r = "human") then Ok (HumanRole, c)
      else if decide (r = "assistant" \/ r = "ai") then Ok (AIRole, c)
      else if decide (r = "system") then Ok (SystemRole, c)
      else Err (ValueError ("Unexpected message type: " ++ r))
  | _, _ => Err (ValueError "Message dict must contain 'role' and 'content' keys")
  end.

Fixpoint convert_messages (ms : list (gmap string string)) : res (list (Role * string)) :=
  match ms with
  | [] => Ok []
  | m :: ms' =>
      match convert_message m, convert_messages ms' with
      | Ok x, Ok xs => Ok (x :: xs)
      | Err e, _ => Err e
      | _, Err e => Err e
      end
  end.

(** [ChatPromptTemplate.from_messages([("system", system),
  MessagesPlaceholder("chat_history"), ("human", "{input}")])]
  formatted: the system message, the placeholder's messages, the human
  message. *)
Definition chat_prompt (system input : string) (history : list (gmap string string))
    : res (list (Role * string)) :=
  match convert_messages history with
  | Ok hs => Ok ((SystemRole, system) :: hs ++ [(HumanRole, input)])
  | Err e => Err e
  end.

(** The stuff chain's [format_docs]: the contents joined by blank lines. *)
Definition format_docs (docs : list Document) : string :=
  join_with (nl ++ nl) (map page_content docs).

Section World.
Context {St : Type} `{DocStore St}.

(** A session as a page sees it: the shared stores (collection and
    docstore), the session's [chat_history] ([None] until a page sets
    it) and the trace of the page's calls. *)
Record World := mkWorld {
  stores : list Entry * St;
  chat_history : option (list (gmap string string));
  trace : list UIEvent;
}.

Definition emit (e : UIEvent) : PyM World unit :=
  modify (fun w => mkWorld (stores w) (chat_history w) (trace w ++ [e])%list).
Definition on_stores {A} (m : PyM (list Entry * St) A) : PyM World A :=
  zoom stores (fun s w => mkWorld s (chat_history w) (trace w)) m.

(** [if "chat_history" not in st.session_state:
    st.session_state.chat_history = []] *)
Definition init_history : PyM World unit :=
  modify (fun w => match chat_history w with
                 | Some _ => w
                 | None => mkWorld (stores w) (Some []) (trace w)
                 end).

(** [st.session_state.chat_history]: a missing key raises. *)
Definition get_history : PyM World (list (gmap string string)) :=
  let! w := get in
  match chat_history w with
  | Some h => ret h
  | None => raise (KeyError "chat_history")
  end.

(** [st.session_state.chat_history.append(m)] *)
Definition append_history (m : gmap string string) : PyM World unit :=
  let! h := get_history in
  modify (fun w => mkWorld (stores w) (Some (h ++ [m])%list) (trace w)).
End World.
Arguments World St : clear implicits.
End Session.

Module SessionFacts.
Import Collection Session.

(** A message the pages themselves put in the history. *)
Definition msg_ok (m : gmap string string) : Prop :=
  exists r c, m = mk_msg r c /\ (r = "user" \/ r = "assistant").

(** What a chat page shows for each stored message: its role's bubble
  and its text. *)
Definition replay_frames (rcs : list (string * string)) : list UIEvent :=
  flat_map (fun rc => [ChatMessage rc.1; Markdown rc.2]) rcs.

(** The pages' messages are the dicts of a list of (role, content)
  pairs. *)
Lemma msg_ok_list h :
  Forall msg_ok h ->
  exists rcs, h = map (fun rc => mk_msg rc.1 rc.2) rcs /\
              Forall (fun rc => rc.1 = "user" \/ rc.1 = "assistant") rcs.
Proof.
  induction 1 as [|m h (r & c & -> & Hr) _ (rcs & -> & Hrcs)]; [by exists []|].
  exists ((r, c) :: rcs). split; [done|]. by constructor.
Qed.

Lemma dict_get_mk_msg_role r c : dict_get (mk_msg r c) "role" = Ok r.
Proof. unfold dict_get, mk_msg. by rewrite lookup_insert. Qed.

Lemma dict_get_mk_msg_content r c : dict_get (mk_msg r c) "content" = Ok c.
Proof. unfold dict_get, mk_msg. by rewrite lookup_insert_ne, lookup_singleton. Qed.

Lemma convert_messages_app h1 h2 xs1 xs2 :
  convert_messages h1 = Ok xs1 -> convert_messages h2 = Ok xs2 ->
  convert_messages (h1 ++ h2)%list = Ok (xs1 ++ xs2)%list.
Proof.
  revert xs1. induction h1 as [|m h1 IH]; intros xs1; simpl; [by intros [= <-]|].
  destruct (convert_message m), (convert_messages h1); intros [= <-] H2; [|done..].
  by rewrite (IH _ eq_refl H2).
Qed.

(** The prompt of a turn: the pages have already appended the question to
  the history they pass, and the template adds it once more. *)
Lemma chat_prompt_after_user sys p h hs :
  convert_messages h = Ok hs ->
  chat_prompt sys p (h ++ [mk_msg "user" p])%list =
    Ok ((SystemRole, sys) :: hs ++ [(HumanRole, p); (HumanRole, p)])%list.
Proof.
  intros Hc. unfold chat_prompt.
  rewrite (convert_messages_app _ _ _ [(HumanRole, p)] Hc); [|done].
  by rewrite <- app_assoc.
Qed.

Lemma convert_msg_ok m : msg_ok m -> exists x, convert_message m = Ok x.
Proof. intros (r & c & -> & [-> | ->]); eexists; done. Qed.

Lemma convert_messages_ok h : Forall msg_ok h -> exists xs, convert_messages h = Ok xs.
Proof.
  induction 1 as [|m h Hm _ [xs IH]]; [by eexists|]. simpl.
  destruct (convert_msg_ok m Hm) as [x ->]. rewrite IH. by eexists.
Qed.

Section Frames.
Context {St : Type} `{DocStore St}.

(** The session's history holds only the pages' own messages. *)
Definition history_wf (w : World St) : Prop :=
  match chat_history w with
  | None => True
  | Some h => Forall msg_ok h
  end.

Lemma emit_spec e (w : World St) :
  emit e w = (Ok tt, mkWorld (stores w) (chat_history w) (trace w ++ [e])%list).
Proof. done. Qed.

Lemma append_history_spec m (w : World St) :
  append_history m w =
  match chat_history w with
  | Some h => (Ok tt, mkWorld (stores w) (Some (h ++ [m])%list) (trace w))
  | None => (Err (KeyError "chat_history"), w)
  end.
Proof. unfold append_history, get_history, bind, get. by destruct (chat_history w). Qed.

Lemma preserves_emit e : preserves history_wf (emit e).
Proof. apply preserves_modify. by intros []. Qed.

Lemma preserves_on_stores {A} (m : PyM (list Entry * St) A) :
  preserves history_wf (on_stores m).
Proof.
  intros w r w' Hw. unfold on_stores, zoom. destruct (m _). by intros [= _ <-].
Qed.

Lemma preserves_get_history : preserves history_wf get_history.
Proof.
  unfold get_history. apply preserves_bind; [apply preserves_get|].
  intros w. destruct (chat_history w); auto with rag.
Qed.

Lemma preserves_append_history m :
  msg_ok m -> preserves history_wf (append_history m).
Proof.
  intros Hm w r w' Hw. rewrite append_history_spec. unfold history_wf in *.
  destruct (chat_history w) as [h|] eqn:E; [|intros [= _ <-]; by rewrite E].
  intros [= _ <-]. simpl. apply Forall_app. by split; [|constructor].
Qed.

Lemma preserves_append_user p : preserves history_wf (append_history (mk_msg "user" p)).
Proof. apply preserves_append_history. exists "user", p. auto. Qed.

Lemma preserves_append_assistant a :
  preserves history_wf (append_history (mk_msg "assistant" a)).
Proof. apply preserves_append_history. exists "assistant", a. auto. Qed.

Lemma preserves_init : preserves history_wf init_history.
Proof.
  apply preserves_modify. intros w Hw. unfold history_wf in *.
  destruct (chat_history w) eqn:E; [by rewrite E|simpl; constructor].
Qed.
End Frames.

#[export] Hint Resolve preserves_emit preserves_on_stores preserves_get_history
  preserves_append_user preserves_append_assistant preserves_init : rag.

(** * The stores a run leaves *)

Section StoresFixed.
Context {St : Type} `{DocStore St} (s0 : list Entry * St).

(** The stores are still [s0]. *)
Definition stores_are (w : World St) : Prop := stores w = s0.

Lemma preserves_emit_stores e : preserves stores_are (emit e).
Proof. apply preserves_modify. by intros []. Qed.

Lemma preserves_get_history_stores : preserves stores_are get_history.
Proof. unfold get_history. solve_preserves. case_match; solve_preserves. Qed.

Lemma preserves_append_history_stores m : preserves stores_are (append_history m).
Proof.
  intros w r w' Hw. rewrite append_history_spec. by destruct (chat_history w); intros [= _ <-].
Qed.

Lemma preserves_init_stores : preserves stores_are init_history.
Proof. apply preserves_modify. intros [? [] ?]; done. Qed.
End StoresFixed.

#[export] Hint Resolve preserves_emit_stores preserves_get_history_stores
  preserves_append_history_stores preserves_init_stores : rag.

(** A step that only reads the stores keeps every property of the
    session. *)
Lemma preserves_on_stores_readonly {St} `{DocStore St} {A} (P : World St -> Prop)
    (m : PyM (list Entry * St) A) :
  readonly m -> preserves P (on_stores m).
Proof. apply preserves_zoom_readonly. by intros []. Qed.

(** * What the trace shows *)

(** The documents an event shows: the retrieved context the test page
    writes and the one the chat page puts in the sidebar. *)
Definition shows_docs (e : UIEvent) : option (list Document) :=
  match e with
  | WriteDocs _ docs | SidebarWrite _ docs => Some docs
  | _ => None
  end.

(** An event shows at most [k] documents. *)
Definition shown_ok (k : nat) (e : UIEvent) : Prop :=
  forall docs, shows_docs e = Some docs -> length docs <= k.

Lemma shown_ok_plain k e : shows_docs e = None -> shown_ok k e.
Proof. intros He docs. by rewrite He. Qed.

Lemma shown_ok_docs k l docs : length docs <= k -> shown_ok k (WriteDocs l docs).
Proof. by intros Hd ? [= <-]. Qed.

Lemma shown_ok_sidebar k l docs : length docs <= k -> shown_ok k (SidebarWrite l docs).
Proof. by intros Hd ? [= <-]. Qed.

Section TraceOk.
Context {St : Type} (ok : UIEvent -> Prop).

(** Every event of the trace satisfies [ok]. *)
Definition trace_ok (w : World St) : Prop := Forall ok (trace w).

Lemma preserves_emit_ok e : ok e -> preserves trace_ok (emit e).
Proof. intros He. apply preserves_modify. intros w Hw. apply Forall_app. by split; [|constructor]. Qed.

Lemma preserves_on_stores_ok {A} (m : PyM (list Entry * St) A) : preserves trace_ok (on_stores m).
Proof. intros w r w' Hw. unfold on_stores, zoom. destruct (m _). by intros [= _ <-]. Qed.

Lemma preserves_get_history_ok : preserves trace_ok get_history.
Proof.
  unfold get_history. apply preserves_bind; [apply preserves_get|].
  intros w. destruct (chat_history w); auto with rag.
Qed.

Lemma preserves_append_history_ok m : preserves trace_ok (append_history m).
Proof.
  intros w r w' Hw. rewrite append_history_spec.
  destruct (chat_history w); by intros [= _ <-].
Qed.

Lemma preserves_init_ok : preserves trace_ok init_history.
Proof. apply preserves_modify. intros w Hw. unfold trace_ok in *. by destruct (chat_history w). Qed.
End TraceOk.

#[export] Hint Resolve preserves_emit_ok preserves_on_stores_ok preserves_get_history_ok
  preserves_append_history_ok preserves_init_ok shown_ok_plain shown_ok_docs shown_ok_sidebar : rag.
End SessionFacts.
