(* ===== verification/Knowlage.v ===== *)
(** * The ingestion page, [src/pages/3Knowlage.py]

    One script run of the page with an uploaded PDF: unless a file of the
    same name is already in [pdfFiles/], write it there, partition it into
    elements, keep the tables and the narrative text, summarise every kept
    element with the Groq LLM, then for the tables and for the texts in turn:
    draw one [uuid4] per element, put the originals in the docstore under
    those ids and add documents to the vector store.  Every call that
    changes the world is a step of [upload] in the script monad [PyM], in
    the order of the source; an exception leaves the world as far as the
    run got.  The services the page calls are section variables:
    [partition_pdf] (the unstructured partitioner), [groq] (the summary
    LLM, which may fail), [ollama] (embeddings) and [uuid4]. *)

From Stdlib Require Import ZArith.
From stdpp Require Import vector.
From S2P Require Import Prelude PyStr DocStore Uuid VectorStore Retriever.

Module Knowlage.
Import Collection.

(** An element returned by [partition_pdf]: the qualified name of its
  class, [str(element)] and its [metadata.text_as_html]. *)
Record PElement := mkPElement {
  el_class : string;
  el_text : string;
  el_html : option string;
}.

(** [str(type(element))] *)
Definition type_str (e : PElement) : string :=
  "<class '" ++ el_class e ++ "'>".

(** [class Element(BaseModel): type: str; page_content: Any] *)
Module Element.
Record Element := mkElement { type : string; page_content : string }.
End Element.
Import Element.

(** One iteration of the categorisation loop: which [if]/[elif] branch
  the element takes, by substring tests on its type's string. *)
Definition categorize1 (e : PElement) : option Element :=
  let t := type_str e in
  if py_in "unstructured.documents.elements.Table" t
  then Some (mkElement "table" (py_str_opt (el_html e)))
  else if py_in "unstructured.documents.elements.NarrativeText" t
  then Some (mkElement "text" (el_text e))
  else if py_in "unstructured.documents.elements.Address" t
  then Some (mkElement "text" (el_text e))
  else if py_in "unstructured.documents.elements.EmailAddress" t
  then Some (mkElement "text" (el_text e))
  else if py_in "unstructured.documents.elements.CompositeElement" t
  then Some (mkElement "text" (el_text e))
  else None.

(** [categorized_elements]: the loop appends the kept elements in order. *)
Definition categorize (elements : list PElement) : list Element :=
  omap categorize1 elements.

Definition table_elements (cs : list Element) : list Element :=
  filter (fun e => type e = "table") cs.
Definition text_elements (cs : list Element) : list Element :=
  filter (fun e => type e = "text") cs.

(** The summary prompt template, [{doc}] filled in.  The template opens
  with a double quote (the source's four quote characters are a triple
  quote and one quote character) and ends with a blank. *)
Definition dq : string := String (ascii_of_nat 34) EmptyString.
Definition summary_prompt (doc : string) : string :=
  dq ++ " Summarize the content of the following document into a single sentence in Bahasa Indonesia, directly without any introductory phrases or opening sentences : "
     ++ doc ++ " ".

(** The summary chain's model, lines 95-97:
  [ChatGroq(model_name="llama3-8b-8192", api_key=os.getenv("GROQ_API"))],
  at the class's default temperature. *)
Definition summary_model : LLMConfig :=
  mkLLMConfig "ChatGroq" "llama3-8b-8192" None (Some "GROQ_API") None.

(** The stores of lines 109-120: [LocalFileStore("./docstore")] and the
  collection ["database"] in [./vectorDB] embedded with
  [mxbai-embed-large]. *)
Definition knowlage_stores : Retriever.StoreConfig :=
  Retriever.mkStoreConfig "./vectorDB" "./docstore" "database" "mxbai-embed-large:latest".

(** The embedding model the page indexes with. *)
Definition knowlage_embed_model : string := Retriever.embedding_model knowlage_stores.

(** The directory of uploaded PDFs. *)
Definition pdf_path (name : string) : string := "pdfFiles/" ++ name.

Section Page.
(** The serialised form of a stored document, and the serialiser. *)
Context {V : Type} (dumps : Document -> V) (loads : V -> res Document).
(** [partition_pdf(filename=...)] on the bytes of the file. *)
Variable partition_pdf : list Byte.byte -> res (list PElement).
(** [summary_chain.invoke(x)]: the Groq model's answer to the prompt. *)
Variable groq : LLMConfig -> string -> res string.
Variable ollama : string -> string -> list Z.
Variable uuid4 : nat -> string.

(** The world the page acts on. *)
Record World := mkWorld {
  pdf_files : gmap string (list Byte.byte);
  docstore : LocalFileStore V;
  chroma : list Entry;
  rng : nat;
}.

Definition on_docstore {A} (m : PyM (LocalFileStore V) A) : PyM World A :=
  zoom docstore (fun d w => mkWorld (pdf_files w) d (chroma w) (rng w)) m.
Definition on_vectorstore {A} (m : PyM (nat * list Entry) A) : PyM World A :=
  zoom (fun w => (rng w, chroma w))
     (fun nc w => mkWorld (pdf_files w) (docstore w) nc.2 nc.1) m.
Definition write_file (path : string) (bytes : list Byte.byte) : PyM World unit :=
  modify (fun w => mkWorld (<[path := bytes]> (pdf_files w)) (docstore w) (chroma w) (rng w)).

(** [summary_chain.batch(contents, {"max_concurrency": 5})]: the
    answers in the order of the inputs; the first failure raises. *)
Definition summary_batch (contents : list string) : PyM World (list string) :=
  mapM (fun x => lift (groq summary_model (summary_prompt x))) contents.

(** [[Document(page_content=x, metadata={id_key: doc_ids[i]}) for i, x
    in enumerate(xs)]] *)
Definition docs_with_ids (doc_ids xs : list string) : PyM World (list Document) :=
  mapM (fun ix => let! i := lift (py_index doc_ids ix.1) in ret (doc_with_id ix.2 i))
     (enumerate xs).

(** The table block (lines 130-137) and the text block (lines 140-147),
    which differ in what they add to the vector store: the table block
    adds the summaries, the text block the originals. *)
Definition index_block (elements : list Element) (summaries : list string)
  (add_summaries : bool) : PyM World unit :=
  let! doc_ids := on_vectorstore (mapM (fun _ => draw_uuid uuid4) elements) in
  let! originals := docs_with_ids doc_ids (map Element.page_content elements) in
  let! summary_docs := docs_with_ids doc_ids summaries in
  on_docstore (kv_mset dumps (zip doc_ids originals)) ;;!
  let! _ := on_vectorstore (add_documents ollama uuid4 knowlage_embed_model
                            (if add_summaries then summary_docs else originals)) in
  ret tt.

(** The [if uploaded_file is not None:] block of the page. *)
Definition upload (uploaded : option (string * list Byte.byte)) : PyM World unit :=
  match uploaded with
  | None => ret tt
  | Some (name, bytes_data) =>
    let! w := get in
    if decide (is_Some (pdf_files w !! pdf_path name)) then ret tt else
    write_file (pdf_path name) bytes_data ;;!
    let! w := get in
    let! elements := lift (match pdf_files w !! pdf_path name with
                           | Some b => partition_pdf b
                           | None => Err IndexError
                           end) in
    let categorized := categorize elements in
    let tables := table_elements categorized in
    let texts := text_elements categorized in
    let! tables_summaries := summary_batch (map Element.page_content tables) in
    let! text_summaries := summary_batch (map Element.page_content texts) in
    index_block tables tables_summaries true ;;!
    index_block texts text_summaries false
  end.

(** The whole run: the upload block, then [Chroma(...).get()] for the
    sidebar. *)
Definition knowlage_page (uploaded : option (string * list Byte.byte))
  : PyM World GetResult :=
  upload uploaded ;;! zoom chroma (fun c w => mkWorld (pdf_files w) (docstore w) c (rng w)) col_get.
End Page.
Arguments World : clear implicits.
End Knowlage.

(** * The frame of the page: what a step leaves alone *)

Module KnowlageFacts.
Import Collection CollectionFacts Knowlage Element.

Section Frame.
Context {V : Type}.

(** A step that never changes the uploaded files. *)
Definition keeps_files {A} (m : PyM (World V) A) : Prop :=
  forall w r w', m w = (r, w') -> pdf_files w' = pdf_files w.

Lemma keeps_ret {A} (a : A) : keeps_files (ret a).
Proof. by intros w r w' [= _ <-]. Qed.

Lemma keeps_get : keeps_files get.
Proof. by intros w r w' [= _ <-]. Qed.

Lemma keeps_lift {A} (r0 : res A) : keeps_files (lift r0).
Proof. by intros w r w' [= _ <-]. Qed.

Lemma keeps_bind {A B} (m : PyM (World V) A) (k : A -> PyM (World V) B) :
  keeps_files m -> (forall a, keeps_files (k a)) -> keeps_files (bind m k).
Proof.
  intros Hm Hk w r w'. unfold bind.
  destruct (m w) as [[a|e] w1] eqn:E.
  - intros H. rewrite (Hk a _ _ _ H). by eapply Hm.
  - intros [= _ <-]. by eapply Hm.
Qed.

Lemma keeps_mapM {A B} (f : A -> PyM (World V) B) xs :
  (forall x, keeps_files (f x)) -> keeps_files (mapM f xs).
Proof.
  intros Hf. induction xs as [|x xs IH]; simpl; [apply keeps_ret|].
  apply keeps_bind; [done|]. intros y. apply keeps_bind; [done|]. intros. apply keeps_ret.
Qed.

Lemma keeps_on_docstore {A} (m : PyM (LocalFileStore V) A) : keeps_files (on_docstore m).
Proof. intros w r w'. unfold on_docstore, zoom. destruct (m _). by intros [= _ <-]. Qed.

Lemma keeps_on_vectorstore {A} (m : PyM (nat * list Entry) A) : keeps_files (on_vectorstore m).
Proof. intros w r w'. unfold on_vectorstore, zoom. destruct (m _). by intros [= _ <-]. Qed.
End Frame.

#[export] Hint Resolve keeps_ret keeps_get keeps_lift keeps_on_docstore
  keeps_on_vectorstore : rag.

(** The frame tactic: split a script into its steps and discharge each. *)
Ltac solve_keeps :=
  repeat (first [ apply keeps_bind; [|intros ?]
                | apply keeps_mapM; intros ?
                | progress (unfold summary_batch, docs_with_ids, index_block)
                | eauto with rag ]).

Section FrameOfPage.
Context {V : Type} (dumps : Document -> V).
Variables (groq : LLMConfig -> string -> res string) (ollama : string -> string -> list Z)
      (uuid4 : nat -> string).

Lemma keeps_index_block es sums b :
  keeps_files (index_block dumps ollama uuid4 es sums b).
Proof. solve_keeps. Qed.

Lemma keeps_summary_batch xs : keeps_files (V := V) (summary_batch groq xs).
Proof. solve_keeps. Qed.

Variable partition_pdf : list Byte.byte -> res (list PElement).

(** An upload of a name already in [pdfFiles/] does nothing. *)
Lemma upload_existing name bytes w :
  is_Some (pdf_files w !! pdf_path name) ->
  upload dumps partition_pdf groq ollama uuid4 (Some (name, bytes)) w = (Ok tt, w).
Proof. intros H. unfold upload, bind, get. by rewrite decide_True. Qed.

(** Whatever an upload ends in, success or any exception, the file is in
    [pdfFiles/] afterwards. *)
Lemma upload_has_file name bytes w r w' :
  upload dumps partition_pdf groq ollama uuid4 (Some (name, bytes)) w = (r, w') ->
  is_Some (pdf_files w' !! pdf_path name).
Proof.
  unfold upload. unfold bind at 1, get at 1.
  case_decide as Hex; [by intros [= _ <-]|].
  unfold bind at 1, write_file, modify.
  set (w1 := mkWorld _ _ _ _). intros Hrun.
  assert (Hk : pdf_files w' = pdf_files w1).
  { revert Hrun. apply keeps_bind; [apply keeps_get|intros w2].
  apply keeps_bind; [apply keeps_lift|intros els].
  apply keeps_bind; [apply keeps_summary_batch|intros ts].
  apply keeps_bind; [apply keeps_summary_batch|intros xs].
  apply keeps_bind; [apply keeps_index_block|intros].
  apply keeps_index_block. }
  rewrite Hk. subst w1. simpl. by rewrite lookup_insert_eq.
Qed.
End FrameOfPage.

(** * The steps of a successful run *)

Section Steps.
Context {V : Type} (dumps : Document -> V).
Variables (groq : LLMConfig -> string -> res string) (ollama : string -> string -> list Z)
      (uuid4 : nat -> string).

Lemma summary_batch_ok (sm : string -> string) xs (w : World V) :
  (forall x, x ∈ xs -> groq summary_model (summary_prompt x) = Ok (sm x)) ->
  summary_batch groq xs w = (Ok (map sm xs), w).
Proof.
  intros H. apply mapM_pure. intros x Hx. unfold lift. by rewrite H.
Qed.

Lemma docs_with_ids_go ids xs k (w : World V) :
  k + length xs <= length ids ->
  mapM (fun ix => let! i := lift (py_index ids ix.1) in ret (doc_with_id ix.2 i))
  (zip (seq k (length xs)) xs) w = (Ok (zip_with doc_with_id xs (drop k ids)), w).
Proof.
  revert k. induction xs as [|x xs IH]; intros k Hk; [done|].
  cbn [length seq zip zip_with mapM]. simpl in Hk.
  destruct (py_index_lt ids k) as (i & Hi & Hl); [lia|].
  rewrite (bind_ok _ _ _ (doc_with_id x i) w).
  2:{ simpl. unfold bind, lift. by rewrite Hi. }
  rewrite (bind_ok _ _ _ _ _ (IH (S k) ltac:(lia))).
  by rewrite (drop_S ids i k Hl).
Qed.

(** The comprehensions over [enumerate] with [doc_ids[i]] never raise
    [IndexError] when there are enough ids: they pair each content with
    its id. *)
Lemma docs_with_ids_ok ids xs (w : World V) :
  length xs <= length ids ->
  docs_with_ids ids xs w = (Ok (zip_with doc_with_id xs ids), w).
Proof. intros H. unfold docs_with_ids, enumerate. apply (docs_with_ids_go ids xs 0). lia. Qed.

Lemma docs_with_ids_go_err ids xs k (w : World V) :
  k <= length ids -> length ids < k + length xs ->
  mapM (fun ix => let! i := lift (py_index ids ix.1) in ret (doc_with_id ix.2 i))
  (zip (seq k (length xs)) xs) w = (Err IndexError, w).
Proof.
  revert k. induction xs as [|x xs IH]; intros k Hk0 Hk; simpl in Hk; [lia|].
  cbn [length seq zip mapM]. destruct (decide (k < length ids)) as [Hl|Hl].
  - destruct (py_index_lt ids k Hl) as (i & Hi & _).
    rewrite (bind_ok _ _ _ (doc_with_id x i) w); [|simpl; unfold bind, lift; by rewrite Hi].
    unfold bind at 1. by rewrite (IH (S k)) by lia.
  - simpl. unfold bind, lift. by rewrite py_index_ge by lia.
Qed.

(** C28 (equivalence): the comprehension
    [[Document(page_content=x, metadata={id_key: doc_ids[i]}) for i, x in
    enumerate(xs)]] of the table and text blocks is [zip_with] of the
    contents and the ids when there are at least as many ids as contents,
    and raises [IndexError] (at the first content without an id)
    otherwise; either way the world is unchanged. *)
Theorem docs_with_ids_index ids xs (w : World V) :
  docs_with_ids ids xs w =
  if decide (length xs <= length ids) then (Ok (zip_with doc_with_id xs ids), w)
  else (Err IndexError, w).
Proof.
  case_decide; [by apply docs_with_ids_ok|].
  unfold docs_with_ids, enumerate. apply (docs_with_ids_go_err ids xs 0); lia.
Qed.

Lemma draw_ids_world {A} (es : list A) (w : World V) :
  on_vectorstore (mapM (fun _ => draw_uuid uuid4) es) w =
  (Ok (map uuid4 (seq (rng w) (length es))),
   mkWorld (pdf_files w) (docstore w) (chroma w) (rng w + length es)).
Proof. unfold on_vectorstore, zoom. by rewrite draw_uuids. Qed.

Lemma metadata_doc_with_id c i : metadata (doc_with_id c i) <> ∅.
Proof. unfold doc_with_id. simpl. apply map_non_empty_singleton. Qed.

Lemma zip_with_metadata_nonempty cs ids :
  Forall (fun d => metadata d <> ∅) (zip_with doc_with_id cs ids).
Proof.
  apply Forall_forall. intros d Hd. apply elem_of_lookup_zip_with in Hd as (? & ? & ? & -> & _).
  apply metadata_doc_with_id.
Qed.

(** The documents a block adds to the vector store. *)
Definition block_added (es : list Element) (sums ids : list string) (b : bool)
  : list Document :=
  if b then zip_with doc_with_id sums ids
  else zip_with doc_with_id (map Element.page_content es) ids.

(** The ids a block draws first (the [doc_ids], from [uuid4] call [k]),
    the files it writes, and the collection entries it appends (under
    the next [length es] [uuid4]s, drawn by [add_texts]). *)
Definition block_ids (es : list Element) (k : nat) : list string :=
  map uuid4 (seq k (length es)).

Definition block_stored (es : list Element) (k : nat) : list (string * V) :=
  map (fun kv => (kv.1, dumps kv.2))
  (zip (block_ids es k) (zip_with doc_with_id (map Element.page_content es) (block_ids es k))).

Definition block_entries (es : list Element) (sums : list string) (k : nat) (b : bool)
  : list Entry :=
  let added := block_added es sums (block_ids es k) b in
  mk_entries (map uuid4 (seq (k + length es) (length es)))
  (embed_documents ollama knowlage_embed_model (map DocStore.page_content added))
  (map DocStore.page_content added) (map metadata added).

(** A block on elements whose fresh ids are valid keys and new to the
    collection: the originals go to the docstore under the first [L]
    [uuid4]s, the added documents to the collection under the next [L],
    in order. *)
Lemma index_block_ok es sums (b : bool) (w : World V) :
  es <> [] -> length sums = length es ->
  Forall (fun i => valid_key i = true) (block_ids es (rng w)) ->
  NoDup (map uuid4 (seq (rng w + length es) (length es))) ->
  Forall (fun i => has_id i (chroma w) = false)
       (map uuid4 (seq (rng w + length es) (length es))) ->
  check_dims (chroma w) (embed_documents ollama knowlage_embed_model
  (map DocStore.page_content (block_added es sums (block_ids es (rng w)) b))) = Ok tt ->
  index_block dumps ollama uuid4 es sums b w =
  (Ok tt, mkWorld (pdf_files w)
    (mkLocalFileStore (insert_all (block_stored es (rng w)) (lfs_files (docstore w))))
    (chroma w ++ block_entries es sums (rng w) b)%list
    (rng w + length es + length es)).
Proof.
  intros Hne Hlen Hkeys Hnd Hfresh Hdims.
  unfold block_entries, block_stored in *. unfold block_ids in *.
  set (ids := map uuid4 (seq (rng w) (length es))).
  assert (Hids : length ids = length es) by (subst ids; by rewrite length_map, length_seq).
  unfold index_block.
  rewrite (bind_ok _ _ _ _ _ (draw_ids_world es w)). fold ids.
  set (w1 := mkWorld (pdf_files w) (docstore w) (chroma w) (rng w + length es)).
  rewrite (bind_ok _ _ _ _ _ (docs_with_ids_ok ids (map Element.page_content es) w1
                              ltac:(rewrite length_map; lia))).
  rewrite (bind_ok _ _ _ _ _ (docs_with_ids_ok ids sums w1 ltac:(lia))).
  erewrite (bind_ok _ _ _ tt).
  2:{ unfold on_docstore, zoom, kv_mset. simpl. rewrite lfs_mset_ok; [done|].
    apply Forall_map. apply Forall_forall. intros [k d] Hkd. simpl.
    apply elem_of_zip_l in Hkd. rewrite Forall_forall in Hkeys. by apply Hkeys. }
  assert (Hadded : length (block_added es sums ids b) = length es).
  { unfold block_added. destruct b; rewrite length_zip_with, ?length_map; lia. }
  unfold bind, on_vectorstore, zoom. simpl.
  pose proof (add_documents_fresh ollama uuid4 knowlage_embed_model
              (block_added es sums ids b) (rng w + length es) (chroma w)) as Hadd.
  rewrite Hadded in Hadd. unfold block_added in Hadd |- *.
  destruct b; (rewrite Hadd; [done| |apply zip_with_metadata_nonempty|done|done|done]);
  intros Hnil; apply (f_equal length) in Hnil; simpl in Hnil;
  rewrite length_zip_with, ?length_map in Hnil; destruct es; simpl in *; [done|lia|done|lia].
Qed.
End Steps.

(** * A whole successful upload *)

Section Upload.
Context {V : Type} (dumps : Document -> V).
Variables (partition_pdf : list Byte.byte -> res (list PElement))
      (groq : LLMConfig -> string -> res string) (ollama : string -> string -> list Z)
      (uuid4 : nat -> string).

(** The world's assumptions for a run of [m] draws from [uuid4] call [n]:
    the ids are valid file-store keys, distinct and new to the
    collection, and every embedding, stored or returned by Ollama, has
    one dimension [d]. *)
Definition fresh_run (w : World V) (m d : nat) : Prop :=
  Forall (fun i => valid_key i = true) (map uuid4 (seq (rng w) m)) /\
  NoDup (map uuid4 (seq (rng w) m)) /\
  Forall (fun i => has_id i (chroma w) = false) (map uuid4 (seq (rng w) m)) /\
  (forall p, length (ollama knowlage_embed_model p) = d) /\
  Forall (fun e => length (ce_embedding e) = d) (chroma w).

Lemma embed_documents_dim d texts :
  (forall p, length (ollama knowlage_embed_model p) = d) ->
  Forall (fun v => length v = d) (embed_documents ollama knowlage_embed_model texts).
Proof. intros H. apply Forall_map, Forall_forall. intros. apply H. Qed.

Lemma block_entries_dim d es sums k b :
  (forall p, length (ollama knowlage_embed_model p) = d) ->
  Forall (fun e => length (ce_embedding e) = d) (block_entries ollama uuid4 es sums k b).
Proof.
  intros H. apply Forall_forall. intros e He.
  apply mk_entries_elem in He as [_ Hv].
  pose proof (embed_documents_dim d
  (map DocStore.page_content (block_added es sums (block_ids uuid4 es k) b)) H) as Hall.
  rewrite Forall_forall in Hall. by apply Hall.
Qed.

Definition tables_of (els : list PElement) := table_elements (categorize els).
Definition texts_of (els : list PElement) := text_elements (categorize els).
Definition contents (es : list Element) := map Element.page_content es.

(** The world after a successful upload. *)
Definition uploaded_world (w : World V) (name : string) (bytes : list Byte.byte)
  (els : list PElement) (sm : string -> string) : World V :=
  let T := tables_of els in
  let X := texts_of els in
  mkWorld (<[pdf_path name := bytes]> (pdf_files w))
  (mkLocalFileStore
     (insert_all (block_stored dumps uuid4 X (rng w + 2 * length T))
        (insert_all (block_stored dumps uuid4 T (rng w)) (lfs_files (docstore w)))))
  (chroma w ++ block_entries ollama uuid4 T (map sm (contents T)) (rng w) true
            ++ block_entries ollama uuid4 X (map sm (contents X)) (rng w + 2 * length T) false)%list
  (rng w + 2 * length T + 2 * length X).

(** C1 (functional): a first upload of a PDF with tables and text,
    whose summaries succeed and whose fresh ids are usable, succeeds and
    leaves: the file in [pdfFiles/]; the table originals and then the
    text originals in the docstore under the first and third blocks of
    [uuid4] values; the collection extended with the table entries and
    then the text entries under the second and fourth blocks; and
    [2 * (#tables + #texts)] [uuid4] calls made. *)
Theorem upload_ok name bytes els sm d (w : World V) :
  pdf_files w !! pdf_path name = None ->
  partition_pdf bytes = Ok els ->
  tables_of els <> [] -> texts_of els <> [] ->
  (forall x, groq summary_model (summary_prompt x) = Ok (sm x)) ->
  fresh_run w (2 * length (tables_of els) + 2 * length (texts_of els)) d ->
  upload dumps partition_pdf groq ollama uuid4 (Some (name, bytes)) w =
  (Ok tt, uploaded_world w name bytes els sm).
Proof.
  intros Hnew Hpart HT HX Hsm (Hkeys & Hnd & Hfr & Hd & Hc).
  unfold upload. unfold bind at 1, get at 1.
  rewrite decide_False by (rewrite Hnew; by intros [? ?]).
  unfold bind at 1, write_file, modify.
  set (w1 := mkWorld (<[pdf_path name := bytes]> (pdf_files w)) _ _ _).
  unfold bind at 1, get at 1.
  rewrite (bind_ok _ _ _ els w1).
  2:{ unfold lift, w1. simpl. by rewrite lookup_insert_eq, Hpart. }
  rewrite (bind_ok _ _ _ _ _ (summary_batch_ok groq sm _ w1 (fun x _ => Hsm x))).
  rewrite (bind_ok _ _ _ _ _ (summary_batch_ok groq sm _ w1 (fun x _ => Hsm x))).
  fold (tables_of els) (texts_of els).
  set (T := tables_of els) in *. set (X := texts_of els) in *.
  set (n := rng w) in *.
  set (m := 2 * length T + 2 * length X) in *.
  assert (Hsub : forall k l i, n <= k -> k + l <= n + m ->
          i ∈ map uuid4 (seq k l) -> has_id i (chroma w) = false).
  { intros k l i H1 H2 Hi. rewrite Forall_forall in Hfr. apply Hfr.
  by eapply map_seq_sub_elem; [| |exact Hi]. }
  assert (Hval : forall es k, n <= k -> k + length es <= n + m ->
          Forall (fun i => valid_key i = true) (block_ids uuid4 es k)).
  { intros es k H1 H2. apply Forall_forall. intros i Hi. rewrite Forall_forall in Hkeys.
  apply Hkeys. by eapply map_seq_sub_elem; [| |exact Hi]. }
  (* the table block *)
  rewrite (bind_ok _ _ _ tt _ (index_block_ok dumps ollama uuid4 T
           (map sm (map Element.page_content T)) true w1 HT
           ltac:(by rewrite !length_map)
           (Hval T (rng w1) ltac:(unfold w1, n; simpl; lia) ltac:(unfold w1, n, m; simpl; lia))
           ltac:(eapply NoDup_map_seq_sub; [| |exact Hnd]; simpl; lia)
           ltac:(apply Forall_forall; intros; eapply Hsub; [| |done]; simpl; lia)
           (check_dims_uniform _ _ d Hc (embed_documents_dim d _ Hd)))).
  (* the text block *)
  set (w2 := mkWorld _ _ _ _).
  rewrite (index_block_ok dumps ollama uuid4 X
           (map sm (map Element.page_content X)) false w2 HX
           ltac:(by rewrite !length_map)
           (Hval X (rng w2) ltac:(unfold w2, n; simpl; lia) ltac:(unfold w2, n, m; simpl; lia))
           ltac:(eapply NoDup_map_seq_sub; [| |exact Hnd]; simpl; lia)).
  3:{ apply check_dims_uniform with d; [|apply embed_documents_dim, Hd].
    apply Forall_app. split; [done|]. apply block_entries_dim, Hd. }
  2:{ apply Forall_forall. intros i Hi. simpl. rewrite has_id_app.
    rewrite (Hsub (n + length T + length T + length X) (length X)); [|unfold m; lia..|done].
    simpl. apply not_true_iff_false. intros (e & He & <-)%has_id_true.
    apply mk_entries_elem in He as [Hid _].
    apply (map_seq_disjoint uuid4 n m (n + length T) (length T)
             (n + length T + length T + length X) (length X) (ce_id e));
      [exact Hnd| | | |exact Hid|exact Hi]; unfold m; lia. }
  unfold uploaded_world, w2, contents. simpl. fold T X.
  assert (E1 : rng w + (length T + (length T + 0)) = n + length T + length T)
  by (unfold n; lia).
  rewrite E1, <- app_assoc. unfold n. by rewrite !Nat.add_0_r, !Nat.add_assoc.
Qed.

Lemma page_contents_zip xs ys :
  length xs <= length ys -> map DocStore.page_content (zip_with doc_with_id xs ys) = xs.
Proof.
  revert ys. induction xs as [|x xs IH]; intros [|y ys] H; simpl in *; try done; [lia|].
  f_equal. apply IH. lia.
Qed.

Lemma mk_entries_documents ids embs docs metas :
  length ids = length docs -> length embs = length docs -> length metas = length docs ->
  map ce_document (mk_entries ids embs docs metas) = docs.
Proof.
  revert ids embs metas. induction docs as [|dc docs IH];
  intros [|i ids] [|v embs] [|mt metas]; simpl; try done; try lia.
  intros. f_equal. apply IH; lia.
Qed.

(** The documents a block appends: the summaries for [true], the
    elements' own contents for [false]. *)
Lemma block_entries_documents es sums k (b : bool) :
  length sums = length es ->
  map ce_document (block_entries ollama uuid4 es sums k b) =
  if b then sums else contents es.
Proof.
  intros Hlen. unfold block_entries, block_added, block_ids, embed_documents, contents.
  assert (Hz : forall xs, length xs = length es ->
          map DocStore.page_content (zip_with doc_with_id xs (map uuid4 (seq k (length es)))) = xs).
  { intros xs Hxs. apply page_contents_zip. rewrite length_map, length_seq. lia. }
  destruct b; rewrite Hz by (rewrite ?length_map; lia);
  apply mk_entries_documents; rewrite ?length_map, ?length_zip_with, ?length_map, ?length_seq; lia.
Qed.

Lemma block_entries_length es sums k b :
  length sums = length es -> length (block_entries ollama uuid4 es sums k b) = length es.
Proof.
  intros Hlen. rewrite <- (length_map ce_document), block_entries_documents by done.
  destruct b; [done|apply length_map].
Qed.

Lemma mk_entries_metadata ids embs docs metas :
  length ids = length metas -> length embs = length metas -> length docs = length metas ->
  map ce_metadata (mk_entries ids embs docs metas) = metas.
Proof.
  revert ids embs docs. induction metas as [|mt metas IH];
    intros [|i ids] [|v embs] [|dc docs]; simpl; try done; try lia.
  intros. f_equal. apply IH; lia.
Qed.

Lemma metadata_zip xs ids :
  length ids <= length xs ->
  map metadata (zip_with doc_with_id xs ids) = map (fun i => {[ id_key := i ]}) ids.
Proof.
  revert xs. induction ids as [|i ids IH]; intros [|x xs] H; simpl in *; try done; [lia|].
  f_equal. apply IH. lia.
Qed.

(** Every entry a block appends carries the [doc_id] of its element's
    original, whatever the block adds. *)
Lemma block_entries_metadata es sums k (b : bool) :
  length sums = length es ->
  map ce_metadata (block_entries ollama uuid4 es sums k b) =
  map (fun i => {[ id_key := i ]}) (block_ids uuid4 es k).
Proof.
  intros Hlen. unfold block_entries, block_added, block_ids, embed_documents.
  destruct b; rewrite metadata_zip by (rewrite ?length_map, length_seq; lia);
    apply mk_entries_metadata; rewrite ?length_map, ?length_zip_with, ?length_map, ?length_seq; lia.
Qed.

(** A block on a world fresh for its [2 * length es] draws succeeds. *)
Lemma index_block_fresh es sums b d (w : World V) :
  es <> [] -> length sums = length es -> fresh_run w (2 * length es) d ->
  index_block dumps ollama uuid4 es sums b w =
  (Ok tt, mkWorld (pdf_files w)
    (mkLocalFileStore (insert_all (block_stored dumps uuid4 es (rng w)) (lfs_files (docstore w))))
    (chroma w ++ block_entries ollama uuid4 es sums (rng w) b)%list
    (rng w + length es + length es)).
Proof.
  intros Hne Hlen (Hkeys & Hnd & Hfr & Hd & Hc).
  apply (index_block_ok dumps ollama uuid4); try done.
  - by eapply Forall_map_seq_sub; [| |exact Hkeys]; lia.
  - by eapply NoDup_map_seq_sub; [| |exact Hnd]; lia.
  - by eapply Forall_map_seq_sub; [| |exact Hfr]; lia.
  - exact (check_dims_uniform _ _ d Hc (embed_documents_dim d _ Hd)).
Qed.

(** C2 (functional, the text block's bug): a text block
    ([add_summaries=False]) on a world fresh for its draws succeeds and
    appends to the collection one entry per element, in order, whose
    text is the element's own content and whose metadata is the
    [doc_id] of its original in the docstore: whatever summaries were
    computed, none of them is indexed (the comment on line 146 says
    "Simpan ringkasan di vectorstore", save the summaries). *)
Theorem text_block_indexes_originals es sums d (w : World V) :
  es <> [] -> length sums = length es -> fresh_run w (2 * length es) d ->
  exists added w',
    index_block dumps ollama uuid4 es sums false w = (Ok tt, w') /\
    chroma w' = (chroma w ++ added)%list /\
    map ce_document added = map Element.page_content es /\
    map ce_metadata added = map (fun i => {[ id_key := i ]}) (map uuid4 (seq (rng w) (length es))).
Proof.
  intros Hne Hlen Hf. eexists _, _.
  split; [exact (index_block_fresh es sums false d w Hne Hlen Hf)|].
  split; [done|]. split; [by apply block_entries_documents|by apply block_entries_metadata].
Qed.

(** The table block of an upload with no tables: no ids drawn, nothing
    stored, and [add_documents([])] raises. *)
Lemma index_block_nil b (w : World V) :
  index_block dumps ollama uuid4 [] [] b w =
  (Err (ValueError "Expected IDs to be a non-empty list"), w).
Proof. destruct w as [f [d] c n]. destruct b; reflexivity. Qed.


(** C14 (error): a first upload of a PDF with no table: the file is
    written, then [add_documents([])] of the table block raises
    chromadb's [ValueError]; no text element is stored or indexed and no
    [uuid4] is drawn. *)
Theorem upload_no_tables_fails name bytes els sm (w : World V) :
  pdf_files w !! pdf_path name = None ->
  partition_pdf bytes = Ok els ->
  tables_of els = [] ->
  (forall x, groq summary_model (summary_prompt x) = Ok (sm x)) ->
  upload dumps partition_pdf groq ollama uuid4 (Some (name, bytes)) w =
  (Err (ValueError "Expected IDs to be a non-empty list"),
   mkWorld (<[pdf_path name := bytes]> (pdf_files w)) (docstore w) (chroma w) (rng w)).
Proof.
  intros Hnew Hpart HT Hsm.
  unfold upload. unfold bind at 1, get at 1.
  rewrite decide_False by (rewrite Hnew; by intros [? ?]).
  unfold bind at 1, write_file, modify.
  set (w1 := mkWorld (<[pdf_path name := bytes]> (pdf_files w)) _ _ _).
  unfold bind at 1, get at 1.
  rewrite (bind_ok _ _ _ els w1).
  2:{ unfold lift, w1. simpl. by rewrite lookup_insert_eq, Hpart. }
  rewrite (bind_ok _ _ _ _ _ (summary_batch_ok groq sm _ w1 (fun x _ => Hsm x))).
  rewrite (bind_ok _ _ _ _ _ (summary_batch_ok groq sm _ w1 (fun x _ => Hsm x))).
  fold (tables_of els). rewrite HT. simpl map.
  by rewrite (bind_err _ _ _ _ _ (index_block_nil true w1)).
Qed.

(** C15 (safety): whatever a first upload of a name ends in (success, a
    failed summary, an indexing error), a later upload of the same name,
    with any content, changes nothing: a failed ingestion is never
    retried. *)
Theorem upload_retry_skipped name bytes bytes' (w : World V) r w' :
  upload dumps partition_pdf groq ollama uuid4 (Some (name, bytes)) w = (r, w') ->
  upload dumps partition_pdf groq ollama uuid4 (Some (name, bytes')) w' = (Ok tt, w').
Proof.
  intros Hrun. apply upload_existing. by eapply upload_has_file.
Qed.
End Upload.

(** * The categorisation loop *)

(** C24 (functional): the table test is a substring test on the type's
  string, so every element class whose qualified name extends
  [unstructured.documents.elements.Table] (as [TableChunk] does) is
  categorised as a table, and its content is its HTML, or the string
  ["None"] when the element has none. *)
Theorem categorize1_table_class suffix text html :
  categorize1 (mkPElement ("unstructured.documents.elements.Table" ++ suffix) text html) =
    Some (mkElement "table" (py_str_opt html)).
Proof.
  unfold categorize1. rewrite (proj2 (py_in_spec _ _)); [done|].
  exists "<class '", (suffix ++ "'>"). unfold type_str; simpl.
  by rewrite !append_assoc_str.
Qed.

Lemma categorize1_type e x :
  categorize1 e = Some x -> type x = "table" \/ type x = "text".
Proof.
  unfold categorize1. repeat case_match; intros [= <-]; simpl; auto.
Qed.

(** C25 (invariant): every categorised element is a table or a text, so
  the two lists the page summarises split the categorised elements:
  none is lost, none is counted twice. *)
Theorem categorize_split els :
  length (table_elements (categorize els)) + length (text_elements (categorize els)) =
    length (categorize els).
Proof.
  unfold table_elements, text_elements.
  assert (Hall : Forall (fun x => type x = "table" \/ type x = "text") (categorize els)).
  { apply Forall_forall. intros x Hx. unfold categorize in Hx.
    apply list_elem_of_omap in Hx as (e & _ & He). by eapply categorize1_type. }
  induction Hall as [|x l Hx _ IH]; [done|]. rewrite !filter_cons.
  destruct Hx as [Hx|Hx]; rewrite Hx; simpl;
    repeat case_decide; simpl; try congruence; lia.
Qed.
(** * The exceptions of an upload *)

Section Errors.
Context {V : Type} (dumps : Document -> V).
Variables (partition_pdf : list Byte.byte -> res (list PElement))
          (groq : LLMConfig -> string -> res string) (ollama : string -> string -> list Z).
(** The bytes of the [n]-th [os.urandom(16)] of the process, from which
    the [n]-th [str(uuid.uuid4())] is made. *)
Variable urandom : nat -> vec Byte.byte 16.

Lemma raises_docs_with_ids ids xs : raises_only (S := World V) vs_error (docs_with_ids ids xs).
Proof.
  unfold docs_with_ids. apply raises_mapM. intros ix.
  apply raises_bind; [|intros; apply raises_ret]. apply raises_lift. intros e.
  unfold py_index. destruct (ids !! ix.1); intros [= <-]. by left.
Qed.

(** [mset] of pairs whose keys are all valid never raises. *)
Lemma raises_kv_mset_valid (E : PyExn -> Prop) (kvs : list (string * Document)) :
  Forall (fun kv => valid_key kv.1 = true) kvs ->
  raises_only (S := World V) E (on_docstore (kv_mset dumps kvs)).
Proof.
  intros Hkvs. apply raises_zoom. intros s e s'. unfold kv_mset. rewrite lfs_mset_ok; [done|].
  apply Forall_map. eapply Forall_impl; [exact Hkvs|done].
Qed.

(** Pairs keyed by valid ids have valid keys, whatever they hold. *)
Lemma zip_keys_valid {A} (ids : list string) (xs : list A) :
  Forall (fun i => valid_key i = true) ids ->
  Forall (fun kv => valid_key kv.1 = true) (zip ids xs).
Proof.
  rewrite !Forall_forall. intros Hids [k x] Hkx%elem_of_zip_l. by apply Hids.
Qed.

(** The ids of [str(uuid.uuid4())] are valid keys (the helper behind the
    claim on [new_doc_id]). *)
Lemma page_uuid_valid n : valid_key (Uuid.new_doc_id (urandom n)) = true.
Proof. apply UuidFacts.uuid_str_valid_key, UuidFacts.uuid4_range. Qed.

(** A block whose ids are [str(uuid.uuid4())] raises only what the
    vector store raises, or [IndexError] (more summaries than elements);
    its docstore write never raises. *)
Lemma index_block_uuid_raises es sums b :
  raises_only vs_error (index_block dumps ollama (fun n => Uuid.new_doc_id (urandom n)) es sums b).
Proof.
  unfold index_block.
  apply (raises_bind_returns _ (Forall (fun i => valid_key i = true))).
  - unfold on_vectorstore, draw_uuid. solve_raises.
  - apply returns_zoom, returns_mapM. intros _. apply returns_zoom, returns_fresh_uuid.
    apply page_uuid_valid.
  - intros ids Hids. unfold on_vectorstore, draw_uuid. solve_raises;
    first [ apply raises_docs_with_ids
          | apply raises_kv_mset_valid, zip_keys_valid, Hids
          | apply add_texts_raises ].
Qed.

(** C9 (error): with its document ids made by [str(uuid.uuid4())], an
    upload raises only what the partitioner raises, what the summary
    LLM raises, or what the vector store raises (its validation and
    dimension errors, [IndexError]): the docstore's
    [InvalidKeyException] never escapes, whatever the PDF. *)
Theorem upload_uuid_raises uploaded :
  raises_only (fun e => vs_error e \/ (exists b, partition_pdf b = Err e) \/
                        (exists p, groq summary_model p = Err e))
    (upload dumps partition_pdf groq ollama (fun n => Uuid.new_doc_id (urandom n)) uploaded).
Proof.
  destruct uploaded as [[name bytes]|]; [|apply raises_ret]. unfold upload, write_file.
  solve_raises.
  1:{ apply raises_lift. intros e.
        case_match; intros He; [right; left; by eexists|injection He as <-; left; by left]. }
  all: first [ eapply raises_weaken; [apply index_block_uuid_raises|intros e He; by left]
             | unfold summary_batch; apply raises_mapM; intros x; apply raises_lift;
               intros e He; right; right; by eexists ].
Qed.
End Errors.

End KnowlageFacts.

(** * Witnesses: the theorems at a concrete upload *)

Module KnowlageWitness.
Import Collection Knowlage KnowlageFacts.

(** A stand-in for [str(uuid.uuid4())]: distinct strings of valid key
  characters. *)
Fixpoint a_str (n : nat) : string :=
  match n with 0 => "" | S n => String "a" (a_str n) end.
Definition w_uuid (n : nat) : string := String "u" (a_str n).

Definition w_els : list PElement :=
  [mkPElement "unstructured.documents.elements.Table" "t" (Some "<table></table>");
   mkPElement "unstructured.documents.elements.NarrativeText" "Ketua jurusan" None;
   mkPElement "unstructured.documents.elements.Title" "Judul" None].
Definition w_world : World Document := mkWorld ∅ (mkLocalFileStore ∅) [] 0.
Definition w_ollama (m p : string) : list Z := [0%Z; 1%Z].
Definition w_sm (x : string) : string := "ringkasan".
Definition w_groq (m : LLMConfig) (p : string) : res string := Ok (w_sm p).
Definition w_partition (b : list Byte.byte) : res (list PElement) := Ok w_els.
Definition w_partition_notable (b : list Byte.byte) : res (list PElement) :=
  Ok (drop 1 w_els).

Lemma upload_ok_witness :
  upload id w_partition w_groq w_ollama w_uuid (Some ("a.pdf", [])) w_world =
    (Ok tt, uploaded_world id w_ollama w_uuid w_world "a.pdf" [] w_els w_sm).
Proof.
  apply (upload_ok id w_partition w_groq w_ollama w_uuid "a.pdf" [] w_els w_sm 2 w_world);
    [reflexivity|reflexivity|vm_compute; congruence|vm_compute; congruence|
     intros; reflexivity|].
  split; [vm_compute; repeat constructor|].
  split; [apply (bool_decide_unpack _); vm_compute; exact I|].
  split; [vm_compute; repeat constructor|].
  split; [intros; reflexivity|constructor].
Defined.

Definition w_texts : list Element.Element := [Element.mkElement "text" "Ketua jurusan"].

Lemma text_block_indexes_originals_witness :
  exists added w',
    index_block (V := Document) id w_ollama w_uuid w_texts ["ringkasan"] false w_world = (Ok tt, w') /\
    chroma w' = (chroma w_world ++ added)%list /\
    map ce_document added = ["Ketua jurusan"] /\
    map ce_metadata added = [{[ id_key := "u" ]}].
Proof.
  apply (text_block_indexes_originals id w_ollama w_uuid w_texts ["ringkasan"] 2 w_world);
    [done|done|].
  split; [vm_compute; repeat constructor|].
  split; [apply (bool_decide_unpack _); vm_compute; exact I|].
  split; [vm_compute; repeat constructor|].
  split; [intros; reflexivity|constructor].
Defined.

Lemma upload_no_tables_fails_witness :
  upload id w_partition_notable w_groq w_ollama w_uuid (Some ("b.pdf", [])) w_world =
    (Err (ValueError "Expected IDs to be a non-empty list"),
     mkWorld (<[pdf_path "b.pdf" := []]> ∅) (mkLocalFileStore ∅) [] 0).
Proof.
  apply (upload_no_tables_fails id w_partition_notable w_groq w_ollama w_uuid
           "b.pdf" [] (drop 1 w_els) w_sm w_world);
    [reflexivity|reflexivity|vm_compute; reflexivity|intros; reflexivity].
Defined.

Lemma upload_retry_skipped_witness :
  upload id w_partition_notable w_groq w_ollama w_uuid (Some ("b.pdf", [])) w_world =
    (Err (ValueError "Expected IDs to be a non-empty list"),
     mkWorld (<[pdf_path "b.pdf" := []]> ∅) (mkLocalFileStore ∅) [] 0) /\
  upload id w_partition w_groq w_ollama w_uuid (Some ("b.pdf", [Byte.x01]))
    (mkWorld (<[pdf_path "b.pdf" := []]> ∅) (mkLocalFileStore ∅) [] 0) =
    (Ok tt, mkWorld (<[pdf_path "b.pdf" := []]> ∅) (mkLocalFileStore ∅) [] 0).
Proof.
  split; [vm_compute; reflexivity|].
  apply (upload_retry_skipped id w_partition w_groq w_ollama w_uuid "b.pdf" [] [Byte.x01]
           (mkWorld (<[pdf_path "b.pdf" := []]> ∅) (mkLocalFileStore ∅) [] 0)
           (Ok tt)).
  vm_compute. reflexivity.
Defined.
End KnowlageWitness.
