(* ===== verification/Chatbot.v ===== *)
(** * The chat page, [src/Chatbot.py]

    One script run of the Streamlit page: initialise [chat_history] in the
    session state if absent, show the subheader, replay the history, and if
    the chat input holds a question: append it to the history, invoke the
    RAG chain (retriever over the shared collection and docstore, then the
    Groq chat model on the system prompt, the history and the question),
    print the answer, show the retrieved context in the sidebar, type the
    answer out one character at a time, and append the answer to the
    history.  The page's output is modelled as the trace of Streamlit calls
    ([UIEvent]) in the order the script makes them; the session state and
    the stores persist across runs.  The history passed to the chain is the
    session's list itself, so it already holds the question. *)

From Stdlib Require Import ZArith.
From S2P Require Import Prelude PyStr DocStore VectorStore Retriever Session.

Module Chatbot.
Import Collection Retriever Session.

(** [qa_system_prompt] with its line continuations joined; the template's
  [{context}] is filled by [qa_system]. *)
Definition qa_system_prompt_prefix : string :=
  "You are an indonesian assistant for question-answering about " ++ dq ++
  "Information of Electrical Engineering at the University of Mataram" ++ dq ++
  ". Use the following pieces of retrieved context to answer the question. " ++
  "If you don't know the answer, just say Informasi belum tersedia. " ++
  "if you want make table use |. " ++
  "and answer only from the context. " ++ nl.

Definition qa_system (context : string) : string := qa_system_prompt_prefix ++ context.

(** [qa_prompt.format_messages(context=..., chat_history=..., input=...)]:
  the system message, the placeholder's messages, the human message. *)
Definition qa_prompt (context input : string) (history : list (gmap string string))
    : res (list (Role * string)) :=
  chat_prompt (qa_system context) input history.

(** The model of lines 46-50:
  [ChatGroq(temperature=0, model="llama3-8b-8192", api_key=os.getenv("GROQ_API2"))]. *)
Definition chatbot_model : LLMConfig :=
  mkLLMConfig "ChatGroq" "llama3-8b-8192" (Some 0) (Some "GROQ_API2") None.

(** The stores of lines 18-30: [./docstore] and the collection
  ["database"] in [./vectorDB], queried with [mxbai-embed-large]. *)
Definition chatbot_stores : StoreConfig :=
  mkStoreConfig "./vectorDB" "./docstore" "database" "mxbai-embed-large:latest".

(** The page's retriever: [SearchType.similarity_score_threshold] with
  [search_kwargs] left out, over the page's vector store. *)
Definition chatbot_retriever : MultiVectorRetriever :=
  mkRetriever similarity_score_threshold (embedding_model chatbot_stores) DEFAULT_K None.


Section Page.
Context {St : Type} `{DocStore St}.
Variable ollama : string -> string -> list Z.
Variable relevance : Z -> Z.
(** [ChatGroq(model="llama3-8b-8192", temperature=0)] on a message list. *)
Variable chat_llm : LLMConfig -> list (Role * string) -> res string.

(** [rag_chain.invoke({"input": input, "chat_history": history})]:
    the context documents and the answer. *)
Definition rag_chain_invoke (input : string) (history : list (gmap string string))
  : PyM (World St) (list Document * string) :=
  let! context := on_stores (get_relevant_documents ollama relevance chatbot_retriever input) in
  let! msgs := lift (qa_prompt (format_docs context) input history) in
  let! answer := lift (chat_llm chatbot_model msgs) in
  ret (context, answer).

(** [for char in answer: typed_text += char;
    typing_placeholder.markdown(typed_text); time.sleep(0.01)] *)
Fixpoint typing (typed : string) (cs : list ascii) : PyM (World St) unit :=
  match cs with
  | [] => ret tt
  | c :: cs' =>
    let typed' := typed ++ str1 c in
    emit (Markdown typed') ;;! emit (Sleep 10) ;;! typing typed' cs'
  end.

(** [for chat_history in st.session_state.chat_history: ...] *)
Definition replay (h : list (gmap string string)) : PyM (World St) unit :=
  forM_ (fun m =>
  let! r := lift (dict_get m "role") in
  emit (ChatMessage r) ;;!
  let! c := lift (dict_get m "content") in
  emit (Markdown c)) h.

(** The handling of a question (lines 92-113). *)
Definition answer_turn (prompt : string) : PyM (World St) unit :=
  append_history (mk_msg "user" prompt) ;;!
  emit (ChatMessage "user") ;;! emit (Markdown prompt) ;;!
  emit (ChatMessage "assistant") ;;! emit (Spinner "Sedang menulis...") ;;!
  let! h := get_history in
  let! response := rag_chain_invoke prompt h in
  emit (Print ("jawaban :  " ++ response.2)) ;;!
  emit (SidebarWrite "Context : " response.1) ;;!
  emit EmptyPlaceholder ;;!
  typing "" (chars response.2) ;;!
  append_history (mk_msg "assistant" response.2).

(** One run of the script; [input] is [st.chat_input(...)], whose value
    is tested for truth by the walrus [if]: [None] and [""] are false. *)
Definition chatbot_run (input : option string) : PyM (World St) unit :=
  init_history ;;!
  emit (Subheader subheader_text) ;;!
  let! h := get_history in
  replay h ;;!
  match input with
  | Some prompt => if String.eqb prompt "" then ret tt else answer_turn prompt
  | None => ret tt
  end.
End Page.
End Chatbot.

Module ChatbotFacts.
Import Collection Retriever RetrieverFacts Session SessionFacts Chatbot.

(** The frames the typing effect draws for [answer] after [typed]: for
  [i = 1 .. len(answer)], [typed + answer[:i]] and a 10 ms sleep. *)
Definition typing_frames (typed answer : string) : list UIEvent :=
  flat_map (fun i => [Markdown (typed ++ substring 0 i answer); Sleep 10])
    (seq 1 (String.length answer)).

Lemma typing_frames_cons typed c a :
  typing_frames typed (String c a) =
    Markdown (typed ++ str1 c) :: Sleep 10 :: typing_frames (typed ++ str1 c) a.
Proof.
  unfold typing_frames. simpl String.length. cbn [seq flat_map].
  rewrite flat_map_seq_shift. simpl app.
  replace (substring 0 0 a) with "" by (by destruct a). f_equal. f_equal.
  apply flat_map_ext. intros i. unfold str1. by rewrite <- append_assoc_str, append_cons, append_nil_l.
Qed.

Section Invariant.
Context {St : Type} `{DocStore St}.
Variables (ollama : string -> string -> list Z) (relevance : Z -> Z)
      (chat_llm : LLMConfig -> list (Role * string) -> res string).

(** The typing loop only draws text and sleeps: it keeps every invariant
    that the events showing no documents keep. *)
Lemma preserves_typing_gen (P : World St -> Prop) t cs :
  (forall e, shows_docs e = None -> preserves P (emit e)) -> preserves P (typing t cs).
Proof.
  intros He. revert t. induction cs as [|c cs IH]; intros t; simpl; [apply preserves_ret|].
  apply preserves_bind; [by apply He|intros]. apply preserves_bind; [by apply He|intros]. apply IH.
Qed.

Lemma preserves_typing t cs : preserves (@history_wf St) (typing t cs).
Proof. apply preserves_typing_gen. intros. apply preserves_emit. Qed.

#[local] Hint Resolve preserves_typing : rag.

Lemma preserves_answer_turn p :
  preserves history_wf (answer_turn ollama relevance chat_llm p).
Proof. unfold answer_turn, rag_chain_invoke. solve_preserves. Qed.

#[local] Hint Resolve preserves_answer_turn : rag.

(** Every run of the page, whatever it ends in (an answer, a failed
    retrieval or model call), keeps the history well formed. *)
Lemma preserves_chatbot_run input :
  preserves history_wf (chatbot_run ollama relevance chat_llm input).
Proof.
  unfold chatbot_run, replay. solve_preserves.
  destruct input as [p|]; [destruct (String.eqb p "")|]; solve_preserves.
Qed.
End Invariant.

(** * The context the page shows *)

Section Shown.
Context {St : Type} `{DocStore St}.
Context (view : St -> gmap string Document) (key_ok : string -> bool) (inv : St -> Prop).
Context `{!DocStoreSpec St view key_ok inv}.
Variables (ollama : string -> string -> list Z) (relevance : Z -> Z)
          (chat_llm : LLMConfig -> list (Role * string) -> res string).

(** The chain's context is the retriever's result: at most [k = 4]
    documents. *)
Lemma rag_chain_context_bound p h :
  returns (fun resp => length resp.1 <= DEFAULT_K) (rag_chain_invoke ollama relevance chat_llm p h).
Proof.
  unfold rag_chain_invoke.
  apply (returns_bind_returns _ _ _ _
           (returns_zoom _ _ _ _ (get_relevant_documents_bound view key_ok inv ollama relevance
                                    chatbot_retriever p))).
  intros ctx Hctx. apply returns_bind. intros msgs. apply returns_bind. intros ans.
  by apply returns_ret.
Qed.


Lemma preserves_answer_turn_shown p :
  preserves (trace_ok (shown_ok DEFAULT_K)) (answer_turn ollama relevance chat_llm p).
Proof.
  unfold answer_turn. do 6 (apply preserves_bind; [solve_preserves|intros ?]).
  eapply preserves_bind_returns; [|apply rag_chain_context_bound|intros resp Hresp].
  - unfold rag_chain_invoke. solve_preserves.
  - solve_preserves. apply preserves_typing_gen. solve_preserves.
Qed.

#[local] Hint Resolve preserves_answer_turn_shown : rag.

(** Every run of the page keeps every context it has shown within [k]. *)
Lemma preserves_chatbot_run_shown input :
  preserves (trace_ok (shown_ok DEFAULT_K)) (chatbot_run ollama relevance chat_llm input).
Proof.
  unfold chatbot_run, replay. solve_preserves.
  destruct input as [p|]; [destruct (String.eqb p "")|]; solve_preserves.
Qed.
End Shown.

Section ReadOnly.
Context {St : Type} `{DocStore St}.
Context (view : St -> gmap string Document) (key_ok : string -> bool) (inv : St -> Prop).
Context `{!DocStoreSpec St view key_ok inv}.
Variables (ollama : string -> string -> list Z) (relevance : Z -> Z)
          (chat_llm : LLMConfig -> list (Role * string) -> res string).

(** A turn reads the stores and writes only the session state. *)
Lemma preserves_answer_turn_stores s0 p :
  preserves (stores_are s0) (answer_turn ollama relevance chat_llm p).
Proof.
  unfold answer_turn, rag_chain_invoke. solve_preserves.
  - apply preserves_on_stores_readonly, (readonly_get_relevant_documents view key_ok inv).
  - apply preserves_typing_gen. auto with rag.
Qed.

#[local] Hint Resolve preserves_answer_turn_stores : rag.

(** Every run of the page leaves the stores as they were. *)
Lemma preserves_chatbot_run_stores s0 input :
  preserves (stores_are s0) (chatbot_run ollama relevance chat_llm input).
Proof.
  unfold chatbot_run, replay. solve_preserves.
  destruct input as [p|]; [destruct (String.eqb p "")|]; solve_preserves.
Qed.
End ReadOnly.

Section Turn.
Context {St : Type} `{DocStore St}.
Variables (ollama : string -> string -> list Z) (relevance : Z -> Z)
      (chat_llm : LLMConfig -> list (Role * string) -> res string).

(** The typing effect draws, for each [i] from 1 to
    [len(answer)], the first [i] characters of the answer after
    [typed] followed by a 10 ms sleep, and changes nothing else. *)
Lemma typing_spec typed a (w : World St) :
  typing typed (chars a) w =
  (Ok tt, mkWorld (stores w) (chat_history w) (trace w ++ typing_frames typed a)%list).
Proof.
  revert typed w. induction a as [|c a IH]; intros typed w.
  - destruct w. unfold typing_frames. simpl. by rewrite app_nil_r.
  - cbn [chars typing]. unfold bind. rewrite !emit_spec. simpl. rewrite IH. simpl.
  by rewrite typing_frames_cons, <- !app_assoc.
Qed.

Definition turn_head (p : string) : list UIEvent :=
  [ChatMessage "user"; Markdown p; ChatMessage "assistant"; Spinner "Sedang menulis..."].

(** A turn whose retrieval returns [ctx] and whose model answers [a]. *)
Lemma answer_turn_run p a ctx hs h st' w :
  chat_history w = Some h ->
  convert_messages h = Ok hs ->
  get_relevant_documents ollama relevance chatbot_retriever p (stores w) = (Ok ctx, st') ->
  chat_llm chatbot_model ((SystemRole, qa_system (format_docs ctx)) ::
            hs ++ [(HumanRole, p); (HumanRole, p)])%list = Ok a ->
  answer_turn ollama relevance chat_llm p w =
  (Ok tt, mkWorld st' (Some (h ++ [mk_msg "user" p; mk_msg "assistant" a]))
     (trace w ++ turn_head p ++
      [Print ("jawaban :  " ++ a); SidebarWrite "Context : " ctx; EmptyPlaceholder] ++
      typing_frames "" a))%list.
Proof.
  intros Hh Hc Hr Hl. destruct w as [sw hw tw]; simpl in *; subst hw.
  unfold answer_turn, append_history, get_history, rag_chain_invoke, on_stores, zoom,
  bind, get, modify, ret, lift, emit. simpl. rewrite Hr. simpl.
  unfold qa_prompt. rewrite (chat_prompt_after_user _ _ _ _ Hc), Hl. simpl.
  rewrite typing_spec. simpl. by rewrite <- !app_assoc.
Qed.

(** Progress of a turn: over a well-formed history, when the retrieval
    and the model answer, the turn stores the question and an answer. *)
Lemma answer_turn_progress p ctx st' h w :
  chat_history w = Some h -> Forall msg_ok h ->
  get_relevant_documents ollama relevance chatbot_retriever p (stores w) = (Ok ctx, st') ->
  (forall msgs, exists a, chat_llm chatbot_model msgs = Ok a) ->
  exists a t, answer_turn ollama relevance chat_llm p w =
    (Ok tt, mkWorld st' (Some (h ++ [mk_msg "user" p; mk_msg "assistant" a])%list) t).
Proof.
  intros Hh Hf Hr Hllm. destruct w as [sw hw tw]; simpl in *; subst hw.
  assert (Hu : msg_ok (mk_msg "user" p)) by (exists "user", p; auto).
  unfold answer_turn, append_history, get_history, rag_chain_invoke, on_stores, zoom,
    bind, get, modify, ret, lift, emit. simpl. rewrite Hr. simpl. unfold qa_prompt, chat_prompt.
  match goal with |- context [convert_messages ?l] =>
    destruct (convert_messages_ok l) as [hs ->]; [solve [auto | apply Forall_app_2; auto]|] end.
  match goal with |- context [chat_llm chatbot_model ?m] => destruct (Hllm m) as [a ->] end.
  simpl. rewrite typing_spec. simpl. exists a. eexists. by rewrite <- !app_assoc.
Qed.

(** C19 (error): when the chat model raises, the turn raises the same
    exception with the question left in the history without an answer
    (the next run shows it and sends it again as context). *)
Lemma answer_turn_llm_error p e ctx hs h st' w :
  chat_history w = Some h ->
  convert_messages h = Ok hs ->
  get_relevant_documents ollama relevance chatbot_retriever p (stores w) = (Ok ctx, st') ->
  chat_llm chatbot_model ((SystemRole, qa_system (format_docs ctx)) ::
            hs ++ [(HumanRole, p); (HumanRole, p)])%list = Err e ->
  answer_turn ollama relevance chat_llm p w =
  (Err e, mkWorld st' (Some (h ++ [mk_msg "user" p])) (trace w ++ turn_head p))%list.
Proof.
  intros Hh Hc Hr Hl. destruct w as [sw hw tw]; simpl in *; subst hw.
  unfold answer_turn, append_history, get_history, rag_chain_invoke, on_stores, zoom,
  bind, get, modify, ret, lift, emit. simpl. rewrite Hr. simpl.
  unfold qa_prompt. rewrite (chat_prompt_after_user _ _ _ _ Hc), Hl. simpl. by rewrite <- !app_assoc.
Qed.

(** Replaying stored messages draws each one's role bubble and text. *)
Lemma replay_spec rcs (w : World St) :
  replay (map (fun rc => mk_msg rc.1 rc.2) rcs) w =
  (Ok tt, mkWorld (stores w) (chat_history w) (trace w ++ replay_frames rcs)%list).
Proof.
  revert w. induction rcs as [|[r c] rcs IH]; intros w.
  - destruct w. simpl. by rewrite app_nil_r.
  - unfold replay in *. cbn [map forM_]. simpl fst; simpl snd.
  unfold bind at 1 2, lift. rewrite dict_get_mk_msg_role.
  unfold bind at 1. rewrite emit_spec. unfold bind at 1. rewrite dict_get_mk_msg_content.
  rewrite emit_spec. unfold bind. rewrite IH. simpl. by rewrite <- !app_assoc.
Qed.

(** The run of the page, spelled out (the body of [chatbot_run_spec]). *)
Lemma chatbot_run_eq input rcs (w : World St) :
  default [] (chat_history w) = map (fun rc => mk_msg rc.1 rc.2) rcs ->
  chatbot_run ollama relevance chat_llm input w =
  let w1 := mkWorld (stores w) (Some (map (fun rc => mk_msg rc.1 rc.2) rcs))
              (trace w ++ Subheader subheader_text :: replay_frames rcs)%list in
  match input with
  | Some p => if String.eqb p "" then (Ok tt, w1)
              else answer_turn ollama relevance chat_llm p w1
  | None => (Ok tt, w1)
  end.
Proof.
  intros Hh. destruct w as [sw hw tw]; simpl in *.
  unfold chatbot_run, bind at 1, init_history, modify.
  assert (Hw : (match hw with
              | Some _ => mkWorld sw hw tw
              | None => mkWorld sw (Some []) tw
              end) = mkWorld sw (Some (map (fun rc => mk_msg rc.1 rc.2) rcs)) tw)
  by (destruct hw as [l|]; simpl in Hh; [by rewrite Hh | by destruct rcs]).
  simpl. rewrite Hw. unfold bind at 1. rewrite emit_spec. simpl.
  unfold bind at 1, get_history, bind at 1, get, ret. simpl.
  unfold bind. rewrite replay_spec. simpl. rewrite <- app_assoc. by destruct input as [[]|].
Qed.

(** C26 (functional): a run of the page initialises the history if it is
    absent, draws the subheader and every stored message's role and
    text in order, and answers only when the chat input holds a
    non-empty question. *)
Lemma chatbot_run_spec input rcs (w : World St) :
  default [] (chat_history w) = map (fun rc => mk_msg rc.1 rc.2) rcs ->
  chatbot_run ollama relevance chat_llm input w =
  let w1 := mkWorld (stores w) (Some (map (fun rc => mk_msg rc.1 rc.2) rcs))
              (trace w ++ Subheader subheader_text :: replay_frames rcs)%list in
  match input with
  | Some p => if String.eqb p "" then (Ok tt, w1)
              else answer_turn ollama relevance chat_llm p w1
  | None => (Ok tt, w1)
  end.
Proof. exact (chatbot_run_eq input rcs w). Qed.
End Turn.

Section Join.
Context {St : Type} `{DocStore St}.
Context (view : St -> gmap string Document) (key_ok : string -> bool) (inv : St -> Prop).
Context `{!DocStoreSpec St view key_ok inv}.
Variables (ollama : string -> string -> list Z) (relevance : Z -> Z)
      (chat_llm : LLMConfig -> list (Role * string) -> res string).

(** C3 (functional, refinement): a question [p] asked in a session whose
    history [h] converts to messages [hs], over a docstore meeting the
    [DocStoreSpec] contract and a collection whose search returns the
    hits [subs]: the context is the stored original of each distinct
    [doc_id] of the hits; if the model answers [a] on the prompt
    [System(qa_system context) :: hs ++ [Human p; Human p]] (the question
    twice: the page appends it to the history it passes, the template
    adds it again), the turn ends with the history [h ++ [user p;
    assistant a]], the stores unchanged, and draws the user bubble, the
    question, the assistant bubble, the spinner, the printed answer, the
    sidebar context, the placeholder and the typing frames. *)
Lemma answer_turn_ok p a subs hs h c s w :
  stores w = (c, s) -> inv s ->
  chat_history w = Some h ->
  convert_messages h = Ok hs ->
  sub_docs_search ollama relevance chatbot_retriever p c = (Ok subs, c) ->
  Forall (fun i => key_ok i = true) (collect_ids subs) ->
  chat_llm chatbot_model ((SystemRole, qa_system (format_docs (omap (fun i => view s !! i) (collect_ids subs))))
            :: hs ++ [(HumanRole, p); (HumanRole, p)])%list = Ok a ->
  answer_turn ollama relevance chat_llm p w =
  (Ok tt, mkWorld (c, s) (Some (h ++ [mk_msg "user" p; mk_msg "assistant" a]))
     (trace w ++ turn_head p ++
      [Print ("jawaban :  " ++ a);
       SidebarWrite "Context : " (omap (fun i => view s !! i) (collect_ids subs));
       EmptyPlaceholder] ++
      typing_frames "" a))%list.
Proof.
  intros Hs Hinv Hh Hc Hsearch Hkeys Hl. apply answer_turn_run with hs; try done.
  rewrite Hs. by apply (retrieve_join view key_ok inv).
Qed.
End Join.
End ChatbotFacts.

Module ChatbotWitness.
Import Collection Retriever RetrieverFacts Session SessionFacts Chatbot ChatbotFacts.

Definition w_ollama (m p : string) : list Z := [0%Z; 0%Z].
Definition w_relevance (d : Z) : Z := d.
Definition w_col : list Entry :=
  [mkEntry "x1" [0%Z; 0%Z] "ringkasan" {[ id_key := "d1" ]}].
Definition w_doc : Document := doc_with_id "Ketua jurusan: Pak Budi" "d1".
Definition w_store : LocalFileStore Document := mkLocalFileStore {[ "d1" := w_doc ]}.
Definition w_llm (m : LLMConfig) (msgs : list (Role * string)) : res string := Ok "Pak Budi".
Definition w_llm_down (m : LLMConfig) (msgs : list (Role * string)) : res string :=
  Err (APIError "groq").
Definition w0 : World (LocalFileStore Document) :=
  mkWorld (w_col, w_store) (Some []) [].
Definition w_q : string := "Siapa kajur?".

Lemma answer_turn_ok_witness :
  @answer_turn _ (KVDocstore id Ok) w_ollama w_relevance w_llm w_q w0 =
    (Ok tt, mkWorld (w_col, w_store)
              (Some [mk_msg "user" w_q; mk_msg "assistant" "Pak Budi"])
              (turn_head w_q ++
               [Print ("jawaban :  " ++ "Pak Budi");
                SidebarWrite "Context : "
                  (omap (fun i => kv_view Ok w_store !! i) (collect_ids (map entry_doc w_col)));
                EmptyPlaceholder] ++ typing_frames "" "Pak Budi"))%list.
Proof.
  apply (@answer_turn_ok _ (KVDocstore id Ok) (kv_view Ok) valid_key (kv_wf Ok)
           (KVDocstore_spec id Ok (fun d => eq_refl)) w_ollama w_relevance w_llm w_q "Pak Budi"
           (map entry_doc w_col) [] [] w_col w_store w0).
  - reflexivity.
  - intros k v _. by exists v.
  - reflexivity.
  - reflexivity.
  - vm_compute. reflexivity.
  - vm_compute. repeat constructor.
  - reflexivity.
Defined.

Lemma answer_turn_llm_error_witness :
  @answer_turn _ (KVDocstore id Ok) w_ollama w_relevance w_llm_down w_q w0 =
    (Err (APIError "groq"), mkWorld (w_col, w_store) (Some [mk_msg "user" w_q])
                              (turn_head w_q))%list.
Proof.
  apply (@answer_turn_llm_error _ (KVDocstore id Ok) w_ollama w_relevance w_llm_down w_q
           (APIError "groq") [w_doc] [] []); vm_compute; reflexivity.
Defined.

Lemma chatbot_run_spec_witness :
  @chatbot_run _ (KVDocstore id Ok) w_ollama w_relevance w_llm None
    (mkWorld (w_col, w_store) (Some [mk_msg "user" "Halo"; mk_msg "assistant" "Hai"]) []) =
    (Ok tt, mkWorld (w_col, w_store) (Some [mk_msg "user" "Halo"; mk_msg "assistant" "Hai"])
              [Subheader subheader_text; ChatMessage "user"; Markdown "Halo";
               ChatMessage "assistant"; Markdown "Hai"]).
Proof.
  rewrite (@chatbot_run_spec _ (KVDocstore id Ok) w_ollama w_relevance w_llm None
             [("user", "Halo"); ("assistant", "Hai")]); reflexivity.
Defined.

End ChatbotWitness.
