(* ===== verification/ChatLocal.v ===== *)
(** * The local chat page, [src/pages/2Chat Local.py]

    The same session and history as [Chatbot.py], with a local Ollama
    [llama3] completion model instead of Groq, a retriever with the default
    [similarity] search over the shared collection but queried with the
    [nomic-embed-text] embeddings, a check of each stored message before it
    is shown, and a typing effect by words: the answer is split with
    [str.split()], re-joined with one blank after each word, and it is this
    re-joined text that is stored in the history. *)

From Stdlib Require Import ZArith.
From S2P Require Import Prelude PyStr DocStore VectorStore Retriever Session.

Module ChatLocal.
Import Collection Retriever Session.

(** [qa_system_prompt] of lines 51-56 (three continued lines, then a
  line break and a blank line before [{context}]). *)
Definition local_system_prompt_prefix : string :=
  "You are an assistant for question-answering tasks using indonesian language. " ++
  "Use the following pieces of retrieved context to answer the question. " ++
  "If you don't know the answer, just say Informasi belum tersedia. " ++
  "and answer only to the point." ++ nl ++ nl.

Definition local_system (context : string) : string := local_system_prompt_prefix ++ context.

(** [qa_prompt] of lines 59-65: the system message, the history, the
    human input. *)
Definition local_qa_prompt (context input : string) (history : list (gmap string string))
  : res (list (Role * string)) :=
  chat_prompt (local_system context) input history.

(** The model of lines 41-48: [Ollama(base_url="http://localhost:11434",
  model="llama3", verbose=True, callback_manager=...)]; the callback only
  echoes the generated tokens to standard output. *)
Definition local_model : LLMConfig :=
  mkLLMConfig "Ollama" "llama3" None None (Some "http://localhost:11434").

(** The stores of lines 18-30: the same directories and collection as
  the other pages, queried with [nomic-embed-text]. *)
Definition local_stores : StoreConfig :=
  mkStoreConfig "./vectorDB" "./docstore" "database" "nomic-embed-text".

(** The retriever of lines 34-38: no [search_type], so [similarity], over
  the page's vector store. *)
Definition local_retriever : MultiVectorRetriever :=
  mkRetriever similarity (embedding_model local_stores) DEFAULT_K None.

(** A completion model gets the chat prompt as one string:
  [get_buffer_string], one ["Role: content"] line per message. *)
Definition role_prefix (r : Role) : string :=
  match r with
  | HumanRole => "Human"
  | AIRole => "AI"
  | SystemRole => "System"
  end.

Definition buffer_string (msgs : list (Role * string)) : string :=
  join_with nl (map (fun m => role_prefix m.1 ++ ": " ++ m.2) msgs).

(** The typing cursor ["\u{258C}"], as its UTF-8 bytes. *)
Definition cursor : string := utf8 [226; 150; 140].

Section Page.
Context {St : Type} `{DocStore St}.
Variable ollama : string -> string -> list Z.
Variable relevance : Z -> Z.
(** [Ollama(model="llama3")] on a prompt string. *)
Variable local_llm : LLMConfig -> string -> res string.

(** [rag_chain.invoke({"input": ..., "chat_history": ...})] *)
Definition local_chain_invoke (input : string) (history : list (gmap string string))
  : PyM (World St) (list Document * string) :=
  let! context := on_stores (get_relevant_documents ollama relevance local_retriever input) in
  let! msgs := lift (local_qa_prompt (format_docs context) input history) in
  let! answer := lift (local_llm local_model (buffer_string msgs)) in
  ret (context, answer).

(** Lines 84-89: a message with both keys is shown, another is written
    out as invalid. *)
Definition replay_local (h : list (gmap string string)) : PyM (World St) unit :=
  forM_ (fun m =>
  match m !! "role", m !! "content" with
  | Some r, Some c => emit (ChatMessage r) ;;! emit (Markdown c)
  | _, _ => emit (WriteMessage "Invalid message format: " m)
  end) h.

(** Lines 114-118: [full_response += chunk + " "], a 50 ms sleep, the
    text so far with the cursor; the loop's final [full_response]. *)
Fixpoint typing_words (full : string) (chunks : list string) : PyM (World St) string :=
  match chunks with
  | [] => ret full
  | chunk :: chunks' =>
    let full' := full ++ chunk ++ " " in
    emit (Sleep 50) ;;! emit (Markdown (full' ++ cursor)) ;;! typing_words full' chunks'
  end.

(** Lines 92-123. *)
Definition local_turn (user_input : string) : PyM (World St) unit :=
  append_history (mk_msg "user" user_input) ;;!
  emit (ChatMessage "user") ;;! emit (Markdown user_input) ;;!
  emit (ChatMessage "assistant") ;;! emit (Spinner "Assistant is typing...") ;;!
  let! h := get_history in
  let! response := local_chain_invoke user_input h in
  emit EmptyPlaceholder ;;!
  let! full_response := typing_words "" (py_split response.2) in
  emit (Markdown full_response) ;;!
  append_history (mk_msg "assistant" full_response).

(** One run of the script. *)
Definition chatlocal_run (input : option string) : PyM (World St) unit :=
  init_history ;;!
  emit (Subheader subheader_text) ;;!
  let! h := get_history in
  emit (SidebarHistory "Chat History Structure:" h) ;;!
  replay_local h ;;!
  match input with
  | Some user_input => if String.eqb user_input "" then ret tt else local_turn user_input
  | None => ret tt
  end.
End Page.
End ChatLocal.

Module ChatLocalFacts.
Import Collection Retriever RetrieverFacts Session SessionFacts ChatLocal.

(** The frames of the word-by-word typing after [full]: for each
  [i = 1 .. len(words)], a sleep and [full] followed by the first [i]
  words, each with its blank, and the cursor. *)
Definition word_frames (full : string) (ws : list string) : list UIEvent :=
  flat_map (fun i => [Sleep 50; Markdown (full ++ join_words (take i ws) ++ cursor)])
    (seq 1 (length ws)).

Lemma word_frames_cons full w ws :
  word_frames full (w :: ws) =
    Sleep 50 :: Markdown ((full ++ w ++ " ") ++ cursor) :: word_frames (full ++ w ++ " ") ws.
Proof.
  unfold word_frames. cbn [length seq flat_map]. rewrite flat_map_seq_shift.
  cbn [take join_words foldr]. rewrite append_empty_r. simpl app.
  rewrite !append_assoc_str. do 2 f_equal.
  apply flat_map_ext. intros i. cbn [take foldr]. by rewrite !append_assoc_str.
Qed.

Section Turn.
Context {St : Type} `{DocStore St}.
Variables (ollama : string -> string -> list Z) (relevance : Z -> Z)
      (local_llm : LLMConfig -> string -> res string).

(** The word-by-word typing loop draws, for each [i],
    a 50 ms sleep and the first [i] words each followed by a blank, with
    the cursor, and returns those words each followed by a blank. *)
Lemma typing_words_spec full ws (w : World St) :
  typing_words full ws w =
  (Ok (full ++ join_words ws),
   mkWorld (stores w) (chat_history w) (trace w ++ word_frames full ws)%list).
Proof.
  revert full w. induction ws as [|x ws IH]; intros full w.
  - destruct w. unfold word_frames. simpl. by rewrite app_nil_r, append_empty_r.
  - cbn [typing_words]. unfold bind. rewrite !emit_spec. simpl. rewrite IH. simpl.
  rewrite word_frames_cons, <- !app_assoc. cbn [join_words foldr].
  by rewrite !append_assoc_str.
Qed.

Definition local_head (p : string) : list UIEvent :=
  [ChatMessage "user"; Markdown p; ChatMessage "assistant"; Spinner "Assistant is typing..."].

(** C17 (functional): a question answered [a] by the local model, which
    receives the chat prompt as one [get_buffer_string] text with the
    question twice, ends with the history [h ++ [user p; assistant
    (join_words (py_split a))]]: what is stored is the answer's words
    each followed by one blank, not the answer itself. *)
Lemma local_turn_ok p a ctx hs h st' w :
  chat_history w = Some h ->
  convert_messages h = Ok hs ->
  get_relevant_documents ollama relevance local_retriever p (stores w) = (Ok ctx, st') ->
  local_llm local_model (buffer_string ((SystemRole, local_system (format_docs ctx)) ::
                            hs ++ [(HumanRole, p); (HumanRole, p)]))%list = Ok a ->
  local_turn ollama relevance local_llm p w =
  (Ok tt, mkWorld st' (Some (h ++ [mk_msg "user" p; mk_msg "assistant" (join_words (py_split a))]))
     (trace w ++ local_head p ++ [EmptyPlaceholder] ++
      word_frames "" (py_split a) ++ [Markdown (join_words (py_split a))]))%list.
Proof.
  intros Hh Hc Hr Hl. destruct w as [sw hw tw]; simpl in *; subst hw.
  unfold local_turn, append_history, get_history, local_chain_invoke, local_qa_prompt, on_stores, zoom,
  bind, get, modify, ret, lift, emit. simpl. rewrite Hr. simpl.
  rewrite (chat_prompt_after_user _ _ _ _ Hc), Hl. simpl.
  rewrite typing_words_spec. simpl. rewrite append_nil_l. by rewrite <- !app_assoc.
Qed.

(** C7 (error): when the [nomic-embed-text] embedding of the query has
    another length than the collection's vectors (built with
    [mxbai-embed-large]), every question raises chromadb's
    [InvalidDimensionException]; the question stays in the history
    without an answer and no model is called. *)
Lemma local_turn_dim_mismatch p h c s d w :
  chat_history w = Some h -> stores w = (c, s) ->
  dim c = Some d -> length (ollama "nomic-embed-text" (query_instruction ++ p)) <> d ->
  local_turn ollama relevance local_llm p w =
  (Err (InvalidDimensionException (length (ollama "nomic-embed-text" (query_instruction ++ p))) d),
   mkWorld (c, s) (Some (h ++ [mk_msg "user" p])) (trace w ++ local_head p))%list.
Proof.
  intros Hh Hs Hd Hq. destruct w as [sw hw tw]; simpl in *; subst hw sw.
  unfold local_turn, append_history, get_history, local_chain_invoke, local_qa_prompt, on_stores, zoom,
  bind, get, modify, ret, lift, emit. simpl.
  rewrite (retrieve_dim_mismatch _ _ _ _ _ _ d) by done. simpl. by rewrite <- !app_assoc.
Qed.

(** On messages of the pages' own form, the check of line 85 always
    passes: each message's role bubble and text are drawn. *)
Lemma replay_local_spec rcs (w : World St) :
  replay_local (map (fun rc => mk_msg rc.1 rc.2) rcs) w =
  (Ok tt, mkWorld (stores w) (chat_history w) (trace w ++ replay_frames rcs)%list).
Proof.
  revert w. induction rcs as [|[r c] rcs IH]; intros w.
  - destruct w. simpl. by rewrite app_nil_r.
  - unfold replay_local in *. cbn [map forM_]. simpl fst; simpl snd.
  unfold mk_msg at 1 2. rewrite lookup_insert_eq, lookup_insert_ne, lookup_singleton_eq by done.
  unfold bind. rewrite !emit_spec. simpl. rewrite IH. simpl. by rewrite <- !app_assoc.
Qed.
End Turn.

Section Invariant.
Context {St : Type} `{DocStore St}.
Variables (ollama : string -> string -> list Z) (relevance : Z -> Z)
      (local_llm : LLMConfig -> string -> res string).

(** The typing loop and the replay show no documents: they keep every
    invariant that such events keep. *)
Lemma preserves_typing_words_gen (P : World St -> Prop) full ws :
  (forall e, shows_docs e = None -> preserves P (emit e)) -> preserves P (typing_words full ws).
Proof.
  intros He. revert full. induction ws as [|x ws IH]; intros full; cbn [typing_words].
  - apply preserves_ret.
  - apply preserves_bind; [by apply He|intros]. apply preserves_bind; [by apply He|intros].
    apply IH.
Qed.

Lemma preserves_replay_local_gen (P : World St -> Prop) h :
  (forall e, shows_docs e = None -> preserves P (emit e)) -> preserves P (replay_local h).
Proof.
  intros He. apply preserves_forM_. intros m. destruct (m !! "role"), (m !! "content");
    try (apply preserves_bind; [|intros]); by apply He.
Qed.

Lemma preserves_typing_words full ws : preserves (@history_wf St) (typing_words full ws).
Proof. apply preserves_typing_words_gen. intros. apply preserves_emit. Qed.

Lemma preserves_replay_local h : preserves (@history_wf St) (replay_local h).
Proof. apply preserves_replay_local_gen. intros. apply preserves_emit. Qed.

#[local] Hint Resolve preserves_typing_words preserves_replay_local : rag.

Lemma preserves_chatlocal_run input :
  preserves history_wf (chatlocal_run ollama relevance local_llm input).
Proof.
  unfold chatlocal_run, local_turn, local_chain_invoke. solve_preserves.
  destruct input as [p|]; [destruct (String.eqb p "")|]; solve_preserves.
Qed.
End Invariant.

Section Shown.
Context {St : Type} `{DocStore St}.
Variables (ollama : string -> string -> list Z) (relevance : Z -> Z)
      (local_llm : LLMConfig -> string -> res string).

#[local] Hint Resolve preserves_typing_words_gen preserves_replay_local_gen : rag.

(** The local page shows no retrieved context: its runs keep any bound
    on the contexts shown. *)
Lemma preserves_chatlocal_run_shown k input :
  preserves (trace_ok (shown_ok k)) (chatlocal_run (St := St) ollama relevance local_llm input).
Proof.
  unfold chatlocal_run, local_turn, local_chain_invoke. solve_preserves.
  destruct input as [p|]; [destruct (String.eqb p "")|]; solve_preserves.
Qed.
End Shown.

Section ReadOnly.
Context {St : Type} `{DocStore St}.
Context (view : St -> gmap string Document) (key_ok : string -> bool) (inv : St -> Prop).
Context `{!DocStoreSpec St view key_ok inv}.
Variables (ollama : string -> string -> list Z) (relevance : Z -> Z)
          (local_llm : LLMConfig -> string -> res string).

#[local] Hint Resolve preserves_typing_words_gen preserves_replay_local_gen : rag.

(** Every run of the local page leaves the stores as they were. *)
Lemma preserves_chatlocal_run_stores s0 input :
  preserves (stores_are s0) (chatlocal_run ollama relevance local_llm input).
Proof.
  unfold chatlocal_run, local_turn, local_chain_invoke. solve_preserves.
  destruct input as [p|]; [destruct (String.eqb p "")|]; solve_preserves.
  apply preserves_on_stores_readonly, (readonly_get_relevant_documents view key_ok inv).
Qed.
End ReadOnly.
End ChatLocalFacts.

Module ChatLocalWitness.
Import Collection Retriever Session SessionFacts ChatLocal ChatLocalFacts.

Definition w_ollama (m p : string) : list Z := [0%Z; 0%Z].
(** [nomic-embed-text] vectors are longer than the index's. *)
Definition w_ollama_nomic (m p : string) : list Z :=
  if String.eqb m "nomic-embed-text" then [0%Z; 0%Z; 0%Z] else [0%Z; 0%Z].
Definition w_relevance (d : Z) : Z := d.
Definition w_col : list Entry :=
  [mkEntry "x1" [0%Z; 0%Z] "ringkasan" {[ id_key := "d1" ]}].
Definition w_doc : Document := doc_with_id "Ketua jurusan: Pak Budi" "d1".
Definition w_store : LocalFileStore Document := mkLocalFileStore {[ "d1" := w_doc ]}.
Definition w_llm (m : LLMConfig) (prompt : string) : res string := Ok "Pak   Budi".
Definition w0 : World (LocalFileStore Document) := mkWorld (w_col, w_store) (Some []) [].
Definition w_q : string := "Siapa kajur?".

Lemma local_turn_ok_witness :
  @local_turn _ (KVDocstore id Ok) w_ollama w_relevance w_llm w_q w0 =
    (Ok tt, mkWorld (w_col, w_store)
              (Some [mk_msg "user" w_q; mk_msg "assistant" "Pak Budi "])
              (local_head w_q ++ [EmptyPlaceholder] ++ word_frames "" ["Pak"; "Budi"] ++
               [Markdown "Pak Budi "]))%list.
Proof.
  apply (@local_turn_ok _ (KVDocstore id Ok) w_ollama w_relevance w_llm w_q "Pak   Budi"
           [w_doc] [] []); vm_compute; reflexivity.
Defined.

Lemma local_turn_dim_mismatch_witness :
  @local_turn _ (KVDocstore id Ok) w_ollama_nomic w_relevance w_llm w_q w0 =
    (Err (InvalidDimensionException 3 2),
     mkWorld (w_col, w_store) (Some [mk_msg "user" w_q]) (local_head w_q))%list.
Proof.
  apply (@local_turn_dim_mismatch _ (KVDocstore id Ok) w_ollama_nomic w_relevance w_llm w_q
           [] w_col w_store 2 w0); vm_compute; congruence.
Defined.
End ChatLocalWitness.
