(* ===== verification/About.v ===== *)
(** * The test page, [src/pages/4About.py]

    A script that shows [len(vectorstore.get())] and then asks four fixed
    questions through [ask_question]: retrieve the context with the
    multi-vector retriever (default [similarity] search, queries embedded
    with [nomic-embed-text]), write it, and if it is not empty run the LCEL
    chain [{"context": retriever, "question": RunnablePassthrough()} |
    prompt | model | StrOutputParser()], which retrieves a second time and
    sends the filled template as one human message to the Groq chat model.
    The page's world is the session [World] of [Session.v]; it does not
    touch the chat history. *)

From Stdlib Require Import ZArith.
From S2P Require Import Prelude PyStr DocStore VectorStore Retriever Session.

Module About.
Import Collection Retriever Session.

(** The model of lines 49-53:
  [ChatGroq(temperature=0, model="llama3-8b-8192", api_key=os.getenv("GROQ_API"))]. *)
Definition about_model : LLMConfig :=
  mkLLMConfig "ChatGroq" "llama3-8b-8192" (Some 0) (Some "GROQ_API") None.

(** The stores of lines 16-28, queried with [nomic-embed-text]. *)
Definition about_stores : StoreConfig :=
  mkStoreConfig "./vectorDB" "./docstore" "database" "nomic-embed-text".

(** The retriever of lines 32-36. *)
Definition about_retriever : MultiVectorRetriever :=
  mkRetriever similarity (embedding_model about_stores) DEFAULT_K None.

(** [template] of lines 42-45 filled with the context and the question. *)
Definition about_prompt (context question : string) : string :=
  "Answer the question based only on the following context, which can include " ++
  "text and tables, and answer with Indonesia language:" ++ nl ++
  context ++ nl ++ "Question: " ++ question ++ nl.

Definition sq : string := String (ascii_of_nat 39) EmptyString.

Definition question_1 : string := "Ketua jurusan ?".
Definition question_2 : string := "Nama lengkap pak misbah ?".
Definition question_3 : string := "Sekjur ?".
Definition question_4 : string := "Nama lengkap pak syafar ?".

Definition count_label : string := "Dokumen yang tersimpan di vectorstore:".

Section Page.
Context {St : Type} `{DocStore St}.
Variable ollama : string -> string -> list Z.
Variable relevance : Z -> Z.
(** [str(docs)] of the retrieved list, as [PromptTemplate] formats it. *)
Variable py_repr_docs : list Document -> string.
(** [ChatGroq(model="llama3-8b-8192")] on a message list. *)
Variable chat_llm : LLMConfig -> list (Role * string) -> res string.

Definition retrieve (q : string) : PyM (World St) (list Document) :=
  on_stores (get_relevant_documents ollama relevance about_retriever q).

(** [chain.invoke(question)] *)
Definition chain_invoke (question : string) : PyM (World St) string :=
  let! context := retrieve question in
  lift (chat_llm about_model [(HumanRole, about_prompt (py_repr_docs context) question)]).

(** [ask_question(question)], lines 64-74. *)
Definition ask_question (question : string) : PyM (World St) unit :=
  let! context := retrieve question in
  emit (WriteDocs ("Konteks yang ditemukan untuk pertanyaan " ++ sq ++ question ++ sq ++ ":")
        context) ;;!
  if decide (context = []) then
  emit (WriteText ("Tidak ada konteks yang ditemukan untuk pertanyaan " ++ sq ++
                   question ++ sq ++ "."))
  else
  let! response := chain_invoke question in
  emit (WriteText ("Jawaban untuk pertanyaan " ++ sq ++ question ++ sq ++ ": " ++ response)).

(** One run of the script, lines 39 and 76-90. *)
Definition about_run : PyM (World St) unit :=
  let! r := on_stores (zoom fst (fun c s => (c, s.2)) col_get) in
  emit (WriteCount count_label (len_get_result r)) ;;!
  ask_question question_1 ;;!
  ask_question question_2 ;;!
  ask_question question_3 ;;!
  ask_question question_4.
End Page.
End About.

Module AboutFacts.
Import Collection CollectionFacts Retriever RetrieverFacts Session SessionFacts About.

Section Page.
Context {St : Type} `{DocStore St}.
Variables (ollama : string -> string -> list Z) (relevance : Z -> Z)
      (py_repr_docs : list Document -> string)
      (chat_llm : LLMConfig -> list (Role * string) -> res string).

Definition context_label (q : string) : string :=
  "Konteks yang ditemukan untuk pertanyaan " ++ sq ++ q ++ sq ++ ":".

(** C22 (functional): when the retrieval finds [ctx] (not empty) and
    leaves the stores as they are, [ask_question] writes the context and
    the model's answer on the template filled with that same [ctx]: the
    chain's second retrieval gives the first one's result. *)
Lemma ask_question_answer q ctx resp (w : World St) :
  get_relevant_documents ollama relevance about_retriever q (stores w) = (Ok ctx, stores w) ->
  ctx <> [] ->
  chat_llm about_model [(HumanRole, about_prompt (py_repr_docs ctx) q)] = Ok resp ->
  ask_question ollama relevance py_repr_docs chat_llm q w =
  (Ok tt, mkWorld (stores w) (chat_history w)
            (trace w ++ [WriteDocs (context_label q) ctx;
                         WriteText ("Jawaban untuk pertanyaan " ++ sq ++ q ++ sq ++ ": " ++ resp)])%list).
Proof.
  intros Hr Hne Hl. destruct w as [sw hw tw]; simpl in *.
  unfold ask_question, chain_invoke, retrieve, on_stores, zoom, bind, emit, modify, lift.
  simpl. rewrite Hr. simpl. rewrite decide_False by done. simpl. rewrite Hr. simpl.
  rewrite Hl. by rewrite <- app_assoc.
Qed.

(** C27 (functional): when the retrieval finds nothing, [ask_question]
    writes the empty context and the no-context message and calls no
    model. *)
Lemma ask_question_no_context q (w : World St) :
  get_relevant_documents ollama relevance about_retriever q (stores w) = (Ok [], stores w) ->
  ask_question ollama relevance py_repr_docs chat_llm q w =
  (Ok tt, mkWorld (stores w) (chat_history w)
            (trace w ++ [WriteDocs (context_label q) [];
                         WriteText ("Tidak ada konteks yang ditemukan untuk pertanyaan " ++
                                    sq ++ q ++ sq ++ ".")])%list).
Proof.
  intros Hr. destruct w as [sw hw tw]; simpl in *.
  unfold ask_question, retrieve, on_stores, zoom, bind, emit, modify.
  simpl. rewrite Hr. simpl. by rewrite <- app_assoc.
Qed.

(** C18 (error): on a collection of another dimension than the
    [nomic-embed-text] query vectors, a run of the page writes the
    document count, which is [7] whatever the collection holds (the
    number of keys of [get()]'s dict), and then raises at the first
    question. *)
Lemma about_run_dim_mismatch c (s : St) d hw tw :
  dim c = Some d ->
  length (ollama "nomic-embed-text" (query_instruction ++ question_1)) <> d ->
  about_run ollama relevance py_repr_docs chat_llm (mkWorld (c, s) hw tw) =
  (Err (InvalidDimensionException
          (length (ollama "nomic-embed-text" (query_instruction ++ question_1))) d),
   mkWorld (c, s) hw (tw ++ [WriteCount count_label 7])%list).
Proof.
  intros Hd Hq. unfold about_run, ask_question, retrieve, on_stores, zoom, bind, emit, modify.
  simpl. by rewrite (retrieve_dim_mismatch _ _ _ _ _ _ d).
Qed.
End Page.

(** * The contexts the page writes *)

Section Shown.
Context {St : Type} `{DocStore St}.
Context (view : St -> gmap string Document) (key_ok : string -> bool) (inv : St -> Prop).
Context `{!DocStoreSpec St view key_ok inv}.
Variables (ollama : string -> string -> list Z) (relevance : Z -> Z)
          (py_repr_docs : list Document -> string)
          (chat_llm : LLMConfig -> list (Role * string) -> res string).

Lemma retrieve_bound q : returns (fun ctx => length ctx <= DEFAULT_K) (retrieve ollama relevance q).
Proof.
  apply returns_zoom. exact (get_relevant_documents_bound view key_ok inv ollama relevance
                               about_retriever q).
Qed.

Lemma preserves_ask_question_shown q :
  preserves (trace_ok (shown_ok DEFAULT_K)) (ask_question ollama relevance py_repr_docs chat_llm q).
Proof.
  unfold ask_question. eapply preserves_bind_returns; [|apply retrieve_bound|intros ctx Hctx].
  - unfold retrieve. solve_preserves.
  - unfold chain_invoke, retrieve. solve_preserves. case_decide; solve_preserves.
Qed.

#[local] Hint Resolve preserves_ask_question_shown : rag.

Lemma preserves_about_run_shown :
  preserves (trace_ok (shown_ok DEFAULT_K)) (about_run ollama relevance py_repr_docs chat_llm).
Proof. unfold about_run. solve_preserves. Qed.
End Shown.

Section ReadOnly.
Context {St : Type} `{DocStore St}.
Context (view : St -> gmap string Document) (key_ok : string -> bool) (inv : St -> Prop).
Context `{!DocStoreSpec St view key_ok inv}.
Variables (ollama : string -> string -> list Z) (relevance : Z -> Z)
          (py_repr_docs : list Document -> string)
          (chat_llm : LLMConfig -> list (Role * string) -> res string).

Lemma preserves_retrieve_stores s0 q :
  preserves (stores_are s0) (retrieve ollama relevance q).
Proof. apply preserves_on_stores_readonly, (readonly_get_relevant_documents view key_ok inv). Qed.

#[local] Hint Resolve preserves_retrieve_stores : rag.

Lemma preserves_ask_question_stores s0 q :
  preserves (stores_are s0) (ask_question ollama relevance py_repr_docs chat_llm q).
Proof.
  unfold ask_question, chain_invoke. solve_preserves. case_decide; solve_preserves.
Qed.

#[local] Hint Resolve preserves_ask_question_stores : rag.

(** Every run of the test page leaves the stores as they were. *)
Lemma preserves_about_run_stores s0 :
  preserves (stores_are s0) (about_run ollama relevance py_repr_docs chat_llm).
Proof.
  unfold about_run. solve_preserves. apply preserves_on_stores_readonly.
  intros c0. apply preserves_zoom_readonly; [by intros []|]. intros c1. unfold col_get. solve_preserves.
Qed.
End ReadOnly.
End AboutFacts.

Module AboutWitness.
Import Collection Retriever Session About AboutFacts.

Definition w_ollama (m p : string) : list Z :=
  if String.eqb m "nomic-embed-text" then [0%Z; 0%Z; 0%Z] else [0%Z; 0%Z].
Definition w_ollama_same (m p : string) : list Z := [0%Z; 0%Z].
Definition w_relevance (d : Z) : Z := d.
Definition w_col : list Entry :=
  [mkEntry "x1" [0%Z; 0%Z] "ringkasan" {[ id_key := "d1" ]}].
Definition w_col_orphan : list Entry :=
  [mkEntry "x1" [0%Z; 0%Z] "ringkasan" {[ id_key := "d9" ]}].
Definition w_doc : Document := doc_with_id "Ketua jurusan: Pak Budi" "d1".
Definition w_store : LocalFileStore Document := mkLocalFileStore {[ "d1" := w_doc ]}.
Definition w_repr (docs : list Document) : string := "[...]".
Definition w_llm (m : LLMConfig) (msgs : list (Role * string)) : res string := Ok "Pak Budi".

Lemma about_run_dim_mismatch_witness :
  @about_run _ (KVDocstore id Ok) w_ollama w_relevance w_repr w_llm
    (mkWorld (w_col, w_store) None []) =
    (Err (InvalidDimensionException 3 2),
     mkWorld (w_col, w_store) None [WriteCount count_label 7]).
Proof.
  apply (@about_run_dim_mismatch _ (KVDocstore id Ok) w_ollama w_relevance w_repr w_llm
           w_col w_store 2); vm_compute; congruence.
Defined.

Lemma ask_question_answer_witness :
  @ask_question _ (KVDocstore id Ok) w_ollama_same w_relevance w_repr w_llm question_1
    (mkWorld (w_col, w_store) None []) =
    (Ok tt, mkWorld (w_col, w_store) None
              [WriteDocs (context_label question_1) [w_doc];
               WriteText ("Jawaban untuk pertanyaan " ++ sq ++ question_1 ++ sq ++ ": " ++
                          "Pak Budi")]).
Proof.
  apply (@ask_question_answer _ (KVDocstore id Ok) w_ollama_same w_relevance w_repr w_llm
           question_1 [w_doc] "Pak Budi" (mkWorld (w_col, w_store) None []));
    vm_compute; [reflexivity|congruence|reflexivity].
Defined.

Lemma ask_question_no_context_witness :
  @ask_question _ (KVDocstore id Ok) w_ollama_same w_relevance w_repr w_llm question_1
    (mkWorld (w_col_orphan, w_store) None []) =
    (Ok tt, mkWorld (w_col_orphan, w_store) None
              [WriteDocs (context_label question_1) [];
               WriteText ("Tidak ada konteks yang ditemukan untuk pertanyaan " ++
                          sq ++ question_1 ++ sq ++ ".")]).
Proof.
  apply (@ask_question_no_context _ (KVDocstore id Ok) w_ollama_same w_relevance w_repr w_llm
           question_1 (mkWorld (w_col_orphan, w_store) None [])).
  vm_compute. reflexivity.
Defined.
End AboutWitness.
