(* ===== verification/Maintenance.v ===== *)
(** * The maintenance script, [src/pages/5Test.py]

    Replaces one vector of the shared collection by hand:
    [vectorstore.update_document(id_update, new_document)] on the
    [mxbai-embed-large] collection, with a new document whose metadata
    points at [doc_id].  The docstore is opened but not written. *)

From Stdlib Require Import ZArith.
From S2P Require Import Prelude PyStr DocStore VectorStore Retriever.

Module Maintenance.
Import Collection.

Definition id_update : string := "83dc8289-a266-4e9a-8921-3d75090f007f".
Definition doc_id : string := "d8d4ac08-36d6-422d-9b7f-1bf6cd2095f0".

Definition new_content : string :=
  "Nama lengkap, NIP, email 1, email 2, dan alamat dosen. Adapun " ++
  "nama-nama dosen yang tertulis dalam tabel ini antara lain A. " ++
  "Sjamsjiar Rachman, ST., MT, pak Abdul Natsir, ST., MT,pak Abdullah " ++
  "Zainuddin, ST., MT,pak Agung Budi Muljono, ST., MT, Budi Darmawan, " ++
  "ST., M.Eng., Bulkis Kanata, ST., MT.,pak Cahyo Mustiko O. M., ST., " ++
  "M.Sc., Ph.D., pak Cipta Ramadhani, ST., M.Eng., Djul Fikry Budiman, " ++
  "ST., MT., Dr. I Made Ginarsa, ST., MT., Dr. Ida Ayu Sri Adnyani, ST., " ++
  "M.Erg.,pak Dr.Ir. Misbahuddin, ST., MT.IPu, Dr. rer. nat. Teti " ++
  "Zubaidah, ST., MT., Dr. Rismon H. Sianipar, ST., MT., M. Eng., pak " ++
  "Dr. Warindi, ST., M.Eng., Dwi Ratnasari, S.Kom., MT., Giri Wahyu " ++
  "Wiriasto, ST., MT., I Ketut Perdana Putra, ST., MT., I Ketut " ++
  "Wiryajati, ST., MT., I Made Ari Nrartha, ST., MT., I Made Budi " ++
  "Suksmadana, ST., MT., I Nyoman Wahyu S., ST., MSc., Ph.D., Ida Bagus " ++
  "Fery Citarsa, ST., MT., Lalu A. Syamsul Irfan Akbar, ST., M.Eng., " ++
  "Made Sutha Yadnya, ST., MT., Muhamad Irwan, ST., MT., Muhamad Syamsu " ++
  "Iqbal, ST., MT., Ph.D., Ni Made Seniari, ST., MT., Paniran, ST., MT., " ++
  "Rosmaliati, ST., MT., Sabar Nababan, ST., MT., Sayidiman, ST. M.Eng., " ++
  "Sudi M. Al Sasongko, ST., MT., Sultan, ST., MT., Supriono, ST., MT., " ++
  "Supriyatna, ST., MT., Syafarudin Ch, ST., MT., dan Suthami " ++
  "Ariessaputra, ST., M.Eng.".

Definition new_document : Document := mkDocument new_content {[ id_key := doc_id ]}.

(** The stores of lines 7-19, embedded with [mxbai-embed-large]. *)
Definition test_stores : Retriever.StoreConfig :=
  Retriever.mkStoreConfig "./vectorDB" "./docstore" "database" "mxbai-embed-large:latest".

(** The embedding model the script updates the entry with. *)
Definition test_model : string := Retriever.embedding_model test_stores.

Section Script.
Variable ollama : string -> string -> list Z.

(** Line 35, on the collection (the docstore is left as it is). *)
Definition test_run : PyM (list Entry) unit :=
  update_document ollama test_model id_update new_document.
End Script.
End Maintenance.

Module MaintenanceFacts.
Import Collection CollectionFacts Maintenance.

Section Script.
Variable ollama : string -> string -> list Z.

Definition new_entry : Entry :=
  mkEntry id_update (ollama test_model (embed_instruction ++ new_content)) new_content
  {[ id_key := doc_id ]}.

(** C23 (functional): when the new document's embedding has the
    collection's dimension, the script succeeds, keeps the collection's
    length and order, replaces the entry [id_update] (if present) by the
    new content, its embedding and the metadata [doc_id], and leaves
    every other entry as it was. *)
Lemma test_run_spec c :
  (forall d, dim c = Some d ->
   length (ollama test_model (embed_instruction ++ new_content)) = d) ->
  exists c', test_run ollama c = (Ok tt, c') /\ length c' = length c /\
  forall k e', c' !! k = Some e' ->
    exists e, c !! k = Some e /\
      (if String.eqb (ce_id e) id_update then e' = new_entry else e' = e).
Proof.
  intros Hd. unfold test_run. rewrite update_document_ok by done.
  eexists. split; [reflexivity|]. unfold update1. split; [apply length_map|].
  intros k e'. rewrite list_lookup_fmap. destruct (c !! k) as [e|]; [|done].
  intros [= <-]. exists e. split; [done|]. by destruct (String.eqb (ce_id e) id_update).
Qed.

(** C29 (error): the script's two other outcomes.  When the collection's
    embeddings have another dimension than the new document's, the
    update raises [InvalidDimensionException] and the collection is left
    as it was.  When the collection holds no entry [id_update] (an empty
    collection included), the update succeeds and changes nothing:
    chromadb skips an update of an absent id. *)
Theorem test_run_boundaries c d :
  (dim c = Some d -> length (ollama test_model (embed_instruction ++ new_content)) <> d ->
   test_run ollama c =
     (Err (InvalidDimensionException (length (ollama test_model (embed_instruction ++ new_content))) d),
      c)) /\
  (has_id id_update c = false ->
   (forall d', dim c = Some d' -> length (ollama test_model (embed_instruction ++ new_content)) = d') ->
   test_run ollama c = (Ok tt, c)).
Proof.
  split.
  - intros Hd Hne. exact (update_document_dim_mismatch ollama test_model id_update new_document c d Hd Hne).
  - intros Habs Hd. unfold test_run. rewrite update_document_ok by done.
    by rewrite update1_absent.
Qed.
End Script.
End MaintenanceFacts.

Module MaintenanceWitness.
Import Collection Maintenance MaintenanceFacts.

Definition w_ollama (m p : string) : list Z := [1%Z; 1%Z].
Definition w_col : list Entry :=
  [mkEntry "other" [0%Z; 0%Z] "ringkasan lain" {[ id_key := "d0" ]};
   mkEntry id_update [0%Z; 0%Z] "ringkasan dosen" {[ id_key := doc_id ]}].

Lemma test_run_spec_witness :
  (forall d, dim w_col = Some d ->
     length (w_ollama test_model (embed_instruction ++ new_content)) = d) /\
  exists c', test_run w_ollama w_col = (Ok tt, c') /\ length c' = length w_col /\
    forall k e', c' !! k = Some e' ->
      exists e, w_col !! k = Some e /\
        (if String.eqb (ce_id e) id_update then e' = new_entry w_ollama else e' = e).
Proof.
  assert (H : forall d, dim w_col = Some d ->
                length (w_ollama test_model (embed_instruction ++ new_content)) = d)
    by (intros d Hd; vm_compute in Hd; by injection Hd as <-).
  split; [exact H|]. exact (test_run_spec w_ollama w_col H).
Defined.
(** A collection of dimension 3, and one without [id_update]. *)
Definition w_col3 : list Entry := [mkEntry id_update [0%Z; 0%Z; 0%Z] "ringkasan dosen" ∅].
Definition w_col_other : list Entry := [mkEntry "other" [0%Z; 0%Z] "ringkasan lain" ∅].

Lemma test_run_boundaries_witness :
  test_run w_ollama w_col3 = (Err (InvalidDimensionException 2 3), w_col3) /\
  test_run w_ollama w_col_other = (Ok tt, w_col_other).
Proof.
  destruct (test_run_boundaries w_ollama w_col3 3) as [H1 _].
  destruct (test_run_boundaries w_ollama w_col_other 2) as [_ H2].
  split; [apply H1; [reflexivity|vm_compute; lia]|].
  apply H2; [reflexivity|intros d' Hd'; vm_compute in Hd'; by injection Hd' as <-].
Defined.
End MaintenanceWitness.
