(* ===== verification/Integrity.v ===== *)
(** * Referential integrity of the two stores

    The retriever joins every vector hit back to the docstore through the
    hit's ["doc_id"]; a hit whose id the docstore does not hold is dropped
    without a word ([omap] in [get_relevant_documents]).  This file proves
    that the ingestion page never creates such a hit: whatever an upload
    ends in (success, a failed summary, an invalid key, a dimension error),
    every collection entry that carries a [doc_id] names a file of the
    docstore, and every file decodes ([store_ok]).  In the states that
    uploads reach from empty stores, the retriever therefore returns one
    original per distinct [doc_id] of its hits.  The maintenance script
    keeps the invariant only when its hard-coded [doc_id] is stored. *)

From Stdlib Require Import ZArith.
From S2P Require Import Prelude PyStr DocStore VectorStore Retriever Knowlage Maintenance.

Module Integrity.
Import Collection Knowlage.

(** Every file of the store has a key [LocalFileStore] accepts. *)
Definition keys_valid {V} (s : LocalFileStore V) : Prop :=
  forall k, is_Some (lfs_files s !! k) -> valid_key k = true.

(** Every entry with a [doc_id] names a file of the docstore. *)
Definition ids_stored {V} (c : list Entry) (s : LocalFileStore V) : Prop :=
  forall e i, e ∈ c -> ce_metadata e !! id_key = Some i -> is_Some (lfs_files s !! i).

Section Ingestion.
Context {V : Type} (dumps : Document -> V).
Variable partition_pdf : list Byte.byte -> res (list PElement).
Variable groq : LLMConfig -> string -> res string.
Variable ollama : string -> string -> list Z.
Variable uuid4 : nat -> string.

(** The states the ingestion page reaches from empty stores: any sequence
    of its runs, with any uploaded file (or none), each ending in a value
    or an exception. *)
Inductive ingested : World V -> Prop :=
  | ingest_start files n : ingested (mkWorld files (mkLocalFileStore ∅) [] n)
  | ingest_run w f r w' :
  ingested w ->
  knowlage_page dumps partition_pdf groq ollama uuid4 f w = (r, w') ->
  ingested w'.
End Ingestion.
End Integrity.

Module IntegrityFacts.
Import Collection CollectionFacts Retriever RetrieverFacts Knowlage KnowlageFacts Element
  Integrity.

Section Stores.
Context {V : Type}.

Lemma ids_stored_grow (c : list Entry) (s s' : LocalFileStore V) :
  ids_stored c s -> (forall k, is_Some (lfs_files s !! k) -> is_Some (lfs_files s' !! k)) ->
  ids_stored c s'.
Proof. intros Hc Hg e i He Hi. apply Hg. by apply (Hc e i). Qed.
End Stores.

Section Page.
Context {V : Type} (dumps : Document -> V) (loads : V -> res Document).
Hypothesis loads_dumps : forall d, loads (dumps d) = Ok d.
Variable partition_pdf : list Byte.byte -> res (list PElement).
Variable groq : LLMConfig -> string -> res string.
Variable ollama : string -> string -> list Z.
Variable uuid4 : nat -> string.

(** The invariant of the ingestion page's world: the ids of the
    collection are stored, every file decodes, every file's key is one
    [LocalFileStore] accepts. *)
Definition store_ok (w : World V) : Prop :=
  ids_stored (chroma w) (docstore w) /\ kv_wf loads (docstore w) /\
  keys_valid (docstore w).

(** The documents [docs_with_ids] builds carry one of the ids. *)
Lemma docs_with_ids_spec ids xs (w : World V) r w' :
  docs_with_ids ids xs w = (r, w') ->
  w' = w /\ forall docs, r = Ok docs ->
  Forall (fun d => exists i, i ∈ ids /\ metadata d = {[ id_key := i ]}) docs.
Proof.
  apply mapM_pure_spec. intros [k x] s0 r0 s0'. unfold bind, lift, ret, py_index. simpl.
  destruct (ids !! k) as [i|] eqn:Hi; intros [= <- <-]; split; try done.
  intros ? [= <-]. exists i. split; [by eapply list_elem_of_lookup_2|done].
Qed.

(** Writing the originals keeps the invariant and, when it succeeds, stores
    every id. *)
Lemma kv_mset_store_ok ids docs (w : World V) r w' :
  store_ok w -> on_docstore (kv_mset dumps (zip ids docs)) w = (r, w') ->
  store_ok w' /\ chroma w' = chroma w /\
  (r = Ok tt -> length ids <= length docs -> forall i, i ∈ ids -> is_Some (lfs_files (docstore w') !! i)).
Proof.
  intros (Hids & Hwf & Hkeys). unfold on_docstore, zoom, kv_mset.
  destruct (lfs_mset _ (docstore w)) as [r1 s1] eqn:E. intros [= <- <-]. simpl.
  destruct (lfs_mset_spec _ _ _ _ E) as (H1 & H2 & H3).
  split_and!; [split_and!; [by eapply ids_stored_grow| |]|done|].
  - intros k v Hk. destruct (H1 k v Hk) as [Hold|[Hnew _]]; [by apply (Hwf k v)|].
  apply list_elem_of_fmap in Hnew as ([k' d] & [= -> ->] & _). exists d. apply loads_dumps.
  - intros k [v Hk]. destruct (H1 k v Hk) as [Hold|[_ Hv]]; [|done]. apply Hkeys. by exists v.
  - intros -> Hlen i Hi. apply list_elem_of_lookup_1 in Hi as [j Hj].
  destruct (lookup_lt_is_Some_2 docs j) as [d Hd].
  { apply lookup_lt_Some in Hj. lia. }
  apply (H3 eq_refl (i, dumps d)). apply list_elem_of_fmap. exists (i, d). split; [done|].
  apply list_elem_of_lookup_2 with j. by rewrite lookup_zip_with, Hj, Hd.
Qed.

(** Adding documents whose [doc_id]s are stored keeps the invariant. *)
Lemma add_documents_store_ok docs (w : World V) r w' :
  store_ok w ->
  Forall (fun d => exists i, is_Some (lfs_files (docstore w) !! i) /\
                          metadata d = {[ id_key := i ]}) docs ->
  on_vectorstore (add_documents ollama uuid4 knowlage_embed_model docs) w = (r, w') ->
  store_ok w'.
Proof.
  intros (Hids & Hwf & Hkeys) Hdocs. unfold on_vectorstore, zoom, add_documents.
  destruct (add_texts _ _ _ _ _ _) as [r1 [n1 c1]] eqn:E. intros [= <- <-]. simpl.
  split_and!; [|done|done]. intros e i He Hi.
  destruct (add_texts_entries _ _ _ _ _ _ _ _ _ _ e E He) as [Hold|[Hm|Hm]].
  - by apply (Hids e i).
  - apply list_elem_of_fmap in Hm as (d & Hmd & Hd). rewrite Forall_forall in Hdocs.
  destruct (Hdocs d Hd) as (j & Hj & Hmj). rewrite Hmd, Hmj, lookup_singleton_eq in Hi.
  by injection Hi as <-.
  - by rewrite Hm, lookup_empty in Hi.
Qed.

Lemma docs_stored (ids : list string) (docs : list Document) (s : LocalFileStore V) :
  Forall (fun d => exists i, i ∈ ids /\ metadata d = {[ id_key := i ]}) docs ->
  (forall i, i ∈ ids -> is_Some (lfs_files s !! i)) ->
  Forall (fun d => exists i, is_Some (lfs_files s !! i) /\ metadata d = {[ id_key := i ]}) docs.
Proof.
  intros Hd Hs. eapply Forall_impl; [exact Hd|]. intros d (i & Hi & Hm). exists i. auto.
Qed.

(** A block of the page keeps the invariant, whatever it ends in. *)
Lemma index_block_store_ok es sums b : preserves store_ok (index_block dumps ollama uuid4 es sums b).
Proof.
  intros w r w' Hw Hrun. unfold index_block in Hrun.
  rewrite (bind_ok _ _ _ _ _ (draw_ids_world uuid4 es w)) in Hrun.
  set (ids := map uuid4 _) in Hrun.
  set (w1 := mkWorld _ _ _ _) in Hrun.
  assert (Hw1 : store_ok w1) by done.
  assert (Hlen : length ids = length es) by (subst ids; by rewrite length_map, length_seq).
  pose proof (docs_with_ids_ok ids (map Element.page_content es) w1
              ltac:(rewrite length_map; lia)) as Eo.
  destruct (docs_with_ids_spec _ _ _ _ _ Eo) as [_ Ho]. specialize (Ho _ eq_refl).
  rewrite (bind_ok _ _ _ _ _ Eo) in Hrun.
  unfold bind at 1 in Hrun. destruct (docs_with_ids ids sums w1) as [[sdocs|e] w2] eqn:E2;
  destruct (docs_with_ids_spec _ _ _ _ _ E2) as [-> Hs]; [|by injection Hrun as _ <-].
  specialize (Hs _ eq_refl).
  unfold bind at 1 in Hrun.
  destruct (on_docstore (kv_mset dumps (zip ids _)) w1) as [[[]|e] w3] eqn:E3;
  destruct (kv_mset_store_ok _ _ _ _ _ Hw1 E3) as (Hw3 & _ & Hall); [|by injection Hrun as _ <-].
  specialize (Hall eq_refl ltac:(rewrite ?length_rev, length_zip_with, length_map; lia)).
  unfold bind in Hrun. destruct (on_vectorstore _ w3) as [r4 w4] eqn:E4.
  assert (Hw4 : store_ok w4).
  { eapply add_documents_store_ok; [exact Hw3| |exact E4].
  destruct b; by apply (docs_stored ids). }
  by destruct r4; injection Hrun as _ <-.
Qed.

(** C8 (roundtrip): when a block of the page succeeds with distinct
    [doc_ids], [docstore.mget(doc_ids)] afterwards reads back exactly the
    originals the block built ([Document(page_content=e.page_content,
    metadata={id_key: doc_ids[i]})]), in order: what [mset] wrote through
    [dumps] comes back through [loads], and the vector-store step after it
    does not touch the docstore. *)
Theorem index_block_roundtrip es sums b (w w' : World V) :
  index_block dumps ollama uuid4 es sums b w = (Ok tt, w') ->
  NoDup (block_ids uuid4 es (rng w)) ->
  kv_mget loads (block_ids uuid4 es (rng w)) (docstore w') =
    (Ok (map Some (zip_with doc_with_id (contents es) (block_ids uuid4 es (rng w)))), docstore w').
Proof.
  intros Hrun Hnd. unfold index_block in Hrun.
  rewrite (bind_ok _ _ _ _ _ (draw_ids_world uuid4 es w)) in Hrun. fold (block_ids uuid4 es (rng w)) in *.
  set (ids := block_ids uuid4 es (rng w)) in *. set (w1 := mkWorld _ _ _ _) in Hrun.
  assert (Hlen : length ids = length es) by (subst ids; unfold block_ids; by rewrite length_map, length_seq).
  rewrite (bind_ok _ _ _ _ _ (docs_with_ids_ok ids (map Element.page_content es) w1
                                ltac:(rewrite length_map; lia))) in Hrun.
  unfold bind at 1 in Hrun. destruct (docs_with_ids ids sums w1) as [[sdocs|e] w2] eqn:E2;
    destruct (docs_with_ids_spec _ _ _ _ _ E2) as [-> _]; [|done].
  unfold bind at 1 in Hrun. unfold on_docstore, zoom in Hrun.
  destruct (kv_mset dumps _ (docstore w1)) as [[[]|e] s1] eqn:E3; [|done].
  unfold bind, on_vectorstore, zoom in Hrun. simpl in Hrun.
  destruct (add_documents _ _ _ _ _) as [[]] in Hrun; [|done]. injection Hrun as <-. simpl.
  apply (kv_mset_mget_roundtrip dumps loads loads_dumps ids _ (docstore w1)); [done| |done].
  rewrite length_zip_with. unfold contents. rewrite length_map. lia.
Qed.

Lemma preserves_write_file p bytes : preserves store_ok (write_file (V:=V) p bytes).
Proof. by apply preserves_modify. Qed.

#[local] Hint Resolve index_block_store_ok preserves_write_file : rag.

(** The upload block keeps the invariant, whatever it ends in. *)
Lemma upload_store_ok f : preserves store_ok (upload dumps partition_pdf groq ollama uuid4 f).
Proof.
  destruct f as [[name bytes]|]; [|apply preserves_ret].
  unfold upload, summary_batch. solve_preserves. case_decide; solve_preserves.
Qed.

Lemma knowlage_page_store_ok f :
  preserves store_ok (knowlage_page dumps partition_pdf groq ollama uuid4 f).
Proof.
  unfold knowlage_page. apply preserves_bind; [apply upload_store_ok|].
  intros _ w r w' Hw. unfold zoom, col_get, bind, get, ret. by intros [= _ <-].
Qed.

(** Empty stores hold the invariant. *)
Lemma store_ok_empty files n : store_ok (mkWorld files (mkLocalFileStore ∅) [] n : World V).
Proof.
  split_and!; [intros e i He; set_solver|intros k v; simpl; by rewrite lookup_empty|].
  intros k [v Hv]. simpl in Hv. by rewrite lookup_empty in Hv.
Qed.

Lemma ingested_store_ok w :
  ingested dumps partition_pdf groq ollama uuid4 w -> store_ok w.
Proof.
  induction 1 as [files n|w f r w' _ IH Hrun]; [apply store_ok_empty|].
  exact (knowlage_page_store_ok f w r w' IH Hrun).
Qed.

Lemma store_ok_resolves w e i :
  store_ok w -> e ∈ chroma w -> ce_metadata e !! id_key = Some i ->
  valid_key i = true /\ exists d, kv_view loads (docstore w) !! i = Some d.
Proof.
  intros (Hids & Hwf & Hkeys) He Hi. destruct (Hids e i He Hi) as [v Hv].
  split; [apply Hkeys; by exists v|].
  destruct (Hwf i v Hv) as [d Hd]. exists d. unfold kv_view. rewrite lookup_omap, Hv. simpl. by rewrite Hd.
Qed.

(** C4 (invariant): in every state the ingestion page reaches from empty
    stores, whatever the uploads were and however each run ended (a failed
    summary, a PDF without tables, a dimension error), every [doc_id] of
    the collection names a stored file that decodes to a document: no
    summary is ever indexed without its original. *)
Theorem ingestion_integrity w e i :
  ingested dumps partition_pdf groq ollama uuid4 w ->
  e ∈ chroma w -> ce_metadata e !! id_key = Some i ->
  exists d, kv_view loads (docstore w) !! i = Some d.
Proof.
  intros Hw He Hi. by destruct (store_ok_resolves w e i (ingested_store_ok w Hw) He Hi).
Qed.

Variable relevance : Z -> Z.

(** Over stores that hold the invariant, a search that returns the hits
    [subs] makes the retriever return the stored original of each
    distinct [doc_id] of the hits. *)
Lemma store_ok_retrieval_complete w r q subs :
  store_ok w ->
  sub_docs_search ollama relevance r q (chroma w) = (Ok subs, chroma w) ->
  exists docs,
  @get_relevant_documents _ (KVDocstore dumps loads) ollama relevance r q (chroma w, docstore w) =
    (Ok docs, (chroma w, docstore w)) /\
  Forall2 (fun i d => kv_view loads (docstore w) !! i = Some d) (collect_ids subs) docs.
Proof.
  intros Hok Hs.
  assert (Hres : forall i, i ∈ collect_ids subs ->
          valid_key i = true /\ exists d, kv_view loads (docstore w) !! i = Some d).
  { intros i Hi. apply collect_ids_spec in Hi as (d & Hd & Hdi).
    pose proof (sub_docs_search_hits _ _ _ _ _ _ _ Hs) as Hh. rewrite Forall_forall in Hh.
    destruct (Hh d Hd) as (e & He & ->). by apply (store_ok_resolves w e i Hok He). }
  exists (omap (fun i => kv_view loads (docstore w) !! i) (collect_ids subs)). split.
  - apply (retrieve_join (St := LocalFileStore V) (kv_view loads) valid_key (kv_wf loads)
           (DocStoreSpec0 := KVDocstore_spec dumps loads loads_dumps)); [apply Hok|done|].
    apply Forall_forall. intros i Hi. by apply Hres.
  - apply omap_total. intros i Hi. destruct (Hres i Hi) as [_ [d Hd]]. by rewrite Hd.
Qed.

(** C5 (refinement): in every state the ingestion page reaches, a search
    of the collection that returns the hits [subs] makes the retriever
    return exactly one document per distinct [doc_id] of the hits, in order
    of first hit, each the original stored under that id: the join drops
    nothing. *)
Theorem ingested_retrieval_complete w r q subs :
  ingested dumps partition_pdf groq ollama uuid4 w ->
  sub_docs_search ollama relevance r q (chroma w) = (Ok subs, chroma w) ->
  exists docs,
  @get_relevant_documents _ (KVDocstore dumps loads) ollama relevance r q (chroma w, docstore w) =
    (Ok docs, (chroma w, docstore w)) /\
  Forall2 (fun i d => kv_view loads (docstore w) !! i = Some d) (collect_ids subs) docs.
Proof.
  intros Hw. apply store_ok_retrieval_complete. by apply ingested_store_ok.
Qed.
End Page.
Section Maintenance.
Context {V : Type}.
Variable ollama : string -> string -> list Z.

(** C20 (invariant): when the collection holds [id_update] and its ids
    are stored, the maintenance script's successful update keeps every
    [doc_id] stored exactly when its hard-coded [doc_id] is a file of the
    docstore (the script never writes the docstore); otherwise the entry it
    rewrites points at nothing and the retriever drops every hit on it. *)
Theorem test_run_integrity c (s : LocalFileStore V) c' :
  has_id Maintenance.id_update c = true -> ids_stored c s ->
  Maintenance.test_run ollama c = (Ok tt, c') ->
  (ids_stored c' s <-> is_Some (lfs_files s !! Maintenance.doc_id)).
Proof.
  intros Hhas Hids Hrun. apply update_document_result in Hrun. subst c'.
  set (e := mkEntry _ _ _ _). assert (He : e ∈ update1 c e) by (by apply update1_elem).
  split.
  - intros Hs. apply (Hs e); [done|]. subst e. simpl. apply lookup_singleton_eq.
  - intros Hd x i Hx Hi. destruct (update1_elem_inv _ _ _ Hx) as [Hc| ->]; [by apply (Hids x i)|].
  subst e. simpl in Hi. rewrite lookup_singleton_eq in Hi. by injection Hi as <-.
Qed.
End Maintenance.
End IntegrityFacts.

Module IntegrityWitness.
Import Collection Retriever Knowlage KnowlageFacts KnowlageWitness Integrity IntegrityFacts.

(** One successful upload of a PDF with a table and a text, from empty
  stores. *)
Definition w_start : World Document := mkWorld ∅ (mkLocalFileStore ∅) [] 0.
Definition w_after : World Document :=
  (knowlage_page id w_partition w_groq w_ollama w_uuid (Some ("a.pdf", [])) w_start).2.

Lemma w_after_ingested : ingested id w_partition w_groq w_ollama w_uuid w_after.
Proof.
  eapply ingest_run; [apply (ingest_start id w_partition w_groq w_ollama w_uuid ∅ 0)|].
  apply surjective_pairing.
Qed.

Definition w_entry : Entry := hd (mkEntry "" [] "" ∅) (chroma w_after).

Lemma ingestion_integrity_witness :
  exists d, kv_view Ok (docstore w_after) !! w_uuid 0 = Some d.
Proof.
  apply (ingestion_integrity id Ok (fun d => eq_refl) w_partition w_groq w_ollama w_uuid w_after w_entry).
  - apply w_after_ingested.
  - vm_compute. left.
  - vm_compute. reflexivity.
Defined.

Definition w_retriever : MultiVectorRetriever := mkRetriever similarity "m" DEFAULT_K None.
Definition w_subs : list Document :=
  match (sub_docs_search w_ollama id w_retriever "Ketua jurusan ?" (chroma w_after)).1 with
  | Ok l => l
  | Err _ => []
  end.

Lemma ingested_retrieval_complete_witness :
  exists docs,
    @get_relevant_documents _ (KVDocstore id Ok) w_ollama id w_retriever "Ketua jurusan ?"
      (chroma w_after, docstore w_after) = (Ok docs, (chroma w_after, docstore w_after)) /\
    Forall2 (fun i d => kv_view Ok (docstore w_after) !! i = Some d) (collect_ids w_subs) docs.
Proof.
  apply (ingested_retrieval_complete id Ok (fun d => eq_refl) w_partition w_groq w_ollama w_uuid id
           w_after w_retriever "Ketua jurusan ?" w_subs).
  - apply w_after_ingested.
  - vm_compute. reflexivity.
Defined.

(** One table block from empty stores. *)
Definition w_block : list Element.Element := [Element.mkElement "table" "<table></table>"].
Definition w_block_after : World Document :=
  (index_block id w_ollama w_uuid w_block ["ringkasan"] true w_start).2.

Lemma index_block_roundtrip_witness :
  kv_mget Ok (block_ids w_uuid w_block 0) (docstore w_block_after) =
    (Ok (map Some (zip_with doc_with_id (contents w_block) (block_ids w_uuid w_block 0))),
     docstore w_block_after).
Proof.
  apply (index_block_roundtrip id Ok (fun d => eq_refl) w_ollama w_uuid
           w_block ["ringkasan"] true w_start w_block_after).
  - vm_compute. reflexivity.
  - vm_compute. repeat constructor. set_solver.
Defined.

(** The collection holds [id_update] (without a [doc_id]) and the docstore
  is empty: the update leaves an entry whose [doc_id] is not stored. *)
Definition w_col : list Entry := [mkEntry Maintenance.id_update [0%Z; 0%Z] "ringkasan" ∅].
Definition w_empty : LocalFileStore Document := mkLocalFileStore ∅.
Definition w_embed (m p : string) : list Z := [1%Z; 1%Z].

Lemma test_run_integrity_witness :
  ids_stored (Maintenance.test_run w_embed w_col).2 w_empty <->
    is_Some (lfs_files w_empty !! Maintenance.doc_id).
Proof.
  apply (test_run_integrity w_embed w_col w_empty).
  - vm_compute. reflexivity.
  - intros e i He Hi. apply list_elem_of_singleton in He as ->. vm_compute in Hi. discriminate.
  - vm_compute. reflexivity.
Defined.
End IntegrityWitness.
