(* ===== verification/App.v ===== *)
(** * The multipage app: one browser session across the pages

    Streamlit runs the page the user opens, top to bottom, on every
    interaction, and the session state ([chat_history]) is shared by all
    pages of the app.  A session is therefore any sequence of runs of the
    chat page ([Chatbot.py]), the local chat page ([2Chat Local.py]) and the
    test page ([4About.py]), each ending in a value or an exception, while
    the shared stores may be changed between runs (by the ingestion page or
    the maintenance script, or by another session).  [reachable] is that
    closure; the theorems are invariants of every reachable state, proved by
    induction on it from the pages' [preserves] lemmas, the liveness of a
    chat turn from every reachable state, and the safety fact that these
    pages only read the stores.  [pages_share_stores] checks the set-up
    lines of every script: all open the same docstore and collection. *)

From Stdlib Require Import ZArith.
From S2P Require Import Prelude PyStr DocStore VectorStore Retriever Session Knowlage Chatbot ChatLocal About Maintenance.

Module App.
Import Collection Session Chatbot ChatLocal About.

(** A run of one of the pages that use the session state. *)
Inductive PageRun :=
  | RunChatbot (input : option string)
  | RunChatLocal (input : option string)
  | RunAbout.

Section Session.
Context {St : Type} `{DocStore St}.
Variables (ollama : string -> string -> list Z) (relevance : Z -> Z)
      (chat_llm : LLMConfig -> list (Role * string) -> res string)
      (local_llm : LLMConfig -> string -> res string)
      (py_repr_docs : list Document -> string).

Definition run_page (p : PageRun) : PyM (World St) unit :=
  match p with
  | RunChatbot input => chatbot_run ollama relevance chat_llm input
  | RunChatLocal input => chatlocal_run ollama relevance local_llm input
  | RunAbout => about_run ollama relevance py_repr_docs chat_llm
  end.

(** The states of one browser session. *)
Inductive reachable : World St -> Prop :=
  | reach_start st : reachable (mkWorld st None [])
  | reach_run w p r w' : reachable w -> run_page p w = (r, w') -> reachable w'
  | reach_stores w st : reachable w -> reachable (mkWorld st (chat_history w) (trace w)).
End Session.
End App.

Module AppFacts.
Import Collection Retriever Session SessionFacts Chatbot ChatbotFacts ChatLocal ChatLocalFacts
  About AboutFacts App.

(** Every script of the app opens the same two persistent stores: the
    docstore directory, the collection's directory and its name agree
    with the ingestion page's, which is why a session has one [stores]
    that every page reads and the ingestion page and the maintenance
    script write.  Only the embedding models differ. *)
Lemma pages_share_stores :
  Forall (fun c => opened_stores c = opened_stores Knowlage.knowlage_stores)
    [chatbot_stores; local_stores; about_stores; Maintenance.test_stores].
Proof. by repeat constructor. Qed.

Section Session.
Context {St : Type} `{DocStore St}.
Variables (ollama : string -> string -> list Z) (relevance : Z -> Z)
      (chat_llm : LLMConfig -> list (Role * string) -> res string)
      (local_llm : LLMConfig -> string -> res string)
      (py_repr_docs : list Document -> string).

Lemma preserves_about_run :
  preserves (@history_wf St) (about_run ollama relevance py_repr_docs chat_llm).
Proof.
  unfold about_run, ask_question, chain_invoke, retrieve. solve_preserves.
  all: case_decide; solve_preserves.
Qed.

Lemma preserves_run_page p :
  preserves history_wf (run_page ollama relevance chat_llm local_llm py_repr_docs p).
Proof.
  destruct p; simpl;
  auto using preserves_chatbot_run, preserves_chatlocal_run, preserves_about_run.
Qed.

Lemma reachable_history_wf w :
  reachable ollama relevance chat_llm local_llm py_repr_docs w -> history_wf w.
Proof.
  induction 1 as [st|w p r w' _ IH Hrun|w st _ IH]; [done| |done].
  exact (preserves_run_page p w r w' IH Hrun).
Qed.

(** C6 (invariant): in every state a session reaches, whatever pages
    ran and however their runs ended, the stored history holds only
    user and assistant messages, so converting it for a chat prompt
    never raises. *)
Theorem session_prompt_ok w h :
  reachable ollama relevance chat_llm local_llm py_repr_docs w ->
  chat_history w = Some h -> exists hs, convert_messages h = Ok hs.
Proof.
  intros Hr Hh. pose proof (reachable_history_wf w Hr) as Hwf.
  unfold history_wf in Hwf. rewrite Hh in Hwf. by apply convert_messages_ok.
Qed.

(** C16 (invariant): in every state a session reaches, the stored history
    is a list of (role, content) messages, and both chat pages replay it
    as exactly those role bubbles and texts: the local page's "Invalid
message format" branch (lines 88-89) is never taken. *)
Theorem session_replay_valid w h :
  reachable ollama relevance chat_llm local_llm py_repr_docs w ->
  chat_history w = Some h ->
  exists rcs, h = map (fun rc => mk_msg rc.1 rc.2) rcs /\
  forall w0 : World St,
    replay h w0 = (Ok tt, mkWorld (stores w0) (chat_history w0) (trace w0 ++ replay_frames rcs)%list) /\
    replay_local h w0 = (Ok tt, mkWorld (stores w0) (chat_history w0) (trace w0 ++ replay_frames rcs)%list).
Proof.
  intros Hr Hh. pose proof (reachable_history_wf w Hr) as Hwf.
  unfold history_wf in Hwf. rewrite Hh in Hwf.
  destruct (msg_ok_list h Hwf) as (rcs & -> & _). exists rcs. split; [done|].
  intros w0. split; [apply replay_spec|apply replay_local_spec].
Qed.

(** The history of every reachable state is a list of well-formed
    (role, content) messages. *)
Lemma reachable_history_msgs w :
  reachable ollama relevance chat_llm local_llm py_repr_docs w ->
  exists rcs, default [] (chat_history w) = map (fun rc => mk_msg rc.1 rc.2) rcs /\
    Forall msg_ok (map (fun rc => mk_msg rc.1 rc.2) rcs).
Proof.
  intros Hr. assert (Hf : Forall msg_ok (default [] (chat_history w))).
  { pose proof (reachable_history_wf w Hr) as Hwf. unfold history_wf in Hwf.
    by destruct (chat_history w). }
  destruct (msg_ok_list _ Hf) as (rcs & Hrcs & _). rewrite Hrcs in Hf. by exists rcs.
Qed.

(** C11 (liveness): no state a session reaches is stuck.  From every
    one, also after runs that raised and left an unanswered question in
    the history, one run of the chat page with a non-empty question, when
    the retrieval over the stores and the chat model answer, reaches a
    state of the session whose history ends with that question and the
    model's answer. *)
Theorem session_question_answered w p ctx st' :
  reachable ollama relevance chat_llm local_llm py_repr_docs w ->
  p <> "" ->
  get_relevant_documents ollama relevance chatbot_retriever p (stores w) = (Ok ctx, st') ->
  (forall msgs, exists a, chat_llm chatbot_model msgs = Ok a) ->
  exists w' h a, reachable ollama relevance chat_llm local_llm py_repr_docs w' /\
    run_page ollama relevance chat_llm local_llm py_repr_docs (RunChatbot (Some p)) w = (Ok tt, w') /\
    chat_history w' = Some (h ++ [mk_msg "user" p; mk_msg "assistant" a])%list /\
    stores w' = st'.
Proof.
  intros Hr Hp Hret Hllm.
  destruct (reachable_history_msgs w Hr) as (rcs & Hrcs & Hf).
  assert (exists a t, run_page ollama relevance chat_llm local_llm py_repr_docs (RunChatbot (Some p)) w =
    (Ok tt, mkWorld st' (Some (map (fun rc => mk_msg rc.1 rc.2) rcs ++
      [mk_msg "user" p; mk_msg "assistant" a])%list) t)) as (a & t & Hrun).
  { simpl run_page. rewrite (chatbot_run_eq ollama relevance chat_llm (Some p) rcs w Hrcs).
    destruct (String.eqb_spec p "") as [E|_]; [done|]. cbv zeta.
    match goal with |- context [answer_turn _ _ _ p ?w1] =>
      exact (answer_turn_progress ollama relevance chat_llm p ctx st' _ w1 eq_refl Hf Hret Hllm) end. }
  eexists _, _, a. split_and!; [by eapply reach_run|exact Hrun|done|done].
Qed.
End Session.

Section Shown.
Context {St : Type} `{DocStore St}.
Context (view : St -> gmap string Document) (key_ok : string -> bool) (inv : St -> Prop).
Context `{!DocStoreSpec St view key_ok inv}.
Variables (ollama : string -> string -> list Z) (relevance : Z -> Z)
          (chat_llm : LLMConfig -> list (Role * string) -> res string)
          (local_llm : LLMConfig -> string -> res string)
          (py_repr_docs : list Document -> string).

Lemma preserves_run_page_shown p :
  preserves (trace_ok (shown_ok DEFAULT_K))
    (run_page ollama relevance chat_llm local_llm py_repr_docs p).
Proof.
  destruct p; simpl.
  - exact (preserves_chatbot_run_shown view key_ok inv ollama relevance chat_llm input).
  - apply preserves_chatlocal_run_shown.
  - exact (preserves_about_run_shown view key_ok inv ollama relevance py_repr_docs chat_llm).
Qed.

Lemma reachable_shown w :
  reachable ollama relevance chat_llm local_llm py_repr_docs w -> trace_ok (shown_ok DEFAULT_K) w.
Proof.
  induction 1 as [st|w p r w' _ IH Hrun|w st _ IH]; [constructor| |done].
  exact (preserves_run_page_shown p w r w' IH Hrun).
Qed.

Lemma preserves_run_page_stores s0 p :
  preserves (stores_are s0) (run_page ollama relevance chat_llm local_llm py_repr_docs p).
Proof.
  destruct p; simpl.
  - apply (preserves_chatbot_run_stores view key_ok inv).
  - apply (preserves_chatlocal_run_stores view key_ok inv).
  - apply (preserves_about_run_stores view key_ok inv).
Qed.

(** C12 (safety): the chat page, the local chat page and the test page
    never write the stores: every run of one of them, whether it
    answers, shows nothing or raises (a dimension mismatch, a model
    error, a missing history), leaves the collection and the docstore as
    it found them, over any docstore meeting the [DocStoreSpec]
    contract.  Only the ingestion page and the maintenance script change
    them. *)
Theorem run_page_readonly p w r w' :
  run_page ollama relevance chat_llm local_llm py_repr_docs p w = (r, w') -> stores w' = stores w.
Proof. exact (preserves_run_page_stores (stores w) p w r w' eq_refl). Qed.

(** C10 (bounds): in every state a session reaches, every retrieved
    context a page has shown (the test page's [st.write] of the context,
    the chat page's [st.sidebar.write("Context : ", ...)]) holds at most
    [k = 4] documents, the retrievers' default [k]: one per distinct
    [doc_id] of at most four hits, whatever the stores hold. *)
Theorem session_context_bound w l docs :
  reachable ollama relevance chat_llm local_llm py_repr_docs w ->
  WriteDocs l docs ∈ trace w \/ SidebarWrite l docs ∈ trace w -> length docs <= DEFAULT_K.
Proof.
  intros Hr Hin. pose proof (reachable_shown w Hr) as Hok. unfold trace_ok in Hok.
  rewrite Forall_forall in Hok.
  destruct Hin as [Hin|Hin]; apply Hok in Hin; by apply Hin.
Qed.
End Shown.
End AppFacts.

Module AppWitness.
Import Collection Retriever Session SessionFacts Chatbot ChatLocal App AppFacts.

Definition w_ollama (m p : string) : list Z := [0%Z; 0%Z].
Definition w_relevance (d : Z) : Z := d.
Definition w_col : list Entry :=
  [mkEntry "x1" [0%Z; 0%Z] "ringkasan" {[ id_key := "d1" ]}].
Definition w_doc : Document := doc_with_id "Ketua jurusan: Pak Budi" "d1".
Definition w_store : LocalFileStore Document := mkLocalFileStore {[ "d1" := w_doc ]}.
Definition w_llm (m : LLMConfig) (msgs : list (Role * string)) : res string := Ok "Pak Budi".
Definition w_local_llm (m : LLMConfig) (prompt : string) : res string := Ok "Pak Budi".
Definition w_repr (docs : list Document) : string := "[...]".
Definition w_q : string := "Siapa kajur?".

(** A session that opened the chat page and asked one question. *)
Definition w_run : PageRun := RunChatbot (Some w_q).
Definition w_start : World (LocalFileStore Document) := mkWorld (w_col, w_store) None [].
Definition w_after : World (LocalFileStore Document) :=
  (@run_page _ (KVDocstore id Ok) w_ollama w_relevance w_llm w_local_llm w_repr w_run w_start).2.

Lemma w_after_reachable :
  @reachable _ (KVDocstore id Ok) w_ollama w_relevance w_llm w_local_llm w_repr w_after.
Proof.
  eapply reach_run; [apply reach_start|]. apply surjective_pairing.
Qed.

Lemma session_prompt_ok_witness :
  exists hs, convert_messages [mk_msg "user" w_q; mk_msg "assistant" "Pak Budi"] = Ok hs.
Proof.
  apply (@session_prompt_ok _ (KVDocstore id Ok) w_ollama w_relevance w_llm w_local_llm w_repr
           w_after).
  - apply w_after_reachable.
  - vm_compute. reflexivity.
Defined.

Lemma session_replay_valid_witness :
  exists rcs, [mk_msg "user" w_q; mk_msg "assistant" "Pak Budi"] =
                map (fun rc => mk_msg rc.1 rc.2) rcs /\
    forall w0 : World (LocalFileStore Document),
      replay [mk_msg "user" w_q; mk_msg "assistant" "Pak Budi"] w0 =
        (Ok tt, mkWorld (stores w0) (chat_history w0) (trace w0 ++ replay_frames rcs)%list) /\
      replay_local [mk_msg "user" w_q; mk_msg "assistant" "Pak Budi"] w0 =
        (Ok tt, mkWorld (stores w0) (chat_history w0) (trace w0 ++ replay_frames rcs)%list).
Proof.
  apply (@session_replay_valid _ (KVDocstore id Ok) w_ollama w_relevance w_llm w_local_llm
           w_repr w_after).
  - apply w_after_reachable.
  - vm_compute. reflexivity.
Defined.
Lemma session_context_bound_witness :
  length [w_doc] <= DEFAULT_K.
Proof.
  apply (@session_context_bound _ (KVDocstore id Ok) (kv_view Ok) valid_key (kv_wf Ok)
           (KVDocstore_spec id Ok (fun d => eq_refl))
           w_ollama w_relevance w_llm w_local_llm w_repr w_after "Context : " [w_doc]).
  - apply w_after_reachable.
  - right. apply (bool_decide_unpack _). vm_compute. exact I.
Defined.
(** A second question, asked in the state the first run left. *)
Definition w_q2 : string := "Siapa sekretaris jurusan?".

Lemma session_question_answered_witness :
  exists w' h a,
    @reachable _ (KVDocstore id Ok) w_ollama w_relevance w_llm w_local_llm w_repr w' /\
    @run_page _ (KVDocstore id Ok) w_ollama w_relevance w_llm w_local_llm w_repr
      (RunChatbot (Some w_q2)) w_after = (Ok tt, w') /\
    chat_history w' = Some (h ++ [mk_msg "user" w_q2; mk_msg "assistant" a])%list /\
    stores w' = (w_col, w_store).
Proof.
  apply (@session_question_answered _ (KVDocstore id Ok) w_ollama w_relevance w_llm w_local_llm
           w_repr w_after w_q2 [w_doc] (w_col, w_store)).
  - apply w_after_reachable.
  - discriminate.
  - vm_compute. reflexivity.
  - intros msgs. by exists "Pak Budi".
Defined.
Lemma run_page_readonly_witness : stores w_after = stores w_start.
Proof.
  apply (@run_page_readonly _ (KVDocstore id Ok) (kv_view Ok) valid_key (kv_wf Ok)
           (KVDocstore_spec id Ok (fun d => eq_refl))
           w_ollama w_relevance w_llm w_local_llm w_repr w_run w_start
           (@run_page _ (KVDocstore id Ok) w_ollama w_relevance w_llm w_local_llm w_repr w_run w_start).1).
  apply surjective_pairing.
Defined.
End AppWitness.
