(* ===== verification/System.v ===== *)
(** * The whole app: the ingestion page and the query pages on shared stores

    Every script of the app opens the same docstore directory and the same
    collection ([AppFacts.pages_share_stores]).  A state of the app is
    therefore the ingestion page's world (the uploaded PDFs, the two
    stores, the [uuid4] draws so far) together with one browser session's
    [chat_history] and trace.  [app_reachable] is the closure of runs of
    the ingestion page ([Knowlage.knowlage_page]) and of the chat, local
    chat and test pages ([App.run_page]) in any order, from empty stores,
    each run ending in a value or an exception.  The maintenance script is
    left out: it keeps the stores' integrity only when its hard-coded
    [doc_id] is stored ([IntegrityFacts.test_run_integrity]).

    The query pages only read the stores ([AppFacts.preserves_run_page_stores]),
    so the integrity invariant the ingestion page keeps holds in every state
    of the app, and every retrieval the pages make joins each hit to its
    original. *)

From Stdlib Require Import ZArith.
From S2P Require Import Prelude PyStr DocStore VectorStore Retriever Session Knowlage Chatbot ChatLocal About Maintenance Integrity App.

Module System.
Import Collection Retriever Session App.

Section System.
Context {V : Type} (dumps : Document -> V) (loads : V -> res Document).
Variables (partition_pdf : list Byte.byte -> res (list Knowlage.PElement))
          (groq : LLMConfig -> string -> res string) (ollama : string -> string -> list Z)
          (uuid4 : nat -> string) (relevance : Z -> Z)
          (chat_llm : LLMConfig -> list (Role * string) -> res string)
          (local_llm : LLMConfig -> string -> res string) (py_repr_docs : list Document -> string).

(** The ingestion page's world and one session's state. *)
Record AppState := mkAppState {
  kworld : Knowlage.World V;
  session_history : option (list (gmap string string));
  session_trace : list UIEvent;
}.

(** What a query page sees: the two stores and the session. *)
Definition session_of (a : AppState) : Session.World (LocalFileStore V) :=
  Session.mkWorld (Knowlage.chroma (kworld a), Knowlage.docstore (kworld a))
    (session_history a) (session_trace a).

(** The app after a query page's run: the stores it left and the session. *)
Definition after_page (a : AppState) (w : Session.World (LocalFileStore V)) : AppState :=
  mkAppState (Knowlage.mkWorld (Knowlage.pdf_files (kworld a)) (Session.stores w).2
                (Session.stores w).1 (Knowlage.rng (kworld a)))
    (Session.chat_history w) (Session.trace w).

Inductive app_reachable : AppState -> Prop :=
  | app_start n : app_reachable (mkAppState (Knowlage.mkWorld ∅ (mkLocalFileStore ∅) [] n) None [])
  | app_ingest a f r k :
      app_reachable a ->
      Knowlage.knowlage_page dumps partition_pdf groq ollama uuid4 f (kworld a) = (r, k) ->
      app_reachable (mkAppState k (session_history a) (session_trace a))
  | app_page a p r w :
      app_reachable a ->
      @run_page _ (KVDocstore dumps loads) ollama relevance chat_llm local_llm py_repr_docs p
        (session_of a) = (r, w) ->
      app_reachable (after_page a w).
End System.
End System.

Module SystemFacts.
Import Collection Retriever RetrieverFacts Session SessionFacts App AppFacts Integrity IntegrityFacts
  System.

Section Facts.
Context {V : Type} (dumps : Document -> V) (loads : V -> res Document).
Hypothesis loads_dumps : forall d, loads (dumps d) = Ok d.
Variables (partition_pdf : list Byte.byte -> res (list Knowlage.PElement))
          (groq : LLMConfig -> string -> res string) (ollama : string -> string -> list Z)
          (uuid4 : nat -> string) (relevance : Z -> Z)
          (chat_llm : LLMConfig -> list (Role * string) -> res string)
          (local_llm : LLMConfig -> string -> res string) (py_repr_docs : list Document -> string).

(** The integrity invariant holds in every state of the app: uploads keep
    it and the query pages do not touch the stores. *)
Lemma app_store_ok a :
  app_reachable dumps loads partition_pdf groq ollama uuid4 relevance chat_llm local_llm
    py_repr_docs a ->
  store_ok loads (kworld a).
Proof.
  induction 1 as [n|a f r k _ IH Hrun|a p r w _ IH Hrun]; [apply (store_ok_empty dumps loads loads_dumps)|..].
  - exact (knowlage_page_store_ok dumps loads loads_dumps partition_pdf groq ollama uuid4 f
             (kworld a) r k IH Hrun).
  - pose proof (preserves_run_page_stores (kv_view loads) valid_key (kv_wf loads)
                  (DocStoreSpec0 := KVDocstore_spec dumps loads loads_dumps)
                  ollama relevance chat_llm local_llm py_repr_docs _ p _ r w eq_refl Hrun) as Hs.
    unfold stores_are in Hs. unfold after_page. rewrite Hs. destruct a as [[pf ds ch n] h t]. exact IH.
Qed.

(** C13 (invariant): in every state of the whole app (uploads on the
    ingestion page and runs of the chat, local chat and test pages, in
    any order from empty stores, each ending in a value or an
    exception), a search that returns the hits [subs] makes the
    retriever return the stored original of each distinct [doc_id] of
    the hits, in order of first hit: the join never drops a hit, and the
    stores are left as they were. *)
Theorem app_retrieval_complete a r q subs :
  app_reachable dumps loads partition_pdf groq ollama uuid4 relevance chat_llm local_llm
    py_repr_docs a ->
  sub_docs_search ollama relevance r q (Knowlage.chroma (kworld a)) =
    (Ok subs, Knowlage.chroma (kworld a)) ->
  exists docs,
    @get_relevant_documents _ (KVDocstore dumps loads) ollama relevance r q (stores (session_of a)) =
      (Ok docs, stores (session_of a)) /\
    Forall2 (fun i d => kv_view loads (Knowlage.docstore (kworld a)) !! i = Some d)
      (collect_ids subs) docs.
Proof.
  intros Ha. apply (store_ok_retrieval_complete dumps loads loads_dumps ollama relevance (kworld a)).
  by apply app_store_ok.
Qed.
End Facts.
End SystemFacts.

Module SystemWitness.
Import Collection Retriever Session App Chatbot KnowlageWitness IntegrityWitness System SystemFacts.

Definition w_chat_llm (m : LLMConfig) (msgs : list (Role * string)) : res string := Ok "Pak Budi".
Definition w_local_llm (m : LLMConfig) (prompt : string) : res string := Ok "Pak Budi".
Definition w_repr (docs : list Document) : string := "[...]".
Definition w_q : string := "Ketua jurusan ?".

(** Empty stores, one upload of a PDF with a table and a text, then one
    question on the chat page. *)
Definition a_start : AppState := mkAppState IntegrityWitness.w_start None [].
Definition a_ingested : AppState := mkAppState IntegrityWitness.w_after None [].
Definition a_chatted : AppState :=
  after_page a_ingested
    (@run_page _ (KVDocstore id Ok) w_ollama id w_chat_llm w_local_llm w_repr
       (RunChatbot (Some w_q)) (session_of a_ingested)).2.

Lemma a_chatted_reachable :
  app_reachable id Ok w_partition w_groq w_ollama w_uuid id w_chat_llm w_local_llm w_repr a_chatted.
Proof.
  eapply app_page; [|apply surjective_pairing].
  change a_ingested with
    (mkAppState IntegrityWitness.w_after (session_history a_start) (session_trace a_start)).
  eapply app_ingest with (a := a_start); [apply app_start|].
  apply surjective_pairing.
Qed.

(** The chat page's search on the collection the upload built. *)
Definition a_subs : list Document :=
  match (sub_docs_search w_ollama id chatbot_retriever w_q (Knowlage.chroma (kworld a_chatted))).1 with
  | Ok subs => subs
  | Err _ => []
  end.

Lemma app_retrieval_complete_witness :
  exists docs,
    @get_relevant_documents _ (KVDocstore id Ok) w_ollama id chatbot_retriever w_q
      (stores (session_of a_chatted)) = (Ok docs, stores (session_of a_chatted)) /\
    Forall2 (fun i d => kv_view Ok (Knowlage.docstore (kworld a_chatted)) !! i = Some d)
      (collect_ids a_subs) docs.
Proof.
  apply (app_retrieval_complete id Ok (fun d => eq_refl) w_partition w_groq w_ollama w_uuid id
           w_chat_llm w_local_llm w_repr a_chatted chatbot_retriever w_q a_subs).
  - apply a_chatted_reachable.
  - vm_compute. reflexivity.
Defined.
End SystemWitness.
